(** * perm_tracker: a shallow embedding of the status tracker and its estimator

    The development follows the Python sources:
    - [estimate.py]            (class ETAEstimator),
    - [perm_scraper.py]        (the JSON and page-text parsers of PERMScraper),
    - [uscis_tracker/case_status_api.py] (the OAuth2 strategy of CaseStatusAPI),
    - [notifier.py] and [uscis_tracker/notifier.py] (the accent colour and the
      service-centre table of the e-mail notifiers).

    Python values are modelled as the interpreter has them: [int] is [Z],
    [float] is an IEEE-754 binary64 number obtained by correct rounding of an
    exact rational, [str] is [string] (texts are taken to be ASCII), [dict] is
    a [gmap], and a raised exception is the [Raise] branch of [result]. *)

From Stdlib Require Import ZArith Lia Bool List Ascii String DecimalString.
From stdpp Require Import gmap strings.

Local Open Scope Z_scope.

(** ** Exceptions and the error monad *)

Inductive exn : Type :=
| ZeroDivisionError
| OverflowError
| ValueError
| TypeError
| AttributeError
| UnboundLocalError
| RecursionError
| ConnectionError.

Inductive result (A : Type) : Type :=
| Ok (a : A)
| Raise (e : exn).
Arguments Ok {A} a.
Arguments Raise {A} e.

Definition rbind {A B : Type} (r : result A) (k : A -> result B) : result B :=
  match r with
  | Ok a => k a
  | Raise e => Raise e
  end.

Notation "'do' x <- r ; k" := (rbind r (fun x => k))
  (at level 10, x name, r at level 100, k at level 200).

(** [try: body except Exception: handler] *)
Definition try_except {A : Type} (body : result A) (handler : exn -> A) : A :=
  match body with
  | Ok a => a
  | Raise e => handler e
  end.

(** ** Python floats: IEEE-754 binary64 with round-to-nearest-even *)

Module Binary64.

(** [Finite m e] is the number [m * 2^e].  Zero carries no sign: the only
    place where the estimator could produce a negative zero is immediately
    clamped by [max(0.0, _)]. *)
Inductive pyfloat : Type :=
| Finite (m e : Z)
| Infinity (negative : bool)
| NaN.

(** The value of a finite float as a fraction [fnum / fden], [fden > 0]. *)
Definition fnum (m e : Z) : Z := m * 2 ^ Z.max e 0.
Definition fden (e : Z) : Z := 2 ^ Z.max (- e) 0.

(** Rounding of the rational [n / d] (with [d > 0]) to the nearest integer,
    ties to even. *)
Definition rne (n d : Z) : Z :=
  let q := n / d in
  let r := n mod d in
  if 2 * r <? d then q
  else if d <? 2 * r then q + 1
  else if Z.even q then q else q + 1.

(** [2^k <= n / d], for [n, d > 0]. *)
Definition pow2_le_ratio (k n d : Z) : bool := fnum d k <=? n * fden k.

(** [floor (log2 (n / d))], for [n, d > 0]. *)
Definition floor_log2 (n d : Z) : Z :=
  let k := Z.log2 n - Z.log2 d in
  if pow2_le_ratio k n d then k else k - 1.

(** The integer nearest to [n / (d * 2^e)]. *)
Definition scaled_rne (n d e : Z) : Z := rne (n * fden e) (fnum d e).

(** binary64: 53 bits of precision, least exponent -1074, overflow from
    [2^1024] on. *)
Definition round_exponent (n d : Z) : Z :=
  Z.max (floor_log2 (Z.abs n) d - 52) (-1074).

Definition round_b64 (n d : Z) : pyfloat :=
  if n =? 0 then Finite 0 0
  else
    let e := round_exponent n d in
    let m := scaled_rne n d e in
    if (0 <=? e) && (2 ^ 1024 <=? Z.abs m * 2 ^ e)
    then Infinity (n <? 0)
    else Finite m e.

Definition round_dyadic (m e : Z) : pyfloat := round_b64 (fnum m e) (fden e).

(** A decimal literal [n / d] of the source text, e.g. [0.2] is [literal 2 10]. *)
Definition literal (n d : Z) : pyfloat := round_b64 n d.

(** [a / b] on two ints (CPython's [long_true_divide]): the exact quotient,
    correctly rounded. *)
Definition int_truediv (a b : Z) : result pyfloat :=
  if b =? 0 then Raise ZeroDivisionError
  else
    match (if b <? 0 then round_b64 (- a) (- b) else round_b64 a b) with
    | Infinity _ => Raise OverflowError
    | f => Ok f
    end.

(** [float(n)], the conversion applied to an int operand of a mixed
    operation. *)
Definition float_of_int (n : Z) : result pyfloat :=
  match round_b64 n 1 with
  | Infinity _ => Raise OverflowError
  | f => Ok f
  end.

Definition fmul (a b : pyfloat) : pyfloat :=
  match a, b with
  | NaN, _ | _, NaN => NaN
  | Finite m1 e1, Finite m2 e2 => round_dyadic (m1 * m2) (e1 + e2)
  | Infinity s, Finite m _ | Finite m _, Infinity s =>
      if m =? 0 then NaN else Infinity (xorb s (m <? 0))
  | Infinity s1, Infinity s2 => Infinity (xorb s1 s2)
  end.

Definition fadd (a b : pyfloat) : pyfloat :=
  match a, b with
  | NaN, _ | _, NaN => NaN
  | Finite m1 e1, Finite m2 e2 =>
      let e := Z.min e1 e2 in
      round_dyadic (m1 * 2 ^ (e1 - e) + m2 * 2 ^ (e2 - e)) e
  | Infinity s, Finite _ _ | Finite _ _, Infinity s => Infinity s
  | Infinity s1, Infinity s2 => if eqb s1 s2 then Infinity s1 else NaN
  end.

(** Ordering of two finite values. *)
Definition dyadic_compare (m1 e1 m2 e2 : Z) : comparison :=
  let e := Z.min e1 e2 in
  (m1 * 2 ^ (e1 - e)) ?= (m2 * 2 ^ (e2 - e)).

Definition fcompare (a b : pyfloat) : option comparison :=
  match a, b with
  | NaN, _ | _, NaN => None
  | Finite m1 e1, Finite m2 e2 => Some (dyadic_compare m1 e1 m2 e2)
  | Infinity true, Infinity true | Infinity false, Infinity false => Some Eq
  | Infinity true, _ | _, Infinity false => Some Lt
  | Infinity false, _ | _, Infinity true => Some Gt
  end.

Definition flt (a b : pyfloat) : bool :=
  match fcompare a b with Some Lt => true | _ => false end.
Definition fle (a b : pyfloat) : bool :=
  match fcompare a b with Some Lt | Some Eq => true | _ => false end.
Definition fgt (a b : pyfloat) : bool := flt b a.
Definition fge (a b : pyfloat) : bool := fle b a.
Definition feq (a b : pyfloat) : bool :=
  match fcompare a b with Some Eq => true | _ => false end.

(** An int compared with a float: Python compares the exact values. *)
Definition eq_int (a : pyfloat) (n : Z) : bool := feq a (Finite n 0).

Definition is_zero (a : pyfloat) : bool :=
  match a with Finite m _ => m =? 0 | _ => false end.

(** [math.ceil] *)
Definition ceil_ratio (n d : Z) : Z := - ((- n) / d).

Definition ceil (a : pyfloat) : result Z :=
  match a with
  | Finite m e => Ok (ceil_ratio (fnum m e) (fden e))
  | Infinity _ => Raise OverflowError
  | NaN => Raise ValueError
  end.

(** The builtins [min(a, b)] and [max(a, b)]: the first argument is kept
    unless the second is strictly smaller (resp. larger). *)
Definition fmin (a b : pyfloat) : pyfloat := if flt b a then b else a.
Definition fmax (a b : pyfloat) : pyfloat := if fgt b a then b else a.

(** [round(x, 1)]: the decimal with one digit nearest to the exact value
    (ties to even), converted back to the nearest float. *)
Definition round1 (a : pyfloat) : pyfloat :=
  match a with
  | Finite m e => round_b64 (rne (10 * fnum m e) (fden e)) 10
  | other => other
  end.

End Binary64.

(** ** Python strings (ASCII texts) *)

(** The texts of the model are ASCII: a character of code 128 or more
    stands for no character of a Python string, whose case mapping and blank
    test beyond ASCII follow the Unicode tables. *)

Module Text.

Definition code (c : ascii) : Z := Z.of_N (N_of_ascii c).

Definition is_upper (c : ascii) : bool := (65 <=? code c) && (code c <=? 90).
Definition is_digit (c : ascii) : bool := (48 <=? code c) && (code c <=? 57).

(** [str.isspace] on the ASCII range: tab to carriage return, the four
    separators 0x1c-0x1f and the space. *)
Definition is_space (c : ascii) : bool :=
  ((9 <=? code c) && (code c <=? 13)) || ((28 <=? code c) && (code c <=? 32)).

Definition lower_char (c : ascii) : ascii :=
  if is_upper c then ascii_of_N (N_of_ascii c + 32) else c.

(** [s.lower()] *)
Fixpoint lower (s : string) : string :=
  match s with
  | EmptyString => EmptyString
  | String c s' => String (lower_char c) (lower s')
  end.

(** [needle in hay] *)
Fixpoint contains (needle hay : string) : bool :=
  String.prefix needle hay ||
  match hay with
  | EmptyString => false
  | String _ hay' => contains needle hay'
  end.

(** [any(word in text for word in words)] *)
Definition any_in (words : list string) (text : string) : bool :=
  existsb (fun word => contains word text) words.

(** [s.replace(c, '')] for a one-character [c] *)
Fixpoint remove_char (c : ascii) (s : string) : string :=
  match s with
  | EmptyString => EmptyString
  | String x s' =>
      if Ascii.eqb x c then remove_char c s' else String x (remove_char c s')
  end.

Fixpoint lstrip (s : string) : string :=
  match s with
  | String c s' => if is_space c then lstrip s' else s
  | EmptyString => EmptyString
  end.

Fixpoint rev_string (s acc : string) : string :=
  match s with
  | EmptyString => acc
  | String c s' => rev_string s' (String c acc)
  end.

Definition rstrip (s : string) : string :=
  rev_string (lstrip (rev_string s EmptyString)) EmptyString.

(** [s.strip()] *)
Definition strip (s : string) : string := rstrip (lstrip s).

(** [s.split('\n')] *)
Fixpoint split_lines_aux (s cur : string) : list string :=
  match s with
  | EmptyString => [rev_string cur EmptyString]
  | String c s' =>
      if Ascii.eqb c "010"%char
      then rev_string cur EmptyString :: split_lines_aux s' EmptyString
      else split_lines_aux s' (String c cur)
  end.
Definition split_lines (s : string) : list string := split_lines_aux s EmptyString.

Fixpoint digits_value (s : string) (acc : Z) : option Z :=
  match s with
  | EmptyString => Some acc
  | String c s' =>
      if is_digit c then digits_value s' (10 * acc + (code c - 48)) else None
  end.

(** The interpreter's limit on the conversions between [int] and [str]
    ([sys.int_info.default_max_str_digits]; [setup.py] asks for CPython 3.11
    or later): beyond 4300 digits both directions raise [ValueError]. *)
Definition MAX_STR_DIGITS : Z := 4300.

(** [int(s)] on the strings the parsers hand over (runs of digits, possibly
    padded with blanks): anything else is a [ValueError], and so is a run of
    more than [MAX_STR_DIGITS] digits. *)
Definition py_int (s : string) : result Z :=
  match strip s with
  | EmptyString => Raise ValueError
  | t => match digits_value t 0 with
         | Some n =>
             if MAX_STR_DIGITS <? Z.of_nat (String.length t)
             then Raise ValueError
             else Ok n
         | None => Raise ValueError
         end
  end.

(** [f"{n}"] for an int [n], kept for its exception only: the decimal
    rendering of a number of more than [MAX_STR_DIGITS] digits, that is of
    absolute value [10 ^ MAX_STR_DIGITS] or more, is refused.  A number of
    at most [MAX_STR_DIGITS] bits is below that bound; answering for it at
    once keeps the power out of the evaluation of ordinary inputs. *)
Definition format_int (n : Z) : result unit :=
  if Z.log2 (Z.abs n) <? MAX_STR_DIGITS then Ok tt
  else if Z.abs n <? 10 ^ MAX_STR_DIGITS then Ok tt
  else Raise ValueError.

End Text.

(** ** A backtracking matcher for the regular expressions of the sources *)

Module Re.
Import Text.

Inductive regex : Type :=
| Eps
| Chr (c : ascii)
| Cls (p : ascii -> bool)
| Seq (a b : regex)
| Alt (a b : regex)
| Star (a : regex)
| Group (i : nat) (a : regex).

Definition chr_matches (ignorecase : bool) (c x : ascii) : bool :=
  if ignorecase then Ascii.eqb (lower_char c) (lower_char x) else Ascii.eqb c x.

(** The text consumed between [s] and its suffix [s']. *)
Definition consumed (s s' : string) : string :=
  substring 0 (String.length s - String.length s') s.

Section Matcher.
Context {R : Type}.
Variable ignorecase : bool.

(** [run r s caps k]: match [r] at the head of [s], then continue with [k]
    on the rest; alternatives are tried in priority order (left branch
    first, longest repetition first), as Python's [re] does. *)
Fixpoint run (r : regex) (s : string) (caps : gmap nat string)
    (k : string -> gmap nat string -> option R) {struct r} : option R :=
  match r with
  | Eps => k s caps
  | Chr c =>
      match s with
      | String x s' => if chr_matches ignorecase c x then k s' caps else None
      | EmptyString => None
      end
  | Cls p =>
      match s with
      | String x s' => if p x then k s' caps else None
      | EmptyString => None
      end
  | Seq a b => run a s caps (fun s' caps' => run b s' caps' k)
  | Alt a b =>
      match run a s caps k with
      | Some x => Some x
      | None => run b s caps k
      end
  | Star a =>
      (fix iter (fuel : nat) (s : string) (caps : gmap nat string) : option R :=
         match fuel with
         | O => k s caps
         | S fuel' =>
             match run a s caps
                     (fun s' caps' =>
                        if (String.length s' <? String.length s)%nat
                        then iter fuel' s' caps' else None) with
             | Some x => Some x
             | None => k s caps
             end
         end) (String.length s) s caps
  | Group i a =>
      run a s caps (fun s' caps' => k s' (<[i := consumed s s']> caps'))
  end.
End Matcher.

(** [re.match(r, s)]: the captures and the unread rest. *)
Definition re_match (ignorecase : bool) (r : regex) (s : string)
  : option (gmap nat string * string) :=
  run ignorecase r s ∅ (fun rest caps => Some (caps, rest)).

(** [re.search(r, s)]: the leftmost match. *)
Fixpoint re_search (ignorecase : bool) (r : regex) (s : string)
  : option (gmap nat string) :=
  match run ignorecase r s ∅ (fun _ caps => Some caps) with
  | Some caps => Some caps
  | None =>
      match s with
      | EmptyString => None
      | String _ s' => re_search ignorecase r s'
      end
  end.

(** [m.group(i)] *)
Definition group (caps : gmap nat string) (i : nat) : string :=
  default EmptyString (caps !! i).

Fixpoint lit (s : string) : regex :=
  match s with
  | EmptyString => Eps
  | String c s' => Seq (Chr c) (lit s')
  end.

Definition plus (r : regex) : regex := Seq r (Star r).
Definition opt (r : regex) : regex := Alt r Eps.
Definition digit : regex := Cls is_digit.                    (* \d *)
Definition spaces : regex := Star (Cls is_space).            (* \s* *)
Definition range (lo hi : ascii) : regex :=
  Cls (fun c => (code lo <=? code c) && (code c <=? code hi)).
Fixpoint seqs (rs : list regex) : regex :=
  match rs with
  | [] => Eps
  | r :: rs' => Seq r (seqs rs')
  end.

End Re.

(** ** Dates: proleptic Gregorian ordinals, as in Python's [datetime] *)

Module PyDate.
Import Text Re.

(** [date.max.toordinal()], the ordinal of 9999-12-31; ordinal 1 is
    0001-01-01. *)
Definition MAXORDINAL : Z := 3652059.

Definition _is_leap (year : Z) : bool :=
  (year mod 4 =? 0) && (negb (year mod 100 =? 0) || (year mod 400 =? 0)).

Definition _days_before_year (year : Z) : Z :=
  let y := year - 1 in
  y * 365 + y / 4 - y / 100 + y / 400.

Definition _days_in_month (year month : Z) : Z :=
  if (month =? 2) && _is_leap year then 29
  else nth (Z.to_nat month) [0; 31; 28; 31; 30; 31; 30; 31; 31; 30; 31; 30; 31] 0.

Definition _days_before_month (year month : Z) : Z :=
  nth (Z.to_nat month) [0; 0; 31; 59; 90; 120; 151; 181; 212; 243; 273; 304; 334] 0
  + (if (2 <? month) && _is_leap year then 1 else 0).

Definition _ymd2ord (year month day : Z) : Z :=
  _days_before_year year + _days_before_month year month + day.

(** [date.weekday()]: Monday is 0, Saturday 5, Sunday 6. *)
Definition weekday (ordinal : Z) : Z := (ordinal + 6) mod 7.

(** [date(year, month, day)] raises [ValueError] outside the calendar. *)
Definition make_date (year month day : Z) : result Z :=
  if (1 <=? year) && (year <=? 9999) && (1 <=? month) && (month <=? 12)
     && (1 <=? day) && (day <=? _days_in_month year month)
  then Ok (_ymd2ord year month day)
  else Raise ValueError.

(** [d + timedelta(days=n)]: [timedelta] accepts at most 999999999 days and
    the sum has to stay inside the calendar. *)
Definition add_days (ordinal n : Z) : result Z :=
  if (Z.abs n <=? 999999999) && (1 <=? ordinal + n) && (ordinal + n <=? MAXORDINAL)
  then Ok (ordinal + n)
  else Raise OverflowError.

(** The regular expression [_strptime] builds for the format ['%Y-%m-%d']. *)
Definition ymd_regex : regex :=
  seqs
    [ Group 1 (seqs [digit; digit; digit; digit]);
      Chr "-";
      Group 2 (Alt (Seq (Chr "1") (range "0" "2"))
              (Alt (Seq (Chr "0") (range "1" "9"))
                   (range "1" "9")));
      Chr "-";
      Group 3 (Alt (Seq (Chr "3") (range "0" "1"))
              (Alt (Seq (range "1" "2") digit)
              (Alt (Seq (Chr "0") (range "1" "9"))
              (Alt (range "1" "9")
                   (Seq (Chr " ") (range "1" "9")))))) ].

(** [datetime.strptime(s, '%Y-%m-%d')], as the ordinal of the parsed day. *)
Definition strptime_ymd (s : string) : result Z :=
  match re_match true ymd_regex s with
  | None => Raise ValueError
  | Some (caps, rest) =>
      match rest with
      | EmptyString =>
          do year <- py_int (group caps 1);
          do month <- py_int (group caps 2);
          do day <- py_int (group caps 3);
          make_date year month day
      | String _ _ => Raise ValueError     (* unconverted data remains *)
      end
  end.

End PyDate.

(** ** Configuration ([config.py]) *)

Record Config : Type := {
  DEFAULT_PROCESSING_RATE : Z;
  MOCK_POSITION : Z;
  MOCK_TOTAL_APPLICATIONS : Z;
  SCRAPER_RETRIES : Z
}.

(** The values used when the environment sets nothing. *)
Definition default_config : Config := {|
  DEFAULT_PROCESSING_RATE := 50;
  MOCK_POSITION := 1500;
  MOCK_TOTAL_APPLICATIONS := 5000;
  SCRAPER_RETRIES := 3
|}.

(** ** The ETA estimator ([estimate.py]) *)

Module ETAEstimator.
Import Binary64 Text PyDate.

(** The dict returned by [calculate_eta].  Dates rendered by
    [strftime('%Y-%m-%d')] are kept as ordinals; [is_fallback] is [None] when
    the key is absent. *)
Record ETAResult : Type := {
  estimated_approval_date : Z;
  days_remaining : Z;
  confidence_level : string;
  progress_percentage : pyfloat;
  estimated_processing_date : Z;
  processing_rate : Z;
  position_in_queue : Z;
  submission_date : string;
  is_fallback : option bool
}.

Section Estimator.
Variable config : Config.
(** [datetime.now()]: the ordinal of the current day (one reading of the
    clock per call of [calculate_eta]). *)
Variable today : Z.

Definition effective_rate (processing_rate : Z) : Z :=
  if processing_rate <=? 0 then DEFAULT_PROCESSING_RATE config else processing_rate.

(** The three numbers [_calculate_days_remaining] logs:
    [days_remaining], [buffer_days] and [total_days]. *)
Definition days_breakdown (position processing_rate : Z) : result (Z * Z * Z) :=
  do _ <- (if processing_rate <=? 0
           then format_int processing_rate      (* the warning logged *)
           else Ok tt);
  let processing_rate := effective_rate processing_rate in
  do quotient <- int_truediv position processing_rate;
  do days_remaining <- ceil quotient;
  do as_float <- float_of_int days_remaining;
  do buffer_days <- ceil (fmul as_float (literal 2 10));
  Ok (days_remaining, buffer_days, days_remaining + buffer_days).

Definition _calculate_days_remaining (position processing_rate : Z) : result Z :=
  do parts <- days_breakdown position processing_rate;
  Ok (Z.max 1 (snd parts)).

(** [while d.weekday() >= 5: d += timedelta(days=1)]; two rounds always
    suffice (lemma [skip_weekend_fuel]). *)
Fixpoint skip_weekend (fuel : nat) (d : Z) : result Z :=
  if 5 <=? weekday d then
    match fuel with
    | O => Ok d
    | S fuel' => do d' <- add_days d 1; skip_weekend fuel' d'
    end
  else Ok d.

Definition _calculate_approval_date (days_remaining : Z) : result Z :=
  do approval_date <- add_days today days_remaining;
  skip_weekend 2 approval_date.

Definition position_factor (position : Z) : pyfloat :=
  if position <=? 100 then literal 3 10
  else if position <=? 500 then literal 2 10
  else if position <=? 1000 then literal 1 10
  else literal 5 100.

Definition rate_factor (processing_rate : Z) : pyfloat :=
  if 100 <=? processing_rate then literal 3 10
  else if 50 <=? processing_rate then literal 2 10
  else if 25 <=? processing_rate then literal 1 10
  else literal 5 100.

Definition days_factor (days_remaining : Z) : pyfloat :=
  if days_remaining <=? 30 then literal 2 10
  else if days_remaining <=? 90 then literal 15 100
  else if days_remaining <=? 180 then literal 1 10
  else literal 5 100.

Definition confidence_score (position processing_rate days_remaining : Z) : pyfloat :=
  fadd (fadd (fadd (fadd (Finite 0 0) (position_factor position))
                   (rate_factor processing_rate))
             (days_factor days_remaining))
       (literal 1 10).

Definition _determine_confidence_level
    (position processing_rate days_remaining : Z) : string :=
  let score := confidence_score position processing_rate days_remaining in
  if fge score (literal 7 10) then "High"
  else if fge score (literal 5 10) then "Medium"
  else "Low".

Definition _calculate_progress_percentage (position : Z) : result pyfloat :=
  let estimated_total_queue := MOCK_TOTAL_APPLICATIONS config in
  if estimated_total_queue <=? 0 then Ok (Finite 0 0)
  else
    do ratio <- int_truediv (estimated_total_queue - position) estimated_total_queue;
    do hundred <- float_of_int 100;
    let progress :=
      fmax (Finite 0 0) (fmin (literal 100 1) (fmul ratio hundred)) in
    Ok (round1 progress).

Definition _calculate_processing_date (position processing_rate : Z) : result Z :=
  let processing_rate := effective_rate processing_rate in
  do quotient <- int_truediv position processing_rate;
  do processing_days <- ceil quotient;
  do processing_date <- add_days today processing_days;
  skip_weekend 2 processing_date.

(** The result of the innermost handler of [_get_fallback_eta]. *)
Definition placeholder_eta (submission_date : string) : ETAResult := {|
  estimated_approval_date := _ymd2ord 2024 6 15;
  days_remaining := 120;
  confidence_level := "Low";
  progress_percentage := literal 50 1;
  estimated_processing_date := _ymd2ord 2024 3 15;
  processing_rate := DEFAULT_PROCESSING_RATE config;
  position_in_queue := MOCK_POSITION config;
  submission_date := submission_date;
  is_fallback := Some true
|}.

(** The [try] block of [_get_fallback_eta]. *)
Definition fallback_body (submission_date : string) : result ETAResult :=
  do sub_date <- strptime_ymd submission_date;
  let days_since_submission := today - sub_date in
  let estimated_days_remaining := Z.max 30 (180 - days_since_submission) in
  do estimated_date <- add_days today estimated_days_remaining;
  do processing_date <- add_days today 60;
  Ok {| estimated_approval_date := estimated_date;
        days_remaining := estimated_days_remaining;
        confidence_level := "Low";
        progress_percentage := literal 50 1;
        estimated_processing_date := processing_date;
        processing_rate := DEFAULT_PROCESSING_RATE config;
        position_in_queue := MOCK_POSITION config;
        submission_date := submission_date;
        is_fallback := Some true |}.

Definition _get_fallback_eta (submission_date : string) : ETAResult :=
  try_except (fallback_body submission_date)
             (fun _ => placeholder_eta submission_date).

(** The [try] block of [calculate_eta]. *)
Definition eta_body (position processing_rate : Z) (submission_date : string)
  : result ETAResult :=
  do _ <- format_int position;                  (* the line logged on entry *)
  do _ <- format_int processing_rate;
  do days <- _calculate_days_remaining position processing_rate;
  do estimated_date <- _calculate_approval_date days;
  let level := _determine_confidence_level position processing_rate days in
  do progress <- _calculate_progress_percentage position;
  do processing_date <- _calculate_processing_date position processing_rate;
  Ok {| estimated_approval_date := estimated_date;
        days_remaining := days;
        confidence_level := level;
        progress_percentage := progress;
        estimated_processing_date := processing_date;
        processing_rate := processing_rate;
        position_in_queue := position;
        submission_date := submission_date;
        is_fallback := None |}.

Definition calculate_eta (position processing_rate : Z) (submission_date : string)
  : ETAResult :=
  try_except (eta_body position processing_rate submission_date)
             (fun _ => _get_fallback_eta submission_date).

End Estimator.
End ETAEstimator.

(** ** Python values, as [json.loads] and the parsers produce them *)

Module PyVal.
Import Binary64 Text.

#[warnings="-register-all"]
Inductive pyval : Type :=
| PyNone
| PyBool (b : bool)
| PyInt (n : Z)
| PyFloat (f : pyfloat)
| PyStr (s : string)
| PyList (l : list pyval)
| PyDict (d : gmap string pyval).

(** Truth value of an object ([bool(v)]). *)
Definition truthy (v : pyval) : bool :=
  match v with
  | PyNone => false
  | PyBool b => b
  | PyInt n => negb (n =? 0)
  | PyFloat f => negb (is_zero f)
  | PyStr s => negb (String.eqb s EmptyString)
  | PyList l => match l with [] => false | _ :: _ => true end
  | PyDict d => negb (Nat.eqb (size d) 0)
  end.

(** [a or b] *)
Definition py_or (a b : pyval) : pyval := if truthy a then a else b.

(** [d.get(key)] and [d.get(key, default)] *)
Definition dict_get (d : gmap string pyval) (key : string) : pyval :=
  default PyNone (d !! key).
Definition dict_get_default (d : gmap string pyval) (key : string) (dflt : pyval) : pyval :=
  default dflt (d !! key).

(** [v.get]: only a dict has the method. *)
Definition as_dict (v : pyval) : result (gmap string pyval) :=
  match v with
  | PyDict d => Ok d
  | _ => Raise AttributeError
  end.

(** [v == n] for an int [n]: numbers compare by value ([True] is 1), every
    other object differs from an int. *)
Definition eq_int_val (v : pyval) (n : Z) : bool :=
  match v with
  | PyInt m => m =? n
  | PyBool b => (if b then 1 else 0) =? n
  | PyFloat f => eq_int f n
  | _ => false
  end.

(** [hash(v)] fails on lists and dicts. *)
Definition hashable (v : pyval) : bool :=
  match v with
  | PyList _ | PyDict _ => false
  | _ => true
  end.

(** [str(n)] for an int. *)
Definition str_of_int (n : Z) : string :=
  DecimalString.NilZero.string_of_int (Z.to_int n).

Section Str.
(** [repr] of floats, lists and dicts is left to the interpreter. *)
Variable py_repr : pyval -> string.

(** [str(v)] *)
Definition py_str (v : pyval) : string :=
  match v with
  | PyStr s => s
  | PyNone => "None"
  | PyBool true => "True"
  | PyBool false => "False"
  | PyInt n => str_of_int n
  | other => py_repr other
  end.
End Str.

End PyVal.

(** ** HTTP responses, as [requests] hands them over *)

Record Response : Type := {
  status_code : Z;
  (** [response.json()]; [None] when it raises [ValueError] *)
  json : option PyVal.pyval;
  (** [response.text] *)
  text : string;
  (** [BeautifulSoup(response.content, 'html.parser').get_text()] *)
  soup_text : string
}.

(** ** The parsers of the PERM resolver ([perm_scraper.py]) *)

Module PERMScraper.
Import Binary64 Text Re PyVal.

(** The dict both parsers return; [confidence_level] and [estimated_weeks]
    are keys of the page-text parser only. *)
Record StatusRecord : Type := {
  position_in_queue : pyval;
  total_applications : pyval;
  last_processed_date : pyval;
  processing_rate : pyval;
  status : pyval;
  completion_date : pyval;
  remaining_days : pyval;
  confidence_level : option pyval;
  estimated_weeks : option pyval;
  case_number : string;
  submission_date : string;
  employer_letter : string
}.

(** The patterns of [_extract_status_from_results], all searched with
    [re.IGNORECASE]. *)
Definition digit_or_comma : regex :=
  Cls (fun c => is_digit c || Ascii.eqb c ","%char).              (* [\d,] *)
Definition digits_1_2 : regex := Seq digit (opt digit).            (* \d{1,2} *)

(** [your queue position:\s*([\d,]+)] *)
Definition queue_regex : regex :=
  seqs [lit "your queue position:"; spaces; Group 1 (plus digit_or_comma)].
(** [(\d+)\s*/\s*day] *)
Definition rate_regex : regex :=
  seqs [Group 1 (plus digit); spaces; Chr "/"; spaces; lit "day"].
(** [completion date:\s*(\d{1,2}/\d{1,2}/\d{4})] *)
Definition completion_regex : regex :=
  seqs [lit "completion date:"; spaces;
        Group 1 (seqs [digits_1_2; Chr "/"; digits_1_2; Chr "/";
                       digit; digit; digit; digit])].
(** [remaining:\s*(\d+)\s*days] *)
Definition remaining_regex : regex :=
  seqs [lit "remaining:"; spaces; Group 1 (plus digit); spaces; lit "days"].
(** [current backlog:\s*([\d,]+)] *)
Definition backlog_regex : regex :=
  seqs [lit "current backlog:"; spaces; Group 1 (plus digit_or_comma)].
(** [confidence level:\s*(\d+)%] *)
Definition confidence_regex : regex :=
  seqs [lit "confidence level:"; spaces; Group 1 (plus digit); Chr "%"].
(** [estimated wait:\s*~(\d+)\s*weeks?] *)
Definition wait_regex : regex :=
  seqs [lit "estimated wait:"; spaces; Chr "~"; Group 1 (plus digit); spaces;
        lit "week"; opt (Chr "s")].

(** [m = re.search(r, text, re.IGNORECASE)] followed, on a match, by
    [int(m.group(1))] (after [.replace(',', '')] when [commas] is set). *)
Definition search_int (r : regex) (commas : bool) (page_text : string)
  : result (option Z) :=
  match re_search true r page_text with
  | None => Ok None
  | Some caps =>
      let g := group caps 1 in
      do n <- py_int (if commas then remove_char ","%char g else g);
      Ok (Some n)
  end.

(** The local variables that only the [else] branch of
    [_extract_status_from_results] assigns. *)
Record Extracted : Type := {
  x_position : option Z;
  x_processing_rate : Z;
  x_completion_date : option string;
  x_remaining_days : option Z;
  x_total_applications : Z;
  x_confidence : option Z;
  x_estimated_weeks : option Z
}.

Definition opt_int (o : option Z) : pyval :=
  match o with Some n => PyInt n | None => PyNone end.
Definition opt_str (o : option string) : pyval :=
  match o with Some s => PyStr s | None => PyNone end.

Section Parsers.
Variable config : Config.
Variable py_repr : pyval -> string.

(** Status derived from [remaining_days]. *)
Definition derived_status (remaining_days : option Z) : string :=
  match remaining_days with
  | None => "Pending Review"
  | Some days =>
      if days <=? 0 then "Completed"
      else if days <=? 30 then "Final Review"
      else if days <=? 90 then "In Processing"
      else "In Queue"
  end.

(** The [else] branch: the seven searches, then the derived status. *)
Definition search_patterns (page_text : string) : result (string * Extracted) :=
  do position <- search_int queue_regex true page_text;
  do rate <- search_int rate_regex false page_text;
  let completion_date :=
    match re_search true completion_regex page_text with
    | Some caps => Some (group caps 1)
    | None => None
    end in
  do remaining_days <- search_int remaining_regex false page_text;
  do backlog <- search_int backlog_regex true page_text;
  do confidence <- search_int confidence_regex false page_text;
  do estimated_weeks <- search_int wait_regex false page_text;
  Ok (derived_status remaining_days,
      {| x_position := position;
         x_processing_rate := default (DEFAULT_PROCESSING_RATE config) rate;
         x_completion_date := completion_date;
         x_remaining_days := remaining_days;
         x_total_applications := default (MOCK_TOTAL_APPLICATIONS config) backlog;
         x_confidence := confidence;
         x_estimated_weeks := estimated_weeks |}).

(** The [if]/[elif]/[else] on the lowered page text.  The first two
    branches assign [status] only: the other locals stay unbound
    ([None] here). *)
Definition classify_page (page_text : string) : result (string * option Extracted) :=
  let lowered := lower page_text in
  if any_in ["approved"; "certified"] lowered then Ok ("Approved", None)
  else if any_in ["denied"; "rejected"] lowered then Ok ("Denied", None)
  else
    do found <- search_patterns page_text;
    Ok (fst found, Some (snd found)).

(** The [try] block of [_extract_status_from_results]. *)
Definition extract_body (page_text case_number submission_date employer_letter : string)
  : result (option StatusRecord) :=
  do classified <- classify_page page_text;
  let status := fst classified in
  match snd classified with
  | None => Raise UnboundLocalError      (* [position] is read unassigned *)
  | Some x =>
      if bool_decide (x_position x <> None)
         || negb (x_processing_rate x =? DEFAULT_PROCESSING_RATE config)
         || bool_decide (x_completion_date x <> None)
      then
        Ok (Some {|
          position_in_queue :=
            PyInt (match x_position x with
                   | Some p => if p =? 0 then MOCK_POSITION config else p
                   | None => MOCK_POSITION config
                   end);
          total_applications := PyInt (x_total_applications x);
          last_processed_date := PyStr (default EmptyString (x_completion_date x));
          processing_rate := PyInt (x_processing_rate x);
          status := PyStr status;
          completion_date := opt_str (x_completion_date x);
          remaining_days := opt_int (x_remaining_days x);
          confidence_level := Some (opt_int (x_confidence x));
          estimated_weeks := Some (opt_int (x_estimated_weeks x));
          case_number := case_number;
          submission_date := submission_date;
          employer_letter := employer_letter |})
      else Ok None
  end.

(** [soup.get_text()] is the argument [page_text]. *)
Definition _extract_status_from_results
    (page_text case_number submission_date employer_letter : string)
  : option StatusRecord :=
  try_except (extract_body page_text case_number submission_date employer_letter)
             (fun _ => None).

(** The inner [try] block of [_parse_api_response], after
    [json_data = response.json()] has succeeded. *)
Definition json_body (json_data : pyval)
    (case_number submission_date employer_letter : string)
  : result (option StatusRecord) :=
  do d <- as_dict json_data;
  let position :=
    py_or (py_or (dict_get d "queue_position") (dict_get d "position"))
          (dict_get d "position_in_queue") in
  let processing_rate :=
    py_or (py_or (dict_get d "processing_rate") (dict_get d "rate"))
          (PyInt (DEFAULT_PROCESSING_RATE config)) in
  let status := py_or (dict_get d "status") (PyStr "Pending Review") in
  let completion_date :=
    py_or (dict_get d "completion_date") (dict_get d "estimated_date") in
  let remaining_days :=
    py_or (dict_get d "remaining_days") (dict_get d "days_remaining") in
  let total_applications :=
    py_or (py_or (dict_get d "total_applications") (dict_get d "backlog"))
          (PyInt (MOCK_TOTAL_APPLICATIONS config)) in
  let lowered := lower (py_str py_repr status) in
  let status :=
    if any_in ["approved"; "certified"] lowered then PyStr "Approved"
    else if any_in ["denied"; "rejected"] lowered then PyStr "Denied"
    else status in
  if truthy position
     || negb (eq_int_val processing_rate (DEFAULT_PROCESSING_RATE config))
  then
    Ok (Some {|
      position_in_queue := py_or position (PyInt (MOCK_POSITION config));
      total_applications := total_applications;
      last_processed_date := py_or completion_date (PyStr EmptyString);
      processing_rate := processing_rate;
      status := status;
      completion_date := completion_date;
      remaining_days := remaining_days;
      confidence_level := None;
      estimated_weeks := None;
      case_number := case_number;
      submission_date := submission_date;
      employer_letter := employer_letter |})
  else Ok None.

Definition _parse_api_response (response : Response)
    (case_number submission_date employer_letter : string)
  : option StatusRecord :=
  match json response with
  | None =>
      _extract_status_from_results (soup_text response)
        case_number submission_date employer_letter
  | Some json_data =>
      match json_body json_data case_number submission_date employer_letter with
      | Ok r => r
      | Raise ValueError =>
          _extract_status_from_results (soup_text response)
            case_number submission_date employer_letter
      | Raise _ => None
      end
  end.

(** What [_try_discovered_api] does with the response it received. *)
Definition discovered_api_result (response : Response)
    (case_number submission_date employer_letter : string)
  : option StatusRecord :=
  if status_code response =? 200
  then _parse_api_response response case_number submission_date employer_letter
  else None.

End Parsers.
End PERMScraper.

(** ** The OAuth2 strategy ([uscis_tracker/case_status_api.py]) *)

Module CaseStatusAPI.
Import Binary64 Text PyVal.

(** The dict the strategy returns.  Keys that only some constructors set
    ([error], [api_response], [raw_response]) are optional. *)
Record StatusRecord : Type := {
  case_number : string;
  status : pyval;
  last_updated : pyval;
  form_type : pyval;
  case_type : string;
  office : pyval;
  details : pyval;
  data_source : string;
  method : string;
  error : option string;
  api_response : option pyval;
  raw_response : option string
}.

Definition form_mapping : gmap string string :=
  list_to_map
    [ ("YSC", "I-140"); ("WAC", "I-140"); ("LIN", "I-140"); ("SRC", "I-140");
      ("MSC", "I-140"); ("IOE", "I-140"); ("G-", "I-140") ].

Definition case_mapping : gmap string string :=
  list_to_map
    [ ("I-140", "Immigrant Petition for Alien Worker");
      ("I-485", "Application to Register Permanent Residence");
      ("I-765", "Application for Employment Authorization");
      ("I-131", "Application for Travel Document");
      ("I-129", "Petition for Nonimmigrant Worker") ].

Definition _extract_form_type (case_number : string) : string :=
  if (3 <=? String.length case_number)%nat then
    let prefix := substring 0 3 case_number in
    default prefix (form_mapping !! prefix)
  else "Unknown".

Definition _determine_case_type (form_type : string) : string :=
  default "Unknown Case Type" (case_mapping !! form_type).

(** The same lookup with a key taken from the JSON: any hashable object that
    is not one of the five strings gets the default, a list or a dict cannot
    be hashed. *)
Definition determine_case_type_of_value (form_type : pyval) : result string :=
  match form_type with
  | PyStr s => Ok (_determine_case_type s)
  | other => if hashable other then Ok "Unknown Case Type" else Raise TypeError
  end.

(** What the strategy does to the outside world, in order.  A sleep is
    recorded with the attempt and the jitter it was computed from and with
    the seconds handed to [time.sleep]; the clock itself is not modelled. *)
Inductive Event : Type :=
| StatusRequest (token : pyval)          (* GET api_base_url/case_number *)
| TokenRequest                           (* POST access_token_url *)
| Sleep (attempt : Z) (jitter : pyfloat) (seconds : pyfloat).
                                         (* time.sleep(wait_time) *)

(** [(2 ** attempt) + random.uniform(0, 1)]: the power is an int ([attempt]
    comes out of [range], so it is not negative); the addition converts it to
    the nearest float and adds the jitter. *)
Definition wait_time (attempt : Z) (jitter : pyfloat) : pyfloat :=
  fadd (round_b64 (2 ^ attempt) 1) jitter.

(** The state the calls thread: how many requests and random draws were
    made, [self.access_token], and the trace of events. *)
Record State : Type := {
  requests_made : nat;
  draws_made : nat;
  access_token : pyval;
  trace : list Event
}.

Definition M (A : Type) : Type := State -> A * State.
Definition ret {A : Type} (a : A) : M A := fun s => (a, s).
Definition bind {A B : Type} (m : M A) (k : A -> M B) : M B :=
  fun s => let (a, s') := m s in k a s'.

Notation "'run' x <- m ; k" := (bind m (fun x => k))
  (at level 10, x name, m at level 100, k at level 200).

(** The outcome of one round of the [for] loop. *)
Inductive Step (A : Type) : Type :=
| Continue
| Return (a : A).
Arguments Continue {A}.
Arguments Return {A} a.

Section Strategy.
Variable config : Config.
(** The remote side: the outcome of the i-th request of the session, a
    response or the exception [requests] raises. *)
Variable server : nat -> result Response.
(** The successive values of [random.uniform(0, 1)]. *)
Variable uniform : nat -> pyfloat.
(** [datetime.now().strftime('%Y-%m-%d')] *)
Variable now : string.

Definition retries : Z := SCRAPER_RETRIES config.

Definition emit (e : Event) : M unit :=
  fun s => (tt, {| requests_made := requests_made s;
                   draws_made := draws_made s;
                   access_token := access_token s;
                   trace := trace s ++ [e] |}).

(** One request of [self.session]. *)
Definition request (e : Event) : M (result Response) :=
  fun s => (server (requests_made s),
            {| requests_made := S (requests_made s);
               draws_made := draws_made s;
               access_token := access_token s;
               trace := trace s ++ [e] |}).

Definition get_token : M pyval := fun s => (access_token s, s).
Definition set_token (t : pyval) : M unit :=
  fun s => (tt, {| requests_made := requests_made s;
                   draws_made := draws_made s;
                   access_token := t;
                   trace := trace s |}).

(** [wait_time = (2 ** attempt) + random.uniform(0, 1); time.sleep(wait_time)].
    The two lines are taken to succeed: the [OverflowError] of the addition
    (no float for [2 ** attempt] from attempt 1024 on) and that of
    [time.sleep] (a wait beyond the range of the platform's timestamps, from
    attempt 34 on, that is after centuries of earlier sleeps) are left out. *)
Definition backoff (attempt : Z) : M unit :=
  fun s => (tt, {| requests_made := requests_made s;
                   draws_made := S (draws_made s);
                   access_token := access_token s;
                   trace := trace s
                            ++ [Sleep attempt (uniform (draws_made s))
                                  (wait_time attempt (uniform (draws_made s)))] |}).

(** [_get_access_token]: every exception ends in [None]. *)
Definition token_of_response (r : result Response) : pyval :=
  match r with
  | Raise _ => PyNone
  | Ok response =>
      if status_code response =? 200 then
        match json response with
        | Some (PyDict token_data) =>
            let access_token := dict_get token_data "access_token" in
            if truthy access_token then access_token else PyNone
        | _ => PyNone
        end
      else PyNone
  end.

Definition _get_access_token : M pyval :=
  run r <- request TokenRequest;
  ret (token_of_response r).

Definition _create_not_found_response (case_number : string) : StatusRecord := {|
  case_number := case_number;
  status := PyStr "Case Not Found";
  last_updated := PyStr now;
  form_type := PyStr (_extract_form_type case_number);
  case_type := _determine_case_type (_extract_form_type case_number);
  office := PyStr "USCIS Service Center";
  details := PyStr "The case number was not found in the USCIS system.";
  data_source := "uscis.gov";
  method := "official_api_oauth2";
  error := Some "case_not_found";
  api_response := None;
  raw_response := None |}.

Definition _create_unauthorized_response (case_number : string) : StatusRecord := {|
  case_number := case_number;
  status := PyStr "Access Denied";
  last_updated := PyStr now;
  form_type := PyStr (_extract_form_type case_number);
  case_type := _determine_case_type (_extract_form_type case_number);
  office := PyStr "USCIS Service Center";
  details := PyStr "API access requires authentication.";
  data_source := "uscis.gov";
  method := "official_api_oauth2";
  error := Some "unauthorized";
  api_response := None;
  raw_response := None |}.

Definition _create_service_unavailable_response (case_number : string)
  : StatusRecord := {|
  case_number := case_number;
  status := PyStr "Service Temporarily Unavailable";
  last_updated := PyStr now;
  form_type := PyStr (_extract_form_type case_number);
  case_type := _determine_case_type (_extract_form_type case_number);
  office := PyStr "USCIS Service Center";
  details :=
    PyStr "The USCIS API is temporarily unavailable. Please try again later.";
  data_source := "uscis.gov";
  method := "official_api_oauth2";
  error := Some "service_unavailable";
  api_response := None;
  raw_response := None |}.

(** The [try] block of [_parse_api_response]. *)
Definition parse_body (data : pyval) (case_number : string) : result StatusRecord :=
  do d <- as_dict data;
  let status :=
    py_or (py_or (dict_get d "status") (dict_get d "caseStatus"))
          (dict_get_default d "statusText" (PyStr "Unknown")) in
  let last_updated :=
    py_or (py_or (dict_get d "lastUpdated") (dict_get d "updatedDate"))
          (dict_get_default d "lastModified" (PyStr EmptyString)) in
  let form_type :=
    py_or (py_or (dict_get d "formType") (dict_get d "form"))
          (PyStr (_extract_form_type case_number)) in
  let office :=
    py_or (py_or (dict_get d "office") (dict_get d "serviceCenter"))
          (PyStr "USCIS Service Center") in
  let details :=
    py_or (py_or (dict_get d "details") (dict_get d "description"))
          (dict_get_default d "message" (PyStr EmptyString)) in
  do case_type <- determine_case_type_of_value form_type;
  Ok {| case_number := case_number;
        status := status;
        last_updated := last_updated;
        form_type := form_type;
        case_type := case_type;
        office := office;
        details := details;
        data_source := "uscis.gov";
        method := "official_api_oauth2";
        error := None;
        api_response := Some data;
        raw_response := None |}.

Definition _parse_api_response (data : pyval) (case_number : string)
  : option StatusRecord :=
  try_except (do r <- parse_body data case_number; Ok (Some r)) (fun _ => None).

(** The first stripped line that mentions one of the keywords. *)
Fixpoint first_status_line (lines : list string) : string :=
  match lines with
  | [] => "Status not found"
  | line :: rest =>
      let line := strip line in
      if any_in ["received"; "approved"; "denied"; "pending"; "processing"]
                (lower line)
      then line else first_status_line rest
  end.

Definition _parse_text_response (text_content case_number : string)
  : option StatusRecord :=
  Some {| case_number := case_number;
          status := PyStr (first_status_line (split_lines text_content));
          last_updated := PyStr now;
          form_type := PyStr (_extract_form_type case_number);
          case_type := _determine_case_type (_extract_form_type case_number);
          office := PyStr "USCIS Service Center";
          details :=
            PyStr (if (200 <? String.length text_content)%nat
                   then substring 0 200 text_content +:+ "..."
                   else text_content);
          data_source := "uscis.gov";
          method := "api_text";
          error := None;
          api_response := None;
          raw_response := Some text_content |}.

(** The [except Exception] handler and the last branch of the loop body:
    back off and go round again, or give up. *)
Definition retry_or_give_up (attempt : Z) : M (Step (option StatusRecord)) :=
  if attempt <? retries - 1
  then run _ <- backoff attempt; ret Continue
  else ret (Return None).

(** The body of the [for] loop of [_get_status_from_api]; [again] is the
    recursive call [self._get_status_from_api(case_number)]. *)
Definition attempt_round (again : M (result (option StatusRecord)))
    (case_number : string) (attempt : Z) : M (Step (option StatusRecord)) :=
  run token <- get_token;
  run r <- request (StatusRequest token);
  match r with
  | Raise _ => retry_or_give_up attempt
  | Ok response =>
      if status_code response =? 200 then
        match json response with
        | Some data => ret (Return (_parse_api_response data case_number))
        | None => ret (Return (_parse_text_response (text response) case_number))
        end
      else if status_code response =? 401 then
        run fresh <- _get_access_token;
        run _ <- set_token fresh;
        if truthy fresh then
          run retried <- again;
          match retried with
          | Ok v => ret (Return v)
          | Raise _ => retry_or_give_up attempt
          end
        else ret (Return (Some (_create_unauthorized_response case_number)))
      else if status_code response =? 404 then
        ret (Return (Some (_create_not_found_response case_number)))
      else if status_code response =? 503 then
        if attempt <? retries - 1
        then run _ <- backoff attempt; ret Continue
        else ret (Return (Some (_create_service_unavailable_response case_number)))
      else retry_or_give_up attempt
  end.

(** [for attempt in attempts: ...] and the [return None] after the loop. *)
Fixpoint attempts_loop (again : M (result (option StatusRecord)))
    (case_number : string) (attempts : list Z)
  : M (result (option StatusRecord)) :=
  match attempts with
  | [] => ret (Ok None)
  | attempt :: rest =>
      run step <- attempt_round again case_number attempt;
      match step with
      | Continue => attempts_loop again case_number rest
      | Return v => ret (Ok v)
      end
  end.

(** [range(n)] *)
Definition py_range (n : Z) : list Z := map Z.of_nat (seq 0 (Z.to_nat n)).

(** [_get_status_from_api].  [depth] is the room left on the interpreter's
    call stack, counted in calls of this method: a call that finds none
    raises [RecursionError], which the caller's [except Exception] handles
    like any other failure.  The frames of the calls a round makes on its
    way (the session, the logger) are not counted. *)
Fixpoint _get_status_from_api (depth : nat) (case_number : string)
  : M (result (option StatusRecord)) :=
  match depth with
  | O => ret (Raise RecursionError)
  | S depth' =>
      attempts_loop (_get_status_from_api depth' case_number)
                    case_number (py_range retries)
  end.

Definition initial (token : pyval) : State :=
  {| requests_made := 0; draws_made := 0; access_token := token; trace := [] |}.

End Strategy.
End CaseStatusAPI.

(** ** The e-mail notifiers *)

(** [notifier.py]: the PERM tracker. *)
Module PermNotifier.
Import Text.

(** The colour [_create_email_body] interpolates as the accent of the page,
    computed from [current_status = status.get('status', 'Unknown')]. *)
Definition status_color (current_status : string) : string :=
  if contains "approved" (lower current_status) then "#28a745"
  else if contains "denied" (lower current_status) then "#dc3545"
  else if contains "pending" (lower current_status) then "#ffc107"
  else "#007bff".

End PermNotifier.

(** [uscis_tracker/notifier.py]: the USCIS tracker. *)
Module UscisNotifier.
Import Text.

Definition status_color (current_status : string) : string :=
  if contains "approved" (lower current_status) then "#28a745"
  else if contains "denied" (lower current_status) then "#dc3545"
  else if contains "rfe" (lower current_status)
          || contains "request for evidence" (lower current_status) then "#fd7e14"
  else if contains "pending" (lower current_status) then "#ffc107"
  else if contains "received" (lower current_status) then "#6f42c1"
  else "#007bff".

Definition service_center_mapping : gmap string string :=
  list_to_map
    [ ("YSC", "Vermont Service Center"); ("WAC", "California Service Center");
      ("LIN", "Nebraska Service Center"); ("SRC", "Texas Service Center");
      ("MSC", "Missouri Service Center"); ("IOE", "Electronic Filing") ].

Definition _extract_service_center_from_case_number (case_number : string) : string :=
  if (3 <=? String.length case_number)%nat then
    let prefix := substring 0 3 case_number in
    default "Unknown Service Center" (service_center_mapping !! prefix)
  else "Unknown Service Center".

End UscisNotifier.

(** * More of the sources

    Beyond the parsers, the estimator and the OAuth2 strategy above:
    - [notifier.py], [uscis_tracker/notifier.py]: the constructors of the
      notification services and their factory;
    - [uscis_tracker/config.py], [uscis_tracker/main.py]: the recipient list
      and the dict handed to the factory;
    - [perm_scraper.py]: the mock status, the calls to guessed and discovered
      endpoints, the scan of the performance logs;
    - [uscis_tracker/case_status_api.py]: the entry point [get_case_status]
      with its mock record and its fallback to the public page. *)

(** ** More string methods *)

Module TextOps.
Import Text.

(** [s.split(sep)] for a one-character [sep] *)
Fixpoint str_split_aux (sep : ascii) (s cur : string) : list string :=
  match s with
  | EmptyString => [rev_string cur EmptyString]
  | String c s' =>
      if Ascii.eqb c sep
      then rev_string cur EmptyString :: str_split_aux sep s' EmptyString
      else str_split_aux sep s' (String c cur)
  end.
Definition str_split (sep : ascii) (s : string) : list string :=
  str_split_aux sep s EmptyString.

(** [sep.join(parts)] *)
Fixpoint str_join (sep : string) (parts : list string) : string :=
  match parts with
  | [] => EmptyString
  | part :: rest =>
      match rest with
      | [] => part
      | _ :: _ => part +:+ sep +:+ str_join sep rest
      end
  end.

Definition is_lower (c : ascii) : bool := (97 <=? code c) && (code c <=? 122).

Definition upper_char (c : ascii) : ascii :=
  if is_lower c then ascii_of_N (N_of_ascii c - 32) else c.

(** [s.upper()] *)
Fixpoint upper (s : string) : string :=
  match s with
  | EmptyString => EmptyString
  | String c s' => String (upper_char c) (upper s')
  end.

Fixpoint lstrip_char (c : ascii) (s : string) : string :=
  match s with
  | String x s' => if Ascii.eqb x c then lstrip_char c s' else s
  | EmptyString => EmptyString
  end.

(** [s.rstrip(c)] for a one-character [c] *)
Definition rstrip_char (c : ascii) (s : string) : string :=
  rev_string (lstrip_char c (rev_string s EmptyString)) EmptyString.

(** [s.startswith(p)] *)
Definition startswith (p s : string) : bool := String.prefix p s.

End TextOps.

(** ** The notification services ([notifier.py], [uscis_tracker/notifier.py])

    The two files define the same constructors and the same factory. *)

Module NotificationServices.
Import Text TextOps PyVal.

(** The attributes [EmailNotificationService.__init__] sets. *)
Record EmailService : Type := {
  smtp_server : pyval;
  smtp_port : pyval;
  sender_email : pyval;
  sender_password : pyval;
  recipient_emails : list string
}.

(** The attributes [TelegramNotificationService.__init__] sets. *)
Record TelegramService : Type := {
  bot_token : pyval;
  chat_id : pyval
}.

Inductive NotificationService : Type :=
| Email (service : EmailService)
| Telegram (service : TelegramService).

(** [v.split(',')]: only a str has the method. *)
Definition split_commas (v : pyval) : result (list string) :=
  match v with
  | PyStr s => Ok (str_split ","%char s)
  | _ => Raise AttributeError
  end.

(** [[email.strip() for email in emails if email.strip()]] *)
Definition clean_recipients (emails : list string) : list string :=
  map strip
      (List.filter (fun email => negb (String.eqb (strip email) EmptyString)) emails).

(** [EmailNotificationService(config)] *)
Definition EmailNotificationService (config : gmap string pyval)
  : result EmailService :=
  let smtp_server := dict_get_default config "smtp_server" (PyStr "smtp.gmail.com") in
  let smtp_port := dict_get_default config "smtp_port" (PyInt 587) in
  let sender_email := dict_get_default config "sender_email" (PyStr EmptyString) in
  let sender_password := dict_get_default config "sender_password" (PyStr EmptyString) in
  do recipient_emails <-
    split_commas (dict_get_default config "recipient_email" (PyStr EmptyString));
  let recipient_emails := clean_recipients recipient_emails in
  if negb (truthy sender_email && truthy sender_password)
     || match recipient_emails with [] => true | _ :: _ => false end
  then Raise ValueError
  else Ok {| smtp_server := smtp_server;
             smtp_port := smtp_port;
             sender_email := sender_email;
             sender_password := sender_password;
             recipient_emails := recipient_emails |}.

(** [TelegramNotificationService(config)] *)
Definition TelegramNotificationService (config : gmap string pyval)
  : result TelegramService :=
  let bot_token := dict_get config "bot_token" in
  let chat_id := dict_get config "chat_id" in
  if negb (truthy bot_token && truthy chat_id)
  then Raise ValueError
  else Ok {| bot_token := bot_token; chat_id := chat_id |}.

Definition get_notification_service (method : string) (config : gmap string pyval)
  : result NotificationService :=
  if String.eqb (lower method) "email" then
    do service <- EmailNotificationService config; Ok (Email service)
  else if String.eqb (lower method) "telegram" then
    do service <- TelegramNotificationService config; Ok (Telegram service)
  else Raise ValueError.

End NotificationServices.

(** ** The e-mail settings of the USCIS tracker
       ([uscis_tracker/config.py], [uscis_tracker/main.py]) *)

Module UscisSettings.
Import TextOps PyVal.

(** The environment, as [getenv] returns it: the value of the variable, the
    default when it is unset. *)
Record Environment : Type := {
  EMAIL_HOST : string;
  EMAIL_PORT : Z;
  EMAIL_USER : string;         (* SENDER_EMAIL *)
  EMAIL_PASSWORD : string;     (* SENDER_PASSWORD *)
  RECIPIENT_EMAIL : string
}.

(** [getenv("RECIPIENT_EMAIL", "").split(",") if getenv("RECIPIENT_EMAIL") else []] *)
Definition EMAIL_RECIPIENTS (env : Environment) : list string :=
  if negb (String.eqb (RECIPIENT_EMAIL env) EmptyString)
  then str_split ","%char (RECIPIENT_EMAIL env)
  else [].

(** The dict [send_status_update] hands to [get_notification_service]. *)
Definition email_config (env : Environment) : gmap string pyval :=
  list_to_map
    [ ("smtp_server", PyStr (EMAIL_HOST env));
      ("smtp_port", PyInt (EMAIL_PORT env));
      ("sender_email", PyStr (EMAIL_USER env));
      ("sender_password", PyStr (EMAIL_PASSWORD env));
      ("recipient_email", PyStr (str_join "," (EMAIL_RECIPIENTS env))) ].

End UscisSettings.

(** ** The mock status of the PERM resolver ([perm_scraper.py]) *)

Module PERMScraperMock.
Import PyDate.

(** The dict [_get_mock_status] returns; the date is kept as an ordinal. *)
Record MockStatus : Type := {
  position_in_queue : Z;
  total_applications : Z;
  last_processed_date : Z;
  processing_rate : Z;
  status : string;
  case_number : string;
  submission_date : string;
  employer_letter : string;
  is_mock_data : bool
}.

Section Mock.
Variable config : Config.
(** [config.MOCK_PROCESSING_RATE] and [config.EMPLOYER_LETTER] *)
Variable MOCK_PROCESSING_RATE : Z.
Variable EMPLOYER_LETTER : string.
(** [datetime.now()], as the ordinal of the day (the two readings of one
    call are taken to fall on the same day). *)
Variable today : Z.
(** The environment variable [MOCK_PERM_STATUS], [None] when unset. *)
Variable MOCK_PERM_STATUS : option string.
(** The value [random.randint(-200, 200)] returns. *)
Variable randint : Z.

(** The [try] block that computes the position, and its bare [except]. *)
Definition mock_position (submission_date : string) : Z :=
  try_except
    (do sub_date <- strptime_ymd submission_date;
     let days_since_submission := today - sub_date in
     let base_position :=
       Z.max 1 (2000 - days_since_submission * MOCK_PROCESSING_RATE) in
     Ok (Z.max 1 (base_position + randint)))
    (fun _ => MOCK_POSITION config).

Definition _get_mock_status (case_number submission_date : string)
  : result MockStatus :=
  let mock_status := default "Pending Review" MOCK_PERM_STATUS in
  let position := mock_position submission_date in
  do yesterday <- add_days today (-1);
  Ok {| position_in_queue := position;
        total_applications := MOCK_TOTAL_APPLICATIONS config;
        last_processed_date := yesterday;
        processing_rate := MOCK_PROCESSING_RATE;
        status := mock_status;
        case_number := case_number;
        submission_date := submission_date;
        employer_letter := EMPLOYER_LETTER;
        is_mock_data := true |}.

End Mock.
End PERMScraperMock.

(** ** The calls of the PERM resolver to guessed and discovered endpoints
       ([perm_scraper.py]) *)

Module PERMScraperSession.
Import Text TextOps PyVal PERMScraper.

Inductive HttpMethod : Type := POST | GET.

(** How the data travel: [json=data], [data=data] or [params=data]. *)
Inductive Payload : Type := AsJson | AsForm | AsParams.

(** One call of [self.session.post] or [self.session.get]: by
    [_try_api_call], with the data dict and the [Content-Type] header of the
    moment, or by [_try_discovered_api]. *)
Inductive Call : Type :=
| ApiCall (method : HttpMethod) (url : string) (payload : Payload)
          (data : list (string * string)) (content_type : string)
| DiscoveredCall (method : HttpMethod) (url : string).

(** An entry of the list [_analyze_network_logs] returns. *)
Record ApiRequest : Type := {
  req_url : string;
  req_method : pyval;
  req_data : pyval;
  req_headers : pyval
}.

(** Operations on a value decoded from JSON that raise on the wrong type;
    [None] stands for the exception (KeyError, TypeError or AttributeError),
    which the callers below all handle in the same way. *)

(** [key in v] *)
Definition member (key : string) (v : pyval) : option bool :=
  match v with
  | PyDict d => Some (bool_decide (is_Some (d !! key)))
  | PyStr s => Some (contains key s)
  | PyList l =>
      Some (existsb (fun x => match x with
                              | PyStr s => String.eqb s key
                              | _ => false
                              end) l)
  | _ => None
  end.

(** [v[key]] for a str key *)
Definition subscript (v : pyval) (key : string) : option pyval :=
  match v with
  | PyDict d => d !! key
  | _ => None
  end.

(** [v.get(key, dflt)] *)
Definition get_or (v : pyval) (key : string) (dflt : pyval) : option pyval :=
  match v with
  | PyDict d => Some (dict_get_default d key dflt)
  | _ => None
  end.

(** [v.lower()] *)
Definition lowered (v : pyval) : option string :=
  match v with
  | PyStr s => Some (lower s)
  | _ => None
  end.

(** [v == s] for a str [s] *)
Definition eq_str (v : pyval) (s : string) : bool :=
  match v with
  | PyStr t => String.eqb t s
  | _ => false
  end.

Definition api_keywords : list string :=
  ["api"; "predict"; "search"; "status"; "case"].

(** The body of the loop of [_analyze_network_logs] after
    [message = json.loads(log_entry['message'])]: the request to append, if
    any; the outer [None] is an exception. *)
Definition api_request_of (message : pyval) : option (option ApiRequest) :=
  match member "message" message with
  | None => None
  | Some false => Some None
  | Some true =>
      match subscript message "message" with
      | None => None
      | Some inner =>
          match member "method" inner with
          | None => None
          | Some false => Some None
          | Some true =>
              match subscript inner "method" with
              | None => None
              | Some method =>
                  if eq_str method "Network.requestWillBeSent" then
                    match subscript inner "params" with
                    | None => None
                    | Some params =>
                        match get_or params "request" (PyDict empty) with
                        | None => None
                        | Some request =>
                            match get_or request "url" (PyStr EmptyString) with
                            | None => None
                            | Some url =>
                                match get_or request "method" (PyStr "GET"),
                                      lowered url, url with
                                | Some method, Some lowered_url, PyStr url =>
                                    if any_in api_keywords lowered_url then
                                      match get_or request "postData" PyNone,
                                            get_or request "headers" (PyDict empty) with
                                      | Some data, Some headers =>
                                          Some (Some {| req_url := url;
                                                        req_method := method;
                                                        req_data := data;
                                                        req_headers := headers |})
                                      | _, _ => None
                                      end
                                    else Some None
                                | _, _, _ => None
                                end
                            end
                        end
                    end
                  else if eq_str method "Network.responseReceived" then
                    match subscript inner "params" with
                    | None => None
                    | Some params =>
                        match get_or params "response" (PyDict empty) with
                        | None => None
                        | Some response =>
                            match get_or response "url" (PyStr EmptyString) with
                            | None => None
                            | Some url =>
                                match lowered url with
                                | None => None
                                | Some _ => Some None      (* logging only *)
                                end
                            end
                        end
                    end
                  else Some None
              end
          end
      end
  end.

Section Logs.
(** [json.loads], [None] when it raises; the argument is the ['message']
    entry of a performance log record. *)
Variable json_loads : string -> option pyval.

(** [for log_entry in logs: try: ... except Exception: continue] *)
Fixpoint _analyze_network_logs (logs : list string) : list ApiRequest :=
  match logs with
  | [] => []
  | log_entry :: rest =>
      match json_loads log_entry with
      | Some message =>
          match api_request_of message with
          | Some (Some api_request) => api_request :: _analyze_network_logs rest
          | _ => _analyze_network_logs rest
          end
      | None => _analyze_network_logs rest
      end
  end.

End Logs.

(** Whether [headers.update(v)] succeeds: a dict, or a list of pairs (lists
    of two items with a hashable first one, strings of two characters, dicts
    of two keys). *)
Definition update_accepts (v : pyval) : bool :=
  match v with
  | PyDict _ => true
  | PyList l =>
      forallb (fun item =>
                 match item with
                 | PyList [k; _] => hashable k
                 | PyStr s => Nat.eqb (String.length s) 2
                 | PyDict d => Nat.eqb (size d) 2
                 | _ => false
                 end) l
  | _ => false
  end.

Section Calls.
Variable config : Config.
Variable py_repr : pyval -> string.
(** The remote side: the outcome of the i-th call of the session. *)
Variable server : nat -> result Response.
(** [self.base_url] *)
Variable base_url : string.

(** The calls made so far, oldest first. *)
Definition Sent : Type := list Call.

Definition call (c : Call) (sent : Sent) : result Response * Sent :=
  (server (length sent), sent ++ [c]).

(** The four dicts [_try_api_call] tries, as lists of items. *)
Definition data_formats (case_number submission_date employer_letter : string)
  : list (list (string * string)) :=
  [ [("case_number", case_number); ("employer_letter", employer_letter)];
    [("caseNumber", case_number); ("employerLetter", employer_letter)];
    [("case", case_number); ("letter", employer_letter)];
    [("case_number", case_number); ("employer_letter", employer_letter);
     ("submission_date", submission_date)] ].

(** The body of the inner loop of [_try_api_call], with its [except]:
    the record to return, if any, then [headers['Content-Type']] and the
    calls made. *)
Definition attempt (method : HttpMethod) (api_url : string)
    (data : list (string * string))
    (case_number submission_date employer_letter : string)
    (content_type : string) (sent : Sent)
  : option StatusRecord * string * Sent :=
  match method with
  | POST =>
      let (r1, sent1) := call (ApiCall POST api_url AsJson data content_type) sent in
      match r1 with
      | Raise _ => (None, content_type, sent1)
      | Ok response1 =>
          match discovered_api_result config py_repr response1
                  case_number submission_date employer_letter with
          | Some result => (Some result, content_type, sent1)
          | None =>
              let form := "application/x-www-form-urlencoded" in
              let (r2, sent2) := call (ApiCall POST api_url AsForm data form) sent1 in
              match r2 with
              | Raise _ => (None, form, sent2)
              | Ok response2 =>
                  match discovered_api_result config py_repr response2
                          case_number submission_date employer_letter with
                  | Some result => (Some result, form, sent2)
                  | None => (None, "application/json", sent2)
                  end
              end
          end
      end
  | GET =>
      let (r, sent1) := call (ApiCall GET api_url AsParams data content_type) sent in
      match r with
      | Raise _ => (None, content_type, sent1)
      | Ok response =>
          (discovered_api_result config py_repr response
             case_number submission_date employer_letter,
           content_type, sent1)
      end
  end.

(** The two nested [for] loops, flattened, and the [return None] after them. *)
Fixpoint attempts (rounds : list (HttpMethod * list (string * string)))
    (api_url case_number submission_date employer_letter : string)
    (content_type : string) (sent : Sent) : option StatusRecord * Sent :=
  match rounds with
  | [] => (None, sent)
  | (method, data) :: rest =>
      let '(result, content_type', sent') :=
        attempt method api_url data case_number submission_date employer_letter
                content_type sent in
      match result with
      | Some r => (Some r, sent')
      | None =>
          attempts rest api_url case_number submission_date employer_letter
                   content_type' sent'
      end
  end.

Definition _try_api_call
    (api_url case_number submission_date employer_letter : string) (sent : Sent)
  : option StatusRecord * Sent :=
  attempts
    (flat_map (fun method =>
                 map (fun data => (method, data))
                     (data_formats case_number submission_date employer_letter))
              [POST; GET])
    api_url case_number submission_date employer_letter "application/json" sent.

(** [for url in urls: result = self._try_api_call(url, ...); if result:
    return result] and the [return None] after the loop. *)
Fixpoint try_urls (urls : list string)
    (case_number submission_date employer_letter : string) (sent : Sent)
  : option StatusRecord * Sent :=
  match urls with
  | [] => (None, sent)
  | api_url :: rest =>
      let (result, sent') :=
        _try_api_call api_url case_number submission_date employer_letter sent in
      match result with
      | Some r => (Some r, sent')
      | None => try_urls rest case_number submission_date employer_letter sent'
      end
  end.

(** The URL [_call_api_endpoints] makes of an endpoint. *)
Definition endpoint_url (endpoint : string) : string :=
  if startswith "/" endpoint then rstrip_char "/"%char base_url +:+ endpoint
  else if startswith "http" endpoint then endpoint
  else base_url +:+ "/" +:+ endpoint.

Definition _call_api_endpoints (endpoints : list string)
    (case_number submission_date employer_letter : string) (sent : Sent)
  : option StatusRecord * Sent :=
  try_urls (map endpoint_url endpoints)
           case_number submission_date employer_letter sent.

Definition common_patterns : list string :=
  [ "/api/predict"; "/api/search"; "/api/status"; "/api/case";
    "/predict"; "/search"; "/status"; "/case";
    "/api/v1/predict"; "/api/v1/search"; "/api/v1/status" ].

Definition _analyze_network_requests
    (case_number submission_date employer_letter : string) (sent : Sent)
  : option StatusRecord * Sent :=
  try_urls (map (fun pattern => rstrip_char "/"%char base_url +:+ pattern)
                common_patterns)
           case_number submission_date employer_letter sent.

(** [_try_discovered_api]: merging the headers or upper-casing the method
    may raise before anything is sent; every exception ends in [None]. *)
Definition _try_discovered_api (api_request : ApiRequest)
    (case_number submission_date employer_letter : string) (sent : Sent)
  : option StatusRecord * Sent :=
  if truthy (req_headers api_request)
     && negb (update_accepts (req_headers api_request))
  then (None, sent)
  else
    match req_method api_request with
    | PyStr method =>
        let method := if String.eqb (upper method) "POST" then POST else GET in
        let (r, sent1) := call (DiscoveredCall method (req_url api_request)) sent in
        match r with
        | Raise _ => (None, sent1)
        | Ok response =>
            (discovered_api_result config py_repr response
               case_number submission_date employer_letter,
             sent1)
        end
    | _ => (None, sent)
    end.

End Calls.
End PERMScraperSession.

(** ** The entry point of the USCIS client ([uscis_tracker/case_status_api.py]) *)

Module CaseStatusAPIClient.
Import Binary64 Text PyVal CaseStatusAPI.

(** The dict [_get_mock_status] returns. *)
Record MockRecord : Type := {
  mock_case_number : string;
  mock_status : string;
  mock_last_updated : string;
  mock_form_type : string;
  mock_case_type : string;
  mock_office : string;
  mock_details : string;
  mock_is_mock_data : bool;
  mock_method : string
}.

(** What [get_case_status] returns when it returns a dict. *)
Inductive CaseStatus : Type :=
| FromService (record : StatusRecord)
| FromMock (record : MockRecord).

(** The state of a client: that of the OAuth2 strategy (whose [server]
    answers the status and token requests), and the number of POSTs to the
    public case-status page. *)
Record Client : Type := {
  api : State;
  web_requests : nat
}.

Section Entry.
Variable config : Config.
Variable server : nat -> result Response.
Variable uniform : nat -> pyfloat.
Variable now : string.
(** [config.ENABLE_MOCK_DATA] *)
Variable ENABLE_MOCK_DATA : bool.
(** The environment variable [MOCK_USCIS_STATUS], [None] when unset. *)
Variable MOCK_USCIS_STATUS : option string.
(** The outcome of the POST to the public case-status page. *)
Variable web : result Response.
(** [soup.find('div', class_='rows text-center')] on the text of a page,
    then [get_text(strip=True)]; [None] when there is no such div. *)
Variable status_div : string -> option string.

Definition _get_mock_status (case_number : string) : MockRecord := {|
  mock_case_number := case_number;
  mock_status := default "Case Was Received" MOCK_USCIS_STATUS;
  mock_last_updated := now;
  mock_form_type := _extract_form_type case_number;
  mock_case_type := _determine_case_type (_extract_form_type case_number);
  mock_office := "California Service Center";
  mock_details := "Your case was received and a receipt notice was sent.";
  mock_is_mock_data := true;
  mock_method := "mock" |}.

(** What [_get_status_from_web_scraping] makes of the outcome of its POST. *)
Definition _get_status_from_web_scraping (case_number : string)
  : option StatusRecord :=
  match web with
  | Raise _ => None
  | Ok response =>
      if status_code response =? 200 then
        match status_div (text response) with
        | Some status_text =>
            if negb (String.eqb status_text EmptyString)
               && negb (contains "not found" (lower status_text))
            then
              Some {| case_number := case_number;
                      status := PyStr status_text;
                      last_updated := PyStr now;
                      form_type := PyStr (_extract_form_type case_number);
                      case_type := _determine_case_type (_extract_form_type case_number);
                      office := PyStr "USCIS Service Center";
                      details := PyStr "Retrieved via web scraping fallback";
                      data_source := "uscis.gov";
                      method := "web_scraping_fallback";
                      error := None;
                      api_response := None;
                      raw_response := None |}
            else None
        | None => None
        end
      else None
  end.

(** [if not self.access_token: self.access_token = self._get_access_token()] *)
Definition ensure_token : M bool :=
  run token <- get_token;
  if truthy token then ret true
  else
    run fresh <- _get_access_token server;
    run _ <- set_token fresh;
    ret (truthy fresh).

(** [get_case_status]; [depth] is the room left on the call stack when
    [_get_status_from_api] is entered. *)
Definition get_case_status (depth : nat) (case_number : string) (client : Client)
  : option CaseStatus * Client :=
  if ENABLE_MOCK_DATA then (Some (FromMock (_get_mock_status case_number)), client)
  else
    let (has_token, st1) := ensure_token (api client) in
    if has_token then
      let (outcome, st2) :=
        _get_status_from_api config server uniform now depth case_number st1 in
      match outcome with
      | Ok (Some status) =>
          (Some (FromService status),
           {| api := st2; web_requests := web_requests client |})
      | Ok None =>
          (option_map FromService (_get_status_from_web_scraping case_number),
           {| api := st2; web_requests := S (web_requests client) |})
      | Raise _ =>
          (None, {| api := st2; web_requests := web_requests client |})
      end
    else (None, {| api := st1; web_requests := web_requests client |}).

End Entry.
End CaseStatusAPIClient.


(** * Notions used to state the properties *)

(** ** Order on floats and on quotients, by cross multiplication *)

Module Binary64Order.
Import Binary64.

(** [2^e = pw e / fden e] for a signed exponent [e]. *)
Definition pw (e : Z) : Z := 2 ^ Z.max e 0.

(** [n / d < 2^k] and [2^k <= n / d]. *)
Definition below (n d k : Z) : Prop := n * fden k < d * pw k.
Definition atleast (n d k : Z) : Prop := d * pw k <= n * fden k.

(** [m1 * 2^e1 <= m2 * 2^e2] *)
Definition value_le (m1 e1 m2 e2 : Z) : Prop :=
  fnum m1 e1 * fden e2 <= fnum m2 e2 * fden e1.

End Binary64Order.

(** ** The estimator, float by float *)

Module ETAEstimatorSpec.
Import Binary64.

(** What [days_breakdown] computes for a positive rate [r]: the rounded
    quotient, its ceiling [b], the float of [b], the product with the
    float 0.2, its ceiling [f], and the total [t]. *)
Definition days_spec (p r b f t : Z) : Prop :=
  exists mq eq ma ea mf ef,
    round_b64 p r = Finite mq eq /\
    b = ceil_ratio (fnum mq eq) (fden eq) /\
    round_b64 b 1 = Finite ma ea /\
    round_dyadic (ma * 7205759403792794) (ea + -55) = Finite mf ef /\
    f = ceil_ratio (fnum mf ef) (fden ef) /\
    t = b + f.

End ETAEstimatorSpec.

(** ** The gate of the JSON parser, in the words of its description *)

Module PERMScraperSpec.
Import PyVal.

(** The JSON supplies a truthy queue position under one of the three keys. *)
Definition supplies_position (d : gmap string pyval) : bool :=
  truthy (dict_get d "queue_position")
  || truthy (dict_get d "position")
  || truthy (dict_get d "position_in_queue").

(** The processing rate the JSON supplies, if any: the first truthy value
    under [processing_rate], then [rate]. *)
Definition supplied_rate (d : gmap string pyval) : option pyval :=
  if truthy (dict_get d "processing_rate") then Some (dict_get d "processing_rate")
  else if truthy (dict_get d "rate") then Some (dict_get d "rate")
  else None.

(** The JSON supplies a processing rate other than the configured default. *)
Definition supplies_other_rate (config : Config) (d : gmap string pyval) : bool :=
  match supplied_rate d with
  | Some v => negb (eq_int_val v (DEFAULT_PROCESSING_RATE config))
  | None => false
  end.

End PERMScraperSpec.

(** ** The trace of a run against a server that only answers 503 *)

Module CaseStatusAPISpec.
Import Binary64 PyVal CaseStatusAPI.

(** [k] requests with the same token; between two requests a sleep of
    [2 ** attempt + jitter], the attempts counted from [attempt] and the
    jitters drawn from [draw] on. *)
Fixpoint rounds_503 (token : pyval) (uniform : nat -> pyfloat)
    (attempt draw k : nat) : list Event :=
  match k with
  | O => []
  | S k' =>
      StatusRequest token ::
      match k' with
      | O => []
      | S _ => Sleep (Z.of_nat attempt) (uniform draw)
                     (wait_time (Z.of_nat attempt) (uniform draw))
               :: rounds_503 token uniform (S attempt) (S draw) k'
      end
  end.

Definition is_status_request (e : Event) : bool :=
  match e with StatusRequest _ => true | _ => false end.

Definition is_token_request (e : Event) : bool :=
  match e with TokenRequest => true | _ => false end.

(** The attempts after which the run slept. *)
Fixpoint sleeps (events : list Event) : list Z :=
  match events with
  | [] => []
  | Sleep attempt _ _ :: rest => attempt :: sleeps rest
  | _ :: rest => sleeps rest
  end.

(** The seconds the run asked [time.sleep] for, in order. *)
Fixpoint waits (events : list Event) : list pyfloat :=
  match events with
  | [] => []
  | Sleep _ _ seconds :: rest => seconds :: waits rest
  | _ :: rest => waits rest
  end.

(** A request after which the strategy goes round again when attempts are
    left: it raised, or was answered with a status other than 200, 401 and
    404. *)
Definition retried (r : result Response) : bool :=
  match r with
  | Raise _ => true
  | Ok response =>
      negb (status_code response =? 200) && negb (status_code response =? 401)
      && negb (status_code response =? 404)
  end.

(** [k] such rounds: a request and a sleep each. *)
Fixpoint retried_rounds (token : pyval) (uniform : nat -> pyfloat)
    (attempt draw k : nat) : list Event :=
  match k with
  | O => []
  | S k' =>
      StatusRequest token
      :: Sleep (Z.of_nat attempt) (uniform draw)
           (wait_time (Z.of_nat attempt) (uniform draw))
      :: retried_rounds token uniform (S attempt) (S draw) k'
  end.

(** A server that answers its successive requests from a script and fails
    to connect once the script is over. *)
Definition scripted (script : list (result Response)) : nat -> result Response :=
  fun i => nth i script (Raise ConnectionError).

Definition status_only (code : Z) : result Response :=
  Ok {| status_code := code; json := None; text := EmptyString; soup_text := EmptyString |}.

Definition token_grant (token : string) : result Response :=
  Ok {| status_code := 200;
        json := Some (PyDict {[ "access_token" := PyStr token ]});
        text := EmptyString; soup_text := EmptyString |}.

End CaseStatusAPISpec.

(** ** The accent colours, by name *)

Module NotifierSpec.
Import Text.

Inductive Accent : Type := Green | Red | Orange | Yellow | Purple | Blue.

(** The colour codes, named as the comments of the sources name them. *)
Definition accent_hex (a : Accent) : string :=
  match a with
  | Green => "#28a745"
  | Red => "#dc3545"
  | Orange => "#fd7e14"
  | Yellow => "#ffc107"
  | Purple => "#6f42c1"
  | Blue => "#007bff"
  end.

(** The six rules of the description, on the lowered status. *)
Definition accent_rule (status : string) : Accent :=
  let s := lower status in
  if contains "approved" s then Green
  else if contains "denied" s then Red
  else if contains "rfe" s || contains "request for evidence" s then Orange
  else if contains "pending" s then Yellow
  else if contains "received" s then Purple
  else Blue.

(** The rules the PERM notifier knows. *)
Definition perm_accent_rule (status : string) : Accent :=
  let s := lower status in
  if contains "approved" s then Green
  else if contains "denied" s then Red
  else if contains "pending" s then Yellow
  else Blue.

End NotifierSpec.

Ltac weekday_lia :=
  unfold PyDate.weekday, PyDate.MAXORDINAL in *;
  Z.to_euclidean_division_equations; lia.


(** ** The three confidence levels, in order *)

Module ETAEstimatorOrder.

Definition level_rank (level : string) : Z :=
  if String.eqb level "High" then 2
  else if String.eqb level "Medium" then 1
  else 0.

End ETAEstimatorOrder.

(** ** Outcomes of a request that the OAuth2 strategy retries *)

Module CaseStatusAPIOutcomes.

(** The request raised, or was answered with a status other than 200, 401,
    404 and 503. *)
Definition transient_failure (r : result Response) : bool :=
  match r with
  | Raise _ => true
  | Ok response =>
      negb (status_code response =? 200) && negb (status_code response =? 401)
      && negb (status_code response =? 404) && negb (status_code response =? 503)
  end.

End CaseStatusAPIOutcomes.

(** ** The receipt prefixes with a service centre *)

Module CaseNumberSpec.

Definition known_prefixes : list string :=
  ["YSC"; "WAC"; "LIN"; "SRC"; "MSC"; "IOE"].

End CaseNumberSpec.

(** ** Occurrence of a character in a string *)

Module TextSpec.

Fixpoint has_char (c : ascii) (s : string) : bool :=
  match s with
  | EmptyString => false
  | String x s' => Ascii.eqb x c || has_char c s'
  end.

End TextSpec.

(** ** The calls of [_try_api_call], spelled out *)

Module PERMScraperSessionSpec.
Import PyVal PERMScraper PERMScraperSession.

Definition json_content_type : string := "application/json".
Definition form_content_type : string := "application/x-www-form-urlencoded".

(** The calls when every answer arrives and none yields a record: for each
    data format a JSON POST and a form POST, then a GET for each format. *)
Definition calls_without_record (api_url : string)
    (formats : list (list (string * string))) : list Call :=
  flat_map (fun data => [ApiCall POST api_url AsJson data json_content_type;
                         ApiCall POST api_url AsForm data form_content_type]) formats
  ++ map (fun data => ApiCall GET api_url AsParams data json_content_type) formats.

(** The calls when every call raises: the form POSTs are never reached. *)
Definition calls_when_down (api_url : string)
    (formats : list (list (string * string))) : list Call :=
  map (fun data => ApiCall POST api_url AsJson data json_content_type) formats
  ++ map (fun data => ApiCall GET api_url AsParams data json_content_type) formats.

Definition call_url (c : Call) : string :=
  match c with
  | ApiCall _ url _ _ _ => url
  | DiscoveredCall _ url => url
  end.

(** The [Content-Type] header of a call agrees with the way its data
    travel. *)
Definition consistent_call (c : Call) : bool :=
  match c with
  | ApiCall _ _ AsForm _ content_type => String.eqb content_type form_content_type
  | ApiCall _ _ _ _ content_type => String.eqb content_type json_content_type
  | DiscoveredCall _ _ => true
  end.

(** The most calls one round of [_try_api_call] makes. *)
Definition round_cost (round : HttpMethod * list (string * string)) : nat :=
  match fst round with POST => 2 | GET => 1 end.

(** The record [r] was parsed from the answer to the last call of [sent],
    and that answer had status 200. *)
Definition answered (config : Config) (py_repr : pyval -> string)
    (server : nat -> result Response) (sent : list Call) (r : StatusRecord)
    (case_number submission_date employer_letter : string) : Prop :=
  exists response,
    server (Nat.pred (length sent)) = Ok response /\
    status_code response = 200 /\
    _parse_api_response config py_repr response
      case_number submission_date employer_letter = Some r.

End PERMScraperSessionSpec.

(** ** The labels of a record that comes from the API *)

Module CaseStatusAPILabels.
Import CaseStatusAPI.

Definition api_labelled (case_number : string) (r : StatusRecord) : Prop :=
  CaseStatusAPI.case_number r = case_number /\
  data_source r = "uscis.gov" /\
  (method r = "official_api_oauth2" \/ method r = "api_text").

End CaseStatusAPILabels.

(** The case analysis over the tiers of the three confidence factors. *)
Ltac tiers :=
  unfold ETAEstimator._determine_confidence_level, ETAEstimator.confidence_score,
         ETAEstimator.position_factor, ETAEstimator.rate_factor,
         ETAEstimator.days_factor;
  repeat match goal with
         | |- context [?a <=? ?b] => destruct (Z.leb_spec a b)
         end.

(** The first three parts of the description of the calls of a round. *)
Ltac shape :=
  split; [reflexivity |];
  split; [cbn [length]; lia |];
  split; [repeat constructor |].

(** * Properties *)

(** ** Rounding to nearest, ties to even *)

Module Binary64Facts.
Import Binary64 Binary64Order.

Lemma rne_cases n d :
  0 < d ->
  exists q r, n = d * q + r /\ 0 <= r < d /\
    ((2 * r < d /\ rne n d = q) \/
     (d < 2 * r /\ rne n d = q + 1) \/
     (2 * r = d /\ Z.even q = true /\ rne n d = q) \/
     (2 * r = d /\ Z.even q = false /\ rne n d = q + 1)).
Proof.
  intros Hd. exists (n / d), (n mod d).
  split. { apply Z.div_mod. lia. }
  split. { apply Z.mod_pos_bound. lia. }
  unfold rne.
  destruct (Z.ltb_spec (2 * (n mod d)) d); [left; split; [lia | reflexivity] |].
  destruct (Z.ltb_spec d (2 * (n mod d))); [right; left; split; [lia | reflexivity] |].
  destruct (Z.even (n / d)) eqn:He.
  - right; right; left. repeat split; lia.
  - right; right; right. repeat split; lia.
Qed.

Lemma rne_mono n1 d1 n2 d2 :
  0 < d1 -> 0 < d2 -> n1 * d2 <= n2 * d1 -> rne n1 d1 <= rne n2 d2.
Proof.
  intros H1 H2 Hle.
  destruct (rne_cases n1 d1 H1) as (q1 & r1 & E1 & B1 & C1).
  destruct (rne_cases n2 d2 H2) as (q2 & r2 & E2 & B2 & C2).
  assert (Hr1 : 0 <= r1 * d2) by nia.
  assert (Hr2 : r2 * d1 < d2 * d1) by nia.
  assert (Hq : q1 <= q2).
  { destruct (Z_le_gt_dec q1 q2) as [|Hgt]; [assumption | exfalso].
    assert (d1 * d2 * (q2 + 1) <= d1 * d2 * q1)
      by (apply Z.mul_le_mono_nonneg_l; nia).
    subst n1 n2. lia. }
  destruct (Z.eq_dec q1 q2) as [-> | Hne].
  - assert (Hr : r1 * d2 <= r2 * d1) by nia.
    destruct C1 as [[? ->] | [[? ->] | [(? & ? & ->) | (? & ? & ->)]]];
    destruct C2 as [[? ->] | [[? ->] | [(? & ? & ->) | (? & ? & ->)]]];
      try lia; try congruence; nia.
  - assert (q1 + 1 <= q2) by lia.
    destruct C1 as [[? ->] | [[? ->] | [(? & ? & ->) | (? & ? & ->)]]];
    destruct C2 as [[? ->] | [[? ->] | [(? & ? & ->) | (? & ? & ->)]]]; lia.
Qed.

Lemma rne_int k d : 0 < d -> rne (k * d) d = k.
Proof.
  intros Hd. unfold rne.
  rewrite Z.div_mul by lia. rewrite Z.mod_mul by lia.
  destruct (Z.ltb_spec (2 * 0) d); [reflexivity | lia].
Qed.

Lemma rne_ge_int n d k : 0 < d -> k * d <= n -> k <= rne n d.
Proof.
  intros Hd H. rewrite <- (rne_int k d Hd). apply rne_mono; nia.
Qed.

Lemma rne_le_int n d k : 0 < d -> n <= k * d -> rne n d <= k.
Proof.
  intros Hd H. rewrite <- (rne_int k d Hd). apply rne_mono; nia.
Qed.

Lemma rne_opp n d : 0 < d -> rne (- n) d = - rne n d.
Proof.
  intros Hd.
  destruct (rne_cases n d Hd) as (q & r & E & B & C).
  destruct (rne_cases (- n) d Hd) as (q' & r' & E' & B' & C').
  destruct (Z.eq_dec r 0) as [-> | Hr].
  - assert (Ht : d * (q + q') + r' = 0) by lia.
    assert (q + q' = 0) by nia.
    assert (r' = 0 /\ q' = - q) as [-> ->] by nia.
    destruct C as [[? ->] | [[? ->] | [(? & ? & ->) | (? & ? & ->)]]];
    destruct C' as [[? ->] | [[? ->] | [(? & ? & ->) | (? & ? & ->)]]]; lia.
  - assert (Ht : d * (q + q' + 1) + (r + r' - d) = 0) by lia.
    assert (q + q' + 1 = 0) by nia.
    assert (r' = d - r /\ q' = - q - 1) as [-> ->] by nia.
    replace (- q - 1) with (- (q + 1)) in C' by lia.
    rewrite Z.even_opp, Z.even_add in C'. simpl (Z.even 1) in C'.
    destruct C as [[? ->] | [[? ->] | [(? & Hev & ->) | (? & Hev & ->)]]];
    destruct C' as [[? ->] | [[? ->] | [(? & Hev' & ->) | (? & Hev' & ->)]]];
      try lia; rewrite Hev in Hev'; discriminate.
Qed.


(** ** Powers of two with a signed exponent: [2^e = pw e / fden e] *)

Lemma fnum_pw m e : fnum m e = m * pw e.
Proof. reflexivity. Qed.

Lemma pw_pos e : 0 < pw e.
Proof. unfold pw. apply Z.pow_pos_nonneg; lia. Qed.

Lemma fden_pos e : 0 < fden e.
Proof. unfold fden. apply Z.pow_pos_nonneg; lia. Qed.

Lemma pw_nonneg_exp e : 0 <= e -> pw e = 2 ^ e /\ fden e = 1.
Proof.
  intros H. unfold pw, fden.
  rewrite (Z.max_l e 0) by lia. rewrite (Z.max_r (- e) 0) by lia. split; reflexivity.
Qed.

Lemma pw_neg_exp e : e <= 0 -> pw e = 1 /\ fden e = 2 ^ (- e).
Proof.
  intros H. unfold pw, fden.
  rewrite (Z.max_r e 0) by lia. rewrite (Z.max_l (- e) 0) by lia. split; reflexivity.
Qed.

(** [2^(e+c) = 2^c * 2^e] *)
Lemma pw_shift e c :
  0 <= c -> pw (e + c) * fden e = 2 ^ c * (pw e * fden (e + c)).
Proof.
  intros Hc.
  destruct (Z_le_gt_dec 0 e) as [He | He].
  - destruct (pw_nonneg_exp e He) as [-> ->].
    destruct (pw_nonneg_exp (e + c)) as [-> ->]; [lia |].
    rewrite Z.pow_add_r by lia. ring.
  - destruct (pw_neg_exp e) as [-> ->]; [lia |].
    destruct (Z_le_gt_dec 0 (e + c)) as [Hec | Hec].
    + destruct (pw_nonneg_exp (e + c) Hec) as [-> ->].
      rewrite <- Z.pow_add_r by lia. replace (e + c + - e) with c by lia. ring.
    + destruct (pw_neg_exp (e + c)) as [-> ->]; [lia |].
      replace (- e) with (c + - (e + c)) at 1 by lia.
      rewrite Z.pow_add_r by lia. ring.
Qed.

Lemma below_mono n d a b :
  0 <= n -> 0 < d -> a <= b -> below n d a -> below n d b.
Proof.
  unfold below. intros Hn Hd Hab H.
  pose proof (pw_shift a (b - a) ltac:(lia)) as E.
  replace (a + (b - a)) with b in E by lia.
  pose proof (pw_pos a). pose proof (pw_pos b).
  pose proof (fden_pos a). pose proof (fden_pos b).
  assert (0 < 2 ^ (b - a)) by (apply Z.pow_pos_nonneg; lia).
  apply (Z.mul_lt_mono_pos_r (fden a)); [lia |].
  assert (n * fden a * fden b < d * pw a * fden b) by nia.
  assert (d * pw a * fden b <= 2 ^ (b - a) * (d * pw a * fden b)) by nia.
  nia.
Qed.

Lemma atleast_anti n d a b :
  0 <= n -> 0 < d -> b <= a -> atleast n d a -> atleast n d b.
Proof.
  intros Hn Hd Hab H.
  destruct (Z_le_gt_dec (d * pw b) (n * fden b)) as [|Hlt]; [assumption | exfalso].
  assert (below n d a) by (apply (below_mono n d b a); unfold below; lia).
  unfold below, atleast in *. lia.
Qed.

(** [n / d < 2^(e+c)] iff [n / (d * 2^e) < 2^c] *)
Lemma below_scale n d e c :
  0 <= c -> (below n d (e + c) <-> n * fden e < 2 ^ c * (d * pw e)).
Proof.
  intros Hc. unfold below.
  pose proof (pw_shift e c Hc) as E.
  pose proof (pw_pos e). pose proof (pw_pos (e + c)).
  pose proof (fden_pos e). pose proof (fden_pos (e + c)).
  assert (E' : d * (pw (e + c) * fden e) = d * (2 ^ c * (pw e * fden (e + c))))
    by (rewrite E; reflexivity).
  split; intros Hlt.
  - apply (Z.mul_lt_mono_pos_r (fden (e + c))); [lia |].
    assert (n * fden (e + c) * fden e < d * pw (e + c) * fden e)
      by (apply Z.mul_lt_mono_pos_r; lia).
    lia.
  - apply (Z.mul_lt_mono_pos_r (fden e)); [lia |].
    assert (n * fden e * fden (e + c) < 2 ^ c * (d * pw e) * fden (e + c))
      by (apply Z.mul_lt_mono_pos_r; lia).
    lia.
Qed.

Lemma atleast_scale n d e c :
  0 <= c -> (atleast n d (e + c) <-> 2 ^ c * (d * pw e) <= n * fden e).
Proof.
  intros Hc. pose proof (below_scale n d e c Hc) as B.
  unfold below, atleast in *. lia.
Qed.

Lemma atleast_transfer n1 d1 n2 d2 k :
  0 < d1 -> 0 < d2 -> n1 * d2 <= n2 * d1 -> atleast n1 d1 k -> atleast n2 d2 k.
Proof.
  unfold atleast. intros H1 H2 Hle H.
  pose proof (pw_pos k). pose proof (fden_pos k).
  apply (Z.mul_le_mono_pos_r _ _ d1); [lia |].
  assert (d1 * pw k * d2 <= n1 * fden k * d2) by nia.
  assert (n1 * d2 * fden k <= n2 * d1 * fden k) by nia.
  nia.
Qed.

Lemma floor_log2_spec n d :
  0 < n -> 0 < d ->
  atleast n d (floor_log2 n d) /\ below n d (floor_log2 n d + 1).
Proof.
  intros Hn Hd. unfold floor_log2, pow2_le_ratio.
  destruct (Z.log2_spec n Hn) as [Ln Un].
  destruct (Z.log2_spec d Hd) as [Ld Ud].
  pose proof (Z.log2_nonneg n). pose proof (Z.log2_nonneg d).
  set (ln := Z.log2 n) in *. set (ld := Z.log2 d) in *.
  rewrite fnum_pw.
  assert (Hup : below n d (ln - ld + 1)).
  { (* n < 2^(ln+1) and 2^ld <= d *)
    pose proof (pw_shift (ln - ld + 1) ld ltac:(lia)) as E.
    replace (ln - ld + 1 + ld) with (Z.succ ln) in E by lia.
    destruct (pw_nonneg_exp (Z.succ ln) ltac:(lia)) as [E1 E2].
    rewrite E1, E2 in E.
    unfold below.
    pose proof (pw_pos (ln - ld + 1)). pose proof (fden_pos (ln - ld + 1)).
    assert (0 < 2 ^ ld) by (apply Z.pow_pos_nonneg; lia).
    apply (Z.mul_lt_mono_pos_r (2 ^ ld)); [lia |].
    assert (n * fden (ln - ld + 1) < 2 ^ Z.succ ln * fden (ln - ld + 1)) by nia.
    assert (2 ^ ld * pw (ln - ld + 1) <= d * pw (ln - ld + 1)) by nia.
    nia. }
  assert (Hlow : atleast n d (ln - ld - 1)).
  { (* 2^ln <= n and d < 2^(ld+1) *)
    pose proof (pw_shift (ln - ld - 1) (Z.succ ld) ltac:(lia)) as E.
    replace (ln - ld - 1 + Z.succ ld) with ln in E by lia.
    destruct (pw_nonneg_exp ln ltac:(lia)) as [E1 E2].
    rewrite E1, E2 in E.
    unfold atleast.
    pose proof (pw_pos (ln - ld - 1)). pose proof (fden_pos (ln - ld - 1)).
    assert (0 < 2 ^ Z.succ ld) by (apply Z.pow_pos_nonneg; lia).
    apply (Z.mul_le_mono_pos_r _ _ (2 ^ Z.succ ld)); [lia |].
    assert (d * pw (ln - ld - 1) <= 2 ^ Z.succ ld * pw (ln - ld - 1)) by nia.
    assert (2 ^ ln * fden (ln - ld - 1) <= n * fden (ln - ld - 1)) by nia.
    nia. }
  destruct (Z.leb_spec (d * pw (ln - ld)) (n * fden (ln - ld))) as [Hge | Hlt].
  - split; [exact Hge | exact Hup].
  - split; [exact Hlow |].
    replace (ln - ld - 1 + 1) with (ln - ld) by lia. unfold below. lia.
Qed.

Lemma floor_log2_mono n1 d1 n2 d2 :
  0 < n1 -> 0 < d1 -> 0 < d2 -> n1 * d2 <= n2 * d1 ->
  floor_log2 n1 d1 <= floor_log2 n2 d2.
Proof.
  intros Hn1 Hd1 Hd2 Hle.
  assert (Hn2 : 0 < n2) by nia.
  destruct (floor_log2_spec n1 d1 Hn1 Hd1) as [A1 _].
  destruct (floor_log2_spec n2 d2 Hn2 Hd2) as [_ B2].
  destruct (Z_le_gt_dec (floor_log2 n1 d1) (floor_log2 n2 d2)) as [|Hgt];
    [assumption | exfalso].
  pose proof (atleast_transfer _ _ _ _ _ Hd1 Hd2 Hle A1) as A2.
  apply (atleast_anti n2 d2 _ (floor_log2 n2 d2 + 1)) in A2; [| lia | lia | lia].
  unfold atleast, below in *. lia.
Qed.


(** ** Correct rounding is monotone *)

Lemma round_exponent_pos n d :
  0 < n -> round_exponent n d = Z.max (floor_log2 n d - 52) (-1074).
Proof. intros H. unfold round_exponent. rewrite Z.abs_eq by lia. reflexivity. Qed.

Lemma mantissa_nonneg n d e : 0 <= n -> 0 < d -> 0 <= scaled_rne n d e.
Proof.
  intros Hn Hd. unfold scaled_rne. rewrite fnum_pw.
  pose proof (pw_pos e). pose proof (fden_pos e).
  apply rne_ge_int; nia.
Qed.

Lemma mantissa_upper n d :
  0 < n -> 0 < d -> scaled_rne n d (round_exponent n d) <= 2 ^ 53.
Proof.
  intros Hn Hd. rewrite (round_exponent_pos n d Hn).
  set (e := Z.max (floor_log2 n d - 52) (-1074)).
  destruct (floor_log2_spec n d Hn Hd) as [_ B].
  apply (below_mono n d _ (e + 53)) in B; [| lia | lia | lia].
  apply below_scale in B; [| lia].
  unfold scaled_rne. rewrite fnum_pw.
  pose proof (pw_pos e).
  apply rne_le_int; nia.
Qed.

Lemma mantissa_lower n d :
  0 < n -> 0 < d -> -1074 < round_exponent n d ->
  2 ^ 52 <= scaled_rne n d (round_exponent n d).
Proof.
  intros Hn Hd. rewrite (round_exponent_pos n d Hn).
  set (e := Z.max (floor_log2 n d - 52) (-1074)). intros He.
  destruct (floor_log2_spec n d Hn Hd) as [A _].
  replace (floor_log2 n d) with (e + 52) in A by lia.
  apply atleast_scale in A; [| lia].
  unfold scaled_rne. rewrite fnum_pw.
  pose proof (pw_pos e).
  apply rne_ge_int; nia.
Qed.

Lemma round_b64_zero d : round_b64 0 d = Finite 0 0.
Proof. reflexivity. Qed.

Lemma round_b64_inv n d m e :
  round_b64 n d = Finite m e ->
  (n = 0 /\ m = 0 /\ e = 0) \/
  (n <> 0 /\ e = round_exponent n d /\ m = scaled_rne n d e /\
   (0 <= e -> Z.abs m * 2 ^ e < 2 ^ 1024)).
Proof.
  unfold round_b64.
  destruct (Z.eqb_spec n 0) as [-> | Hn].
  - intros [= <- <-]. left. repeat split.
  - destruct (Z.leb_spec 0 (round_exponent n d));
    destruct (Z.leb_spec (2 ^ 1024)
                (Z.abs (scaled_rne n d (round_exponent n d)) * 2 ^ round_exponent n d));
      cbn [andb]; intros [= <- <-] || intros [=]; right; repeat split; try assumption; lia.
Qed.

Lemma round_b64_finite n d :
  n <> 0 ->
  (0 <= round_exponent n d ->
   Z.abs (scaled_rne n d (round_exponent n d)) * 2 ^ round_exponent n d < 2 ^ 1024) ->
  round_b64 n d = Finite (scaled_rne n d (round_exponent n d)) (round_exponent n d).
Proof.
  intros Hn H. unfold round_b64.
  destruct (Z.eqb_spec n 0); [contradiction |].
  destruct (Z.leb_spec 0 (round_exponent n d)); [| reflexivity].
  destruct (Z.leb_spec (2 ^ 1024)
              (Z.abs (scaled_rne n d (round_exponent n d)) * 2 ^ round_exponent n d));
    [| reflexivity].
  specialize (H ltac:(assumption)). lia.
Qed.

Lemma round_exponent_mono n1 d1 n2 d2 :
  0 < n1 -> 0 < d1 -> 0 < d2 -> n1 * d2 <= n2 * d1 ->
  round_exponent n1 d1 <= round_exponent n2 d2.
Proof.
  intros Hn1 Hd1 Hd2 Hle.
  assert (Hn2 : 0 < n2) by nia.
  rewrite !round_exponent_pos by assumption.
  pose proof (floor_log2_mono n1 d1 n2 d2 Hn1 Hd1 Hd2 Hle). lia.
Qed.

Lemma mantissa_mono n1 d1 n2 d2 :
  0 < n1 -> 0 < d1 -> 0 < d2 -> n1 * d2 <= n2 * d1 ->
  value_le (scaled_rne n1 d1 (round_exponent n1 d1)) (round_exponent n1 d1)
           (scaled_rne n2 d2 (round_exponent n2 d2)) (round_exponent n2 d2).
Proof.
  intros Hn1 Hd1 Hd2 Hle.
  assert (Hn2 : 0 < n2) by nia.
  pose proof (round_exponent_mono n1 d1 n2 d2 Hn1 Hd1 Hd2 Hle) as He.
  pose proof (mantissa_upper n1 d1 Hn1 Hd1) as U1.
  pose proof (mantissa_nonneg n1 d1 (round_exponent n1 d1) ltac:(lia) Hd1) as P1.
  set (e1 := round_exponent n1 d1) in *. set (e2 := round_exponent n2 d2) in *.
  unfold value_le. rewrite !fnum_pw.
  pose proof (pw_pos e1). pose proof (pw_pos e2).
  pose proof (fden_pos e1). pose proof (fden_pos e2).
  destruct (Z.eq_dec e1 e2) as [Heq | Hne].
  - rewrite <- Heq.
    assert (scaled_rne n1 d1 e1 <= scaled_rne n2 d2 e1).
    { unfold scaled_rne. rewrite !fnum_pw.
      apply rne_mono; [nia | nia |].
      assert (n1 * d2 * (fden e1 * pw e1) <= n2 * d1 * (fden e1 * pw e1))
        by (apply Z.mul_le_mono_nonneg_r; nia).
      lia. }
    apply Z.mul_le_mono_nonneg_r; [lia |].
    apply Z.mul_le_mono_nonneg_r; lia.
  - assert (Hmin : -1074 <= e1) by (unfold e1, round_exponent; lia).
    assert (Hlow : 2 ^ 52 <= scaled_rne n2 d2 e2)
      by (apply mantissa_lower; [assumption | assumption | fold e2; lia]).
    pose proof (pw_shift e1 (e2 - e1) ltac:(lia)) as E.
    replace (e1 + (e2 - e1)) with e2 in E by lia.
    assert (2 ^ 1 <= 2 ^ (e2 - e1)) by (apply Z.pow_le_mono_r; lia).
    set (A := pw e1 * fden e2) in *.
    assert (0 < A) by (unfold A; nia).
    set (m1 := scaled_rne n1 d1 e1) in *. set (m2 := scaled_rne n2 d2 e2) in *.
    assert (m1 * A <= 2 ^ 53 * A) by (apply Z.mul_le_mono_nonneg_r; lia).
    assert (2 ^ 52 * (2 ^ 1 * A) <= m2 * (2 ^ (e2 - e1) * A)).
    { apply Z.mul_le_mono_nonneg; try lia.
      apply Z.mul_le_mono_nonneg_r; lia. }
    replace (m1 * pw e1 * fden e2) with (m1 * A) by (unfold A; ring).
    replace (m2 * pw e2 * fden e1) with (m2 * (pw e2 * fden e1)) by ring.
    rewrite E. lia.
Qed.

Lemma round_b64_mono n1 d1 n2 d2 m2 e2 :
  0 <= n1 -> 0 < d1 -> 0 < d2 -> n1 * d2 <= n2 * d1 ->
  round_b64 n2 d2 = Finite m2 e2 ->
  exists m1 e1, round_b64 n1 d1 = Finite m1 e1 /\ 0 <= m1 /\ value_le m1 e1 m2 e2.
Proof.
  intros Hn1 Hd1 Hd2 Hle H2.
  assert (Hn2 : 0 <= n2) by nia.
  assert (Hm2 : 0 <= m2).
  { destruct (round_b64_inv _ _ _ _ H2) as [(_ & -> & _) | (_ & _ & -> & _)];
      [lia | apply mantissa_nonneg; assumption]. }
  destruct (Z.eq_dec n1 0) as [-> | Hne].
  - exists 0, 0. rewrite round_b64_zero. repeat split; [lia |].
    unfold value_le. rewrite !fnum_pw.
    pose proof (pw_pos e2). pose proof (fden_pos 0). nia.
  - assert (Hpos1 : 0 < n1) by lia.
    assert (Hpos2 : 0 < n2) by nia.
    destruct (round_b64_inv _ _ _ _ H2) as [(-> & _) | (_ & -> & -> & Hov)]; [lia |].
    pose proof (mantissa_mono n1 d1 n2 d2 Hpos1 Hd1 Hd2 Hle) as V.
    pose proof (round_exponent_mono n1 d1 n2 d2 Hpos1 Hd1 Hd2 Hle) as He.
    pose proof (mantissa_nonneg n1 d1 (round_exponent n1 d1) Hn1 Hd1) as P1.
    exists (scaled_rne n1 d1 (round_exponent n1 d1)), (round_exponent n1 d1).
    split; [| split; assumption].
    apply round_b64_finite; [lia |].
    intros He1. specialize (Hov ltac:(lia)).
    unfold value_le in V. rewrite !fnum_pw in V.
    destruct (pw_nonneg_exp _ He1) as [E1 E1'].
    destruct (pw_nonneg_exp (round_exponent n2 d2) ltac:(lia)) as [E2 E2'].
    rewrite E1, E1', E2, E2' in V.
    rewrite Z.abs_eq in Hov by assumption.
    rewrite Z.abs_eq by assumption. lia.
Qed.


Lemma round_b64_opp n d m e :
  0 < d -> round_b64 n d = Finite m e -> round_b64 (- n) d = Finite (- m) e.
Proof.
  intros Hd H.
  destruct (round_b64_inv _ _ _ _ H) as [(-> & -> & ->) | (Hn & -> & -> & Hov)];
    [reflexivity |].
  assert (Hexp : round_exponent (- n) d = round_exponent n d)
    by (unfold round_exponent; rewrite Z.abs_opp; reflexivity).
  assert (Hm : forall e, scaled_rne (- n) d e = - scaled_rne n d e).
  { intros e. unfold scaled_rne. rewrite Z.mul_opp_l. apply rne_opp.
    rewrite fnum_pw. pose proof (pw_pos e). nia. }
  rewrite <- Hexp, <- Hm.
  apply round_b64_finite; [lia |].
  rewrite Hexp, Hm, Z.abs_opp. exact Hov.
Qed.

(** Whatever is smaller in absolute value than a representable quotient is
    representable too. *)
Lemma round_b64_finite_mono n1 d1 n2 d2 m2 e2 :
  0 < d1 -> 0 < d2 -> Z.abs n1 * d2 <= Z.abs n2 * d1 ->
  round_b64 n2 d2 = Finite m2 e2 ->
  exists m1 e1, round_b64 n1 d1 = Finite m1 e1.
Proof.
  intros Hd1 Hd2 Hle H2.
  assert (H2' : exists m e, round_b64 (Z.abs n2) d2 = Finite m e).
  { destruct (Z.abs_spec n2) as [[_ ->] | [_ ->]]; [eauto |].
    eexists _, _. apply round_b64_opp; eassumption. }
  destruct H2' as (m & e & H2').
  destruct (round_b64_mono (Z.abs n1) d1 (Z.abs n2) d2 m e
              (Z.abs_nonneg n1) Hd1 Hd2 Hle H2') as (m1 & e1 & H1 & _).
  destruct (Z.abs_spec n1) as [[_ E] | [_ E]]; rewrite E in H1; [eauto |].
  apply round_b64_opp in H1; [| assumption].
  rewrite Z.opp_involutive in H1. eauto.
Qed.

(** ** [math.ceil] is monotone *)

Lemma ceil_ratio_spec n d :
  0 < d -> (ceil_ratio n d - 1) * d < n <= ceil_ratio n d * d.
Proof.
  intros Hd. unfold ceil_ratio.
  pose proof (Z.div_mod (- n) d ltac:(lia)).
  pose proof (Z.mod_pos_bound (- n) d Hd). nia.
Qed.

Lemma ceil_ratio_mono n1 d1 n2 d2 :
  0 < d1 -> 0 < d2 -> n1 * d2 <= n2 * d1 -> ceil_ratio n1 d1 <= ceil_ratio n2 d2.
Proof.
  intros H1 H2 Hle.
  pose proof (ceil_ratio_spec n1 d1 H1) as [L1 _].
  pose proof (ceil_ratio_spec n2 d2 H2) as [_ U2].
  set (k1 := ceil_ratio n1 d1) in *. set (k2 := ceil_ratio n2 d2) in *.
  destruct (Z_le_gt_dec k1 k2) as [|Hgt]; [assumption | exfalso].
  assert (k2 * d1 <= (k1 - 1) * d1) by (apply Z.mul_le_mono_nonneg_r; lia).
  assert ((k1 - 1) * d1 * d2 < n1 * d2) by (apply Z.mul_lt_mono_pos_r; lia).
  assert (n2 * d1 <= k2 * d2 * d1) by (apply Z.mul_le_mono_nonneg_r; lia).
  assert (k2 * d1 * d2 <= (k1 - 1) * d1 * d2) by (apply Z.mul_le_mono_nonneg_r; lia).
  lia.
Qed.

Lemma ceil_ratio_nonneg n d : 0 < d -> 0 <= n -> 0 <= ceil_ratio n d.
Proof.
  intros Hd Hn. pose proof (ceil_ratio_spec n d Hd) as [_ U]. nia.
Qed.

Lemma ceil_value_mono m1 e1 m2 e2 :
  value_le m1 e1 m2 e2 ->
  ceil_ratio (fnum m1 e1) (fden e1) <= ceil_ratio (fnum m2 e2) (fden e2).
Proof.
  intros V. apply ceil_ratio_mono; [apply fden_pos | apply fden_pos | exact V].
Qed.

(** ** Scaling both sides of a comparison by the same float *)

(** [2^(a+b) = 2^a * 2^b] *)
Lemma pw_add a b : pw (a + b) * (fden a * fden b) = pw a * pw b * fden (a + b).
Proof.
  destruct (Z_le_gt_dec 0 b) as [Hb | Hb].
  - pose proof (pw_shift a b Hb) as E.
    destruct (pw_nonneg_exp b Hb) as [-> ->]. lia.
  - pose proof (pw_shift (a + b) (- b) ltac:(lia)) as E.
    replace (a + b + - b) with a in E by lia.
    destruct (pw_neg_exp b ltac:(lia)) as [-> ->]. lia.
Qed.

Lemma value_le_scale m1 e1 m2 e2 c k :
  0 <= c -> value_le m1 e1 m2 e2 -> value_le (m1 * c) (e1 + k) (m2 * c) (e2 + k).
Proof.
  unfold value_le. rewrite !fnum_pw. intros Hc V.
  pose proof (pw_add e1 k) as A1. pose proof (pw_add e2 k) as A2.
  pose proof (pw_pos e1). pose proof (pw_pos e2). pose proof (pw_pos k).
  pose proof (fden_pos e1). pose proof (fden_pos e2). pose proof (fden_pos k).
  pose proof (pw_pos (e1 + k)). pose proof (pw_pos (e2 + k)).
  pose proof (fden_pos (e1 + k)). pose proof (fden_pos (e2 + k)).
  set (U := pw e1 * fden e2). set (V' := pw (e2 + k) * fden (e1 + k)).
  set (W := pw e2 * fden e1). set (U' := pw (e1 + k) * fden (e2 + k)).
  assert (HU : 0 < U) by (unfold U; nia).
  assert (HU' : 0 < U') by (unfold U'; nia).
  assert (X : U * V' = W * U').
  { apply (Z.mul_cancel_r _ _ (pw k * fden k)); [nia |].
    transitivity ((pw e1 * pw k * fden (e1 + k)) * (pw (e2 + k) * (fden e2 * fden k)));
      [unfold U, V'; ring |].
    rewrite <- A1, A2. unfold W, U'. ring. }
  assert (V1 : m1 * U <= m2 * W) by (unfold U, W; lia).
  apply (Z.mul_le_mono_pos_r _ _ U); [exact HU |].
  assert (m1 * U * (c * U') <= m2 * W * (c * U'))
    by (apply Z.mul_le_mono_nonneg_r; nia).
  replace (m2 * c * pw (e2 + k) * fden (e1 + k) * U) with (m2 * c * (U * V'))
    by (unfold V'; ring).
  rewrite X.
  replace (m1 * c * pw (e1 + k) * fden (e2 + k) * U) with (m1 * U * (c * U'))
    by (unfold U'; ring).
  lia.
Qed.

End Binary64Facts.

(** ** The estimator: dates *)

Module ETAEstimatorFacts.
Import Binary64 Binary64Order Binary64Facts Text PyDate ETAEstimator ETAEstimatorSpec.

Lemma add_days_inv d n d' :
  add_days d n = Ok d' ->
  d' = d + n /\ Z.abs n <= 999999999 /\ 1 <= d + n <= MAXORDINAL.
Proof.
  unfold add_days.
  destruct (Z.leb_spec (Z.abs n) 999999999);
  destruct (Z.leb_spec 1 (d + n));
  destruct (Z.leb_spec (d + n) MAXORDINAL); cbn [andb]; intros [=]; lia.
Qed.

Lemma add_days_ok d n :
  Z.abs n <= 999999999 -> 1 <= d + n <= MAXORDINAL -> add_days d n = Ok (d + n).
Proof.
  intros Hn [H1 H2]. unfold add_days.
  destruct (Z.leb_spec (Z.abs n) 999999999); [| lia].
  destruct (Z.leb_spec 1 (d + n)); [| lia].
  destruct (Z.leb_spec (d + n) MAXORDINAL); [reflexivity | lia].
Qed.

Lemma add_days_raises d n e : add_days d n = Raise e -> e = OverflowError.
Proof.
  unfold add_days.
  destruct ((Z.abs n <=? 999999999) && (1 <=? d + n) && (d + n <=? MAXORDINAL));
    intros [=]; congruence.
Qed.

(** Two rounds of the weekend loop are enough: more fuel changes nothing. *)
Lemma skip_weekend_fuel fuel d :
  (2 <= fuel)%nat -> skip_weekend fuel d = skip_weekend 2 d.
Proof.
  intros Hf. destruct fuel as [| [| fuel]]; [lia | lia |].
  cbn [skip_weekend].
  destruct (Z.leb_spec 5 (weekday d)) as [Hw | Hw]; [| reflexivity].
  destruct (add_days d 1) as [d1 |] eqn:E1; [| reflexivity]. cbn [rbind].
  apply add_days_inv in E1 as (-> & _ & _).
  destruct (Z.leb_spec 5 (weekday (d + 1))) as [Hw1 | Hw1]; [| reflexivity].
  destruct (add_days (d + 1) 1) as [d2 |] eqn:E2; [| reflexivity]. cbn [rbind].
  apply add_days_inv in E2 as (-> & _ & _).
  assert (weekday (d + 1 + 1) < 5) by (weekday_lia).
  destruct fuel; cbn [skip_weekend];
    (destruct (Z.leb_spec 5 (weekday (d + 1 + 1))); [lia | reflexivity]).
Qed.

Lemma skip_weekend_weekday d d' : skip_weekend 2 d = Ok d' -> weekday d' < 5.
Proof.
  cbn [skip_weekend].
  destruct (Z.leb_spec 5 (weekday d)) as [Hw | Hw]; [| intros [= <-]; lia].
  destruct (add_days d 1) as [d1 |] eqn:E1; [| intros [=]]. cbn [rbind].
  apply add_days_inv in E1 as (-> & _ & _).
  destruct (Z.leb_spec 5 (weekday (d + 1))) as [Hw1 | Hw1]; [| intros [= <-]; lia].
  destruct (add_days (d + 1) 1) as [d2 |] eqn:E2; [| intros [=]]. cbn [rbind].
  apply add_days_inv in E2 as (-> & _ & _).
  assert (weekday (d + 1 + 1) < 5) by (weekday_lia).
  destruct (Z.leb_spec 5 (weekday (d + 1 + 1))); [lia | intros [= <-]; lia].
Qed.

(** Inside the calendar the loop cannot fail: 9999-12-31 is a Friday. *)
Lemma skip_weekend_in_range d :
  1 <= d <= MAXORDINAL ->
  exists d', skip_weekend 2 d = Ok d' /\ d <= d' <= MAXORDINAL.
Proof.
  intros Hd. cbn [skip_weekend]. unfold MAXORDINAL in *.
  destruct (Z.leb_spec 5 (weekday d)) as [Hw | Hw]; [| exists d; split; [reflexivity | lia]].
  rewrite add_days_ok by (weekday_lia). cbn [rbind].
  destruct (Z.leb_spec 5 (weekday (d + 1))) as [Hw1 | Hw1];
    [| exists (d + 1); split; [reflexivity | weekday_lia]].
  rewrite add_days_ok by (weekday_lia). cbn [rbind].
  destruct (Z.leb_spec 5 (weekday (d + 1 + 1))); [weekday_lia |].
  exists (d + 1 + 1). split; [reflexivity | weekday_lia].
Qed.

Lemma skip_weekend_raises d e : skip_weekend 2 d = Raise e -> e = OverflowError.
Proof.
  cbn [skip_weekend].
  destruct (5 <=? weekday d); [| intros [=]].
  destruct (add_days d 1) as [d1 |] eqn:E1; cbn [rbind];
    [| intros [= <-]; eapply add_days_raises; eassumption].
  destruct (5 <=? weekday d1); [| intros [=]].
  destruct (add_days d1 1) as [d2 |] eqn:E2; cbn [rbind];
    [| intros [= <-]; eapply add_days_raises; eassumption].
  destruct (5 <=? weekday d2); intros [=].
Qed.


(** ** The estimator: days remaining *)

Lemma literal_02 : literal 2 10 = Finite 7205759403792794 (-55).
Proof. vm_compute. reflexivity. Qed.

Lemma float_of_int_100 : float_of_int 100 = Ok (Finite 7036874417766400 (-46)).
Proof. vm_compute. reflexivity. Qed.

Lemma round_b64_one : round_b64 1 1 = Finite 4503599627370496 (-52).
Proof. vm_compute. reflexivity. Qed.

Lemma round_b64_not_nan n d : round_b64 n d <> NaN.
Proof.
  unfold round_b64. destruct (n =? 0); [discriminate |].
  destruct ((0 <=? round_exponent n d) && _); discriminate.
Qed.

Lemma int_truediv_pos a b :
  0 < b ->
  int_truediv a b =
    match round_b64 a b with
    | Infinity _ => Raise OverflowError
    | f => Ok f
    end.
Proof.
  intros Hb. unfold int_truediv.
  destruct (Z.eqb_spec b 0); [lia |].
  destruct (Z.ltb_spec b 0); [lia | reflexivity].
Qed.

Lemma effective_rate_pos config r : 0 < r -> effective_rate config r = r.
Proof. intros H. unfold effective_rate. destruct (Z.leb_spec r 0); [lia | reflexivity]. Qed.

Lemma days_breakdown_iff config p r b f t :
  0 < r -> (days_breakdown config p r = Ok (b, f, t) <-> days_spec p r b f t).
Proof.
  intros Hr. unfold days_breakdown, days_spec.
  destruct (Z.leb_spec r 0) as [Hle | _]; [lia |]. cbn [rbind].
  rewrite (effective_rate_pos config r Hr), (int_truediv_pos p r Hr), literal_02.
  split.
  - destruct (round_b64 p r) as [mq eq | |] eqn:Eq; cbn [rbind ceil]; try discriminate.
    unfold float_of_int.
    destruct (round_b64 (ceil_ratio (fnum mq eq) (fden eq)) 1) as [ma ea | |] eqn:Ea;
      cbn [rbind fmul ceil]; try discriminate.
    destruct (round_dyadic (ma * 7205759403792794) (ea + -55)) as [mf ef | |] eqn:Ef;
      cbn [rbind ceil]; try discriminate.
    intros [= <- <- <-]. exists mq, eq, ma, ea, mf, ef. repeat split; assumption.
  - intros (mq & eq & ma & ea & mf & ef & Eq & -> & Ea & Ef & -> & ->).
    rewrite Eq. cbn [rbind ceil]. unfold float_of_int. rewrite Ea.
    cbn [rbind fmul ceil]. rewrite Ef. reflexivity.
Qed.

Lemma fnum_nonneg m e : 0 <= m -> 0 <= fnum m e.
Proof. intros H. rewrite fnum_pw. pose proof (pw_pos e). nia. Qed.

Lemma days_spec_mono r p1 p2 b2 f2 t2 :
  0 < r -> 0 <= p1 <= p2 -> days_spec p2 r b2 f2 t2 ->
  exists b1 f1 t1, days_spec p1 r b1 f1 t1 /\ 0 <= b1 <= b2 /\ 0 <= f1 <= f2.
Proof.
  intros Hr Hp (mq & eq & ma & ea & mf & ef & Eq & -> & Ea & Ef & -> & ->).
  destruct (round_b64_mono p1 r p2 r mq eq) as (mq1 & eq1 & Eq1 & Pq1 & Vq);
    [lia | lia | lia | nia | assumption |].
  pose proof (ceil_value_mono _ _ _ _ Vq) as Hb.
  pose proof (ceil_ratio_nonneg _ _ (fden_pos eq1) (fnum_nonneg mq1 eq1 Pq1)) as Hb0.
  set (b1 := ceil_ratio (fnum mq1 eq1) (fden eq1)) in *.
  destruct (round_b64_mono b1 1 (ceil_ratio (fnum mq eq) (fden eq)) 1 ma ea)
    as (ma1 & ea1 & Ea1 & Pa1 & Va);
    [lia | lia | lia | lia | exact Ea |].
  unfold round_dyadic in Ef.
  destruct (round_b64_mono
              (fnum (ma1 * 7205759403792794) (ea1 + -55)) (fden (ea1 + -55))
              (fnum (ma * 7205759403792794) (ea + -55)) (fden (ea + -55))
              mf ef) as (mf1 & ef1 & Ef1 & Pf1 & Vf);
    [apply fnum_nonneg; lia | apply fden_pos | apply fden_pos
    | apply (value_le_scale ma1 ea1 ma ea); [lia | exact Va] | exact Ef |].
  pose proof (ceil_value_mono _ _ _ _ Vf) as Hf.
  pose proof (ceil_ratio_nonneg _ _ (fden_pos ef1) (fnum_nonneg mf1 ef1 Pf1)) as Hf0.
  exists b1, (ceil_ratio (fnum mf1 ef1) (fden ef1)), (b1 + ceil_ratio (fnum mf1 ef1) (fden ef1)).
  split; [| lia].
  exists mq1, eq1, ma1, ea1, mf1, ef1. repeat split; assumption.
Qed.

Lemma calculate_days_inv config p r d :
  _calculate_days_remaining config p r = Ok d ->
  exists b f t, days_breakdown config p r = Ok (b, f, t) /\ d = Z.max 1 t.
Proof.
  unfold _calculate_days_remaining.
  destruct (days_breakdown config p r) as [[[b f] t] |]; cbn [rbind snd]; intros [= <-].
  exists b, f, t. split; reflexivity.
Qed.

(** [_calculate_days_remaining] is monotone in the position as long as the
    quotient of the larger position is a float. *)
Lemma calculate_days_mono config r p1 p2 d2 :
  0 < r -> 0 <= p1 <= p2 ->
  _calculate_days_remaining config p2 r = Ok d2 ->
  exists d1, _calculate_days_remaining config p1 r = Ok d1 /\ 1 <= d1 <= d2.
Proof.
  intros Hr Hp H2.
  apply calculate_days_inv in H2 as (b2 & f2 & t2 & H2 & ->).
  apply days_breakdown_iff in H2; [| assumption].
  destruct (days_spec_mono r p1 p2 b2 f2 t2 Hr Hp H2) as (b1 & f1 & t1 & S1 & Hb & Hf).
  assert (t1 = b1 + f1 /\ t2 = b2 + f2) as [-> ->].
  { destruct S1 as (? & ? & ? & ? & ? & ? & _ & _ & _ & _ & _ & ->).
    destruct H2 as (? & ? & ? & ? & ? & ? & _ & _ & _ & _ & _ & ->). split; reflexivity. }
  apply (days_breakdown_iff config) in S1; [| assumption].
  exists (Z.max 1 (b1 + f1)). split; [| lia].
  unfold _calculate_days_remaining. rewrite S1. reflexivity.
Qed.


(** ** The estimator: the main path and its two fallbacks *)

Lemma format_int_cases n :
  (Z.abs n < 10 ^ MAX_STR_DIGITS /\ format_int n = Ok tt) \/
  (10 ^ MAX_STR_DIGITS <= Z.abs n /\ format_int n = Raise ValueError).
Proof.
  unfold format_int.
  destruct (Z.ltb_spec (Z.log2 (Z.abs n)) MAX_STR_DIGITS) as [Hlog | _].
  - left. split; [| reflexivity].
    apply Z.lt_le_trans with (2 ^ MAX_STR_DIGITS).
    + destruct (Z.eq_dec (Z.abs n) 0) as [-> | Hn].
      * apply Z.pow_pos_nonneg; [reflexivity | discriminate].
      * apply Z.log2_lt_pow2; [| exact Hlog].
        destruct n; [contradiction Hn; reflexivity | reflexivity | reflexivity].
    + apply Z.pow_le_mono_l. split; discriminate.
  - destruct (Z.ltb_spec (Z.abs n) (10 ^ MAX_STR_DIGITS)); [left | right]; split;
      first [assumption | reflexivity].
Qed.

Lemma format_int_ok n : Z.abs n < 10 ^ MAX_STR_DIGITS -> format_int n = Ok tt.
Proof. intros H. destruct (format_int_cases n) as [[_ E] | [G _]]; [exact E | lia]. Qed.

Lemma format_int_raises n :
  10 ^ MAX_STR_DIGITS <= Z.abs n -> format_int n = Raise ValueError.
Proof. intros H. destruct (format_int_cases n) as [[L _] | [_ E]]; [lia | exact E]. Qed.

Lemma max_str_digits_pos : 0 < 10 ^ MAX_STR_DIGITS.
Proof. apply Z.pow_pos_nonneg; [reflexivity | discriminate]. Qed.

(** What the main computation logs on entry has been rendered. *)
Lemma eta_body_prints config today p r sub res :
  eta_body config today p r sub = Ok res ->
  Z.abs p < 10 ^ MAX_STR_DIGITS /\ Z.abs r < 10 ^ MAX_STR_DIGITS.
Proof.
  unfold eta_body.
  destruct (format_int_cases p) as [[Hp ->] | [_ ->]]; cbn [rbind]; [| discriminate].
  destruct (format_int_cases r) as [[Hr ->] | [_ ->]]; cbn [rbind]; [| discriminate].
  intros _. split; assumption.
Qed.

Lemma eta_body_inv config today p r sub res :
  eta_body config today p r sub = Ok res ->
  exists days approval progress processing,
    _calculate_days_remaining config p r = Ok days /\
    _calculate_approval_date today days = Ok approval /\
    _calculate_progress_percentage config p = Ok progress /\
    _calculate_processing_date config today p r = Ok processing /\
    res = {| estimated_approval_date := approval;
             days_remaining := days;
             confidence_level := _determine_confidence_level p r days;
             progress_percentage := progress;
             estimated_processing_date := processing;
             processing_rate := r;
             position_in_queue := p;
             submission_date := sub;
             is_fallback := None |}.
Proof.
  unfold eta_body.
  destruct (format_int_cases p) as [[_ ->] | [_ ->]]; cbn [rbind]; [| discriminate].
  destruct (format_int_cases r) as [[_ ->] | [_ ->]]; cbn [rbind]; [| discriminate].
  destruct (_calculate_days_remaining config p r) as [days |] eqn:E1;
    cbn [rbind]; [| discriminate].
  destruct (_calculate_approval_date today days) as [approval |] eqn:E2;
    cbn [rbind]; [| discriminate].
  destruct (_calculate_progress_percentage config p) as [progress |] eqn:E3;
    cbn [rbind]; [| discriminate].
  destruct (_calculate_processing_date config today p r) as [processing |] eqn:E4;
    cbn [rbind]; [| discriminate].
  intros [= <-]. exists days, approval, progress, processing.
  repeat split; assumption.
Qed.

Lemma eta_body_intro config today p r sub days approval progress processing :
  Z.abs p < 10 ^ MAX_STR_DIGITS -> Z.abs r < 10 ^ MAX_STR_DIGITS ->
  _calculate_days_remaining config p r = Ok days ->
  _calculate_approval_date today days = Ok approval ->
  _calculate_progress_percentage config p = Ok progress ->
  _calculate_processing_date config today p r = Ok processing ->
  exists res, eta_body config today p r sub = Ok res /\ days_remaining res = days.
Proof.
  intros Hp Hr H1 H2 H3 H4. unfold eta_body.
  rewrite (format_int_ok p Hp), (format_int_ok r Hr). cbn [rbind].
  rewrite H1. cbn [rbind]. rewrite H2. cbn [rbind].
  rewrite H3. cbn [rbind]. rewrite H4. cbn [rbind]. eexists. split; reflexivity.
Qed.

Lemma fallback_body_inv config today sub f :
  fallback_body config today sub = Ok f ->
  exists sd,
    strptime_ymd sub = Ok sd /\
    add_days today (Z.max 30 (180 - (today - sd)))
      = Ok (today + Z.max 30 (180 - (today - sd))) /\
    add_days today 60 = Ok (today + 60) /\
    f = {| estimated_approval_date := today + Z.max 30 (180 - (today - sd));
           days_remaining := Z.max 30 (180 - (today - sd));
           confidence_level := "Low";
           progress_percentage := literal 50 1;
           estimated_processing_date := today + 60;
           processing_rate := DEFAULT_PROCESSING_RATE config;
           position_in_queue := MOCK_POSITION config;
           submission_date := sub;
           is_fallback := Some true |}.
Proof.
  unfold fallback_body.
  destruct (strptime_ymd sub) as [sd |] eqn:E0; cbn [rbind]; [| discriminate].
  destruct (add_days today (Z.max 30 (180 - (today - sd)))) as [d1 |] eqn:E1;
    cbn [rbind]; [| discriminate].
  destruct (add_days today 60) as [d2 |] eqn:E2; cbn [rbind]; [| discriminate].
  pose proof (add_days_inv _ _ _ E1) as (-> & _).
  pose proof (add_days_inv _ _ _ E2) as (-> & _).
  intros [= <-]. exists sd. repeat split; assumption.
Qed.

Lemma fallback_body_raises config today sub e :
  fallback_body config today sub = Raise e ->
  (exists e', strptime_ymd sub = Raise e') \/
  (exists sd, strptime_ymd sub = Ok sd /\
     (add_days today (Z.max 30 (180 - (today - sd))) = Raise OverflowError \/
      add_days today 60 = Raise OverflowError)).
Proof.
  unfold fallback_body.
  destruct (strptime_ymd sub) as [sd | e'] eqn:E0; cbn [rbind]; [| intros _; left; eauto].
  intros H. right. exists sd. split; [reflexivity |].
  destruct (add_days today (Z.max 30 (180 - (today - sd)))) as [d1 | e1] eqn:E1;
    cbn [rbind] in H.
  - destruct (add_days today 60) as [d2 | e2] eqn:E2; cbn [rbind] in H; [discriminate |].
    right. f_equal. eapply add_days_raises; eassumption.
  - left. f_equal. eapply add_days_raises; eassumption.
Qed.

Lemma fallback_is_fallback config today sub :
  is_fallback (_get_fallback_eta config today sub) = Some true /\
  30 <= days_remaining (_get_fallback_eta config today sub).
Proof.
  unfold _get_fallback_eta, try_except.
  destruct (fallback_body config today sub) as [f |] eqn:E.
  - apply fallback_body_inv in E as (sd & _ & _ & _ & ->). cbn. split; [reflexivity | lia].
  - cbn. split; [reflexivity | lia].
Qed.

Lemma calculate_eta_main config today p r sub :
  is_fallback (calculate_eta config today p r sub) = None ->
  eta_body config today p r sub = Ok (calculate_eta config today p r sub).
Proof.
  unfold calculate_eta, try_except.
  destruct (eta_body config today p r sub) as [res |]; [reflexivity |].
  intros H. destruct (fallback_is_fallback config today sub) as [F _]. congruence.
Qed.


Lemma approval_date_inv today days approval :
  _calculate_approval_date today days = Ok approval ->
  weekday approval < 5 /\ Z.abs days <= 999999999 /\ 1 <= today + days <= MAXORDINAL.
Proof.
  unfold _calculate_approval_date.
  destruct (add_days today days) as [d |] eqn:E; cbn [rbind]; [| discriminate].
  apply add_days_inv in E as (-> & Hn & Hr). intros H.
  split; [eapply skip_weekend_weekday; eassumption | split; assumption].
Qed.

Lemma approval_date_ok today days :
  Z.abs days <= 999999999 -> 1 <= today + days <= MAXORDINAL ->
  exists approval, _calculate_approval_date today days = Ok approval.
Proof.
  intros Hn Hr. unfold _calculate_approval_date.
  rewrite add_days_ok by assumption. cbn [rbind].
  destruct (skip_weekend_in_range (today + days) Hr) as (d' & E & _). eauto.
Qed.

Lemma processing_date_spec config today p r b f t :
  0 < r -> days_spec p r b f t ->
  _calculate_processing_date config today p r =
    (do d <- add_days today b; skip_weekend 2 d).
Proof.
  intros Hr (mq & eq & ma & ea & mf & ef & Eq & -> & _).
  unfold _calculate_processing_date.
  rewrite (effective_rate_pos config r Hr), (int_truediv_pos p r Hr), Eq.
  reflexivity.
Qed.

Lemma progress_ok_mono config p1 p2 v2 :
  0 < p1 <= p2 ->
  _calculate_progress_percentage config p2 = Ok v2 ->
  exists v1, _calculate_progress_percentage config p1 = Ok v1.
Proof.
  intros Hp. unfold _calculate_progress_percentage.
  set (T := MOCK_TOTAL_APPLICATIONS config).
  destruct (Z.leb_spec T 0) as [HT | HT]; [eauto |].
  rewrite !int_truediv_pos by assumption. rewrite float_of_int_100.
  destruct (round_b64 (T - p2) T) as [m2 e2 | |] eqn:E2; cbn [rbind];
    [| discriminate | exfalso; eapply round_b64_not_nan; eassumption].
  intros _.
  assert (F : exists m1 e1, round_b64 (T - p1) T = Finite m1 e1).
  { destruct (Z_le_gt_dec 0 (T - p1)) as [Hs | Hs].
    - apply (round_b64_finite_mono (T - p1) T 1 1 4503599627370496 (-52));
        [lia | lia | lia | exact round_b64_one].
    - apply (round_b64_finite_mono (T - p1) T (T - p2) T m2 e2); [lia | lia | | exact E2].
      apply Z.mul_le_mono_nonneg_r; lia. }
  destruct F as (m1 & e1 & ->). cbn [rbind]. eauto.
Qed.

(** C5 (amended).  The estimator is monotone in the queue position as long as
    the estimate for the larger position comes from the main computation:
    for a rate > 0 and positions 0 < p1 <= p2, if [calculate_eta] does not
    fall back for p2 then it does not fall back for p1 either, and the days
    remaining for p1 are at most those for p2. *)
Theorem days_remaining_monotone_on_main_path config today sub r p1 p2 :
  1 <= today <= MAXORDINAL -> 0 < r -> 0 < p1 <= p2 ->
  is_fallback (calculate_eta config today p2 r sub) = None ->
  is_fallback (calculate_eta config today p1 r sub) = None /\
  days_remaining (calculate_eta config today p1 r sub)
    <= days_remaining (calculate_eta config today p2 r sub).
Proof.
  intros Htoday Hr Hp H2.
  apply calculate_eta_main in H2.
  destruct (eta_body_inv _ _ _ _ _ _ H2)
    as (days2 & approval2 & progress2 & processing2 & D2 & A2 & G2 & P2 & R2).
  destruct (calculate_days_mono config r p1 p2 days2 Hr ltac:(lia) D2)
    as (days1 & D1 & Hd).
  apply approval_date_inv in A2 as (_ & Hn2 & Hr2).
  destruct (approval_date_ok today days1 ltac:(lia) ltac:(lia)) as (approval1 & A1).
  destruct (progress_ok_mono config p1 p2 progress2 Hp G2) as (progress1 & G1).
  assert (P1 : exists processing1,
             _calculate_processing_date config today p1 r = Ok processing1).
  { apply calculate_days_inv in D2 as (b2 & f2 & t2 & B2 & _).
    apply days_breakdown_iff in B2; [| assumption].
    destruct (days_spec_mono r p1 p2 b2 f2 t2 Hr ltac:(lia) B2)
      as (b1 & f1 & t1 & S1 & Hb & _).
    rewrite (processing_date_spec config today p2 r b2 f2 t2 Hr B2) in P2.
    rewrite (processing_date_spec config today p1 r b1 f1 t1 Hr S1).
    destruct (add_days today b2) as [d2 |] eqn:E2; cbn [rbind] in P2; [| discriminate].
    apply add_days_inv in E2 as (_ & Hn & Hrange).
    rewrite add_days_ok by lia. cbn [rbind].
    destruct (skip_weekend_in_range (today + b1) ltac:(lia)) as (d' & E & _). eauto. }
  destruct P1 as (processing1 & P1).
  destruct (eta_body_prints _ _ _ _ _ _ H2) as (Hp2 & Hrate).
  destruct (eta_body_intro config today p1 r sub _ _ _ _
              ltac:(lia) Hrate D1 A1 G1 P1) as (res1 & B1 & Hdays).
  unfold calculate_eta at 1 2. rewrite B1. cbn [try_except].
  split; [| rewrite Hdays, R2; cbn; lia].
  apply eta_body_inv in B1 as (? & ? & ? & ? & _ & _ & _ & _ & ->). reflexivity.
Qed.

(** C3 (amended).  For a position > 0 and a rate > 0 the estimate always has
    at least one day remaining, and whenever it comes from the main
    computation (it is not a fallback) its approval date is a weekday. *)
Theorem eta_days_positive_weekday_on_main_path config today position rate sub :
  0 < position -> 0 < rate ->
  1 <= days_remaining (calculate_eta config today position rate sub) /\
  (is_fallback (calculate_eta config today position rate sub) = None ->
   weekday (estimated_approval_date (calculate_eta config today position rate sub)) < 5).
Proof.
  intros _ _. split.
  - unfold calculate_eta, try_except.
    destruct (eta_body config today position rate sub) as [res |] eqn:E.
    + apply eta_body_inv in E as (days & ? & ? & ? & D & _ & _ & _ & ->). cbn.
      apply calculate_days_inv in D as (? & ? & ? & _ & ->). lia.
    + pose proof (fallback_is_fallback config today sub) as [_ H]. lia.
  - intros H. apply calculate_eta_main in H.
    destruct (eta_body_inv _ _ _ _ _ _ H) as (days & approval & ? & ? & _ & A & _ & _ & R).
    rewrite R. cbn. apply approval_date_inv in A as [W _]. exact W.
Qed.


Lemma days_remaining_monotone_witness :
  is_fallback (calculate_eta default_config 739924 500 50 "2026-10-25") = None /\
  days_remaining (calculate_eta default_config 739924 500 50 "2026-10-25")
    <= days_remaining (calculate_eta default_config 739924 1000 50 "2026-10-25").
Proof.
  apply (days_remaining_monotone_on_main_path
           default_config 739924 "2026-10-25" 50 500 1000);
    [unfold MAXORDINAL; lia | lia | lia | vm_compute; reflexivity].
Defined.

(** C5 as stated fails: on 2026-11-04, with rate 1, position 1000 gives 1200
    days while the larger position 4000000 pushes the approval date past
    9999-12-31, so the estimate falls back to 171 days. *)
Lemma days_remaining_not_monotone :
  let today := _ymd2ord 2026 11 4 in
  let small := calculate_eta default_config today 1000 1 "2026-10-26" in
  let large := calculate_eta default_config today 4000000 1 "2026-10-26" in
  1000 <= 4000000 /\
  days_remaining small = 1200 /\
  days_remaining large = 171 /\
  is_fallback large = Some true /\
  ~ days_remaining small <= days_remaining large.
Proof.
  intros today small large.
  assert (H1 : days_remaining small = 1200) by (vm_compute; reflexivity).
  assert (H2 : days_remaining large = 171) by (vm_compute; reflexivity).
  assert (H3 : is_fallback large = Some true) by (vm_compute; reflexivity).
  rewrite H1, H2. repeat split; try assumption; lia.
Qed.

Lemma eta_days_positive_weekday_witness :
  1 <= days_remaining (calculate_eta default_config 739924 500 50 "2026-10-25") /\
  weekday (estimated_approval_date
             (calculate_eta default_config 739924 500 50 "2026-10-25")) < 5.
Proof.
  destruct (eta_days_positive_weekday_on_main_path
              default_config 739924 500 50 "2026-10-25") as [Hdays Hweekday];
    [lia | lia |].
  split; [exact Hdays | apply Hweekday; vm_compute; reflexivity].
Defined.

(** C3 as stated fails: position 4000000 at rate 1 needs 4800000 days, the
    approval date leaves the calendar, and the fallback estimate lands on
    a Saturday (weekday 5) without being moved. *)
Lemma fallback_approval_date_on_saturday :
  let today := _ymd2ord 2026 11 4 in
  let r := calculate_eta default_config today 4000000 1 "2026-10-26" in
  0 < 4000000 /\ 0 < 1 /\
  _calculate_days_remaining default_config 4000000 1 = Ok 4800000 /\
  _calculate_approval_date today 4800000 = Raise OverflowError /\
  is_fallback r = Some true /\
  days_remaining r = 171 /\
  weekday (estimated_approval_date r) = 5.
Proof.
  intros today r. repeat split; try lia; vm_compute; reflexivity.
Qed.

(** C4.  Position 500 at rate 50: 10 base days, 2 buffer days, 12 days in
    all; the factors are the literals 0.2, 0.2, 0.2 (and the constant 0.1),
    their float sum reaches the threshold 0.7 and the level is "High", also
    end to end with a submission ten days before today.  Position 5000 at
    rate 10: 500 base days (600 in all), the factors are 0.05, 0.05, 0.05,
    the sum is the float 0.25 and the level is "Low". *)
Theorem eta_scenarios :
  (forall config, days_breakdown config 500 50 = Ok (10, 2, 12)) /\
  (forall config, _calculate_days_remaining config 500 50 = Ok 12) /\
  position_factor 500 = literal 2 10 /\
  rate_factor 50 = literal 2 10 /\
  days_factor 12 = literal 2 10 /\
  fge (confidence_score 500 50 12) (literal 7 10) = true /\
  _determine_confidence_level 500 50 12 = "High" /\
  (let r := calculate_eta default_config (_ymd2ord 2026 11 4) 500 50 "2026-10-25" in
   days_remaining r = 12 /\ confidence_level r = "High" /\ is_fallback r = None) /\
  (forall config, days_breakdown config 5000 10 = Ok (500, 100, 600)) /\
  position_factor 5000 = literal 5 100 /\
  rate_factor 10 = literal 5 100 /\
  days_factor 600 = literal 5 100 /\
  feq (confidence_score 5000 10 600) (literal 25 100) = true /\
  _determine_confidence_level 5000 10 600 = "Low" /\
  (let r := calculate_eta default_config (_ymd2ord 2026 11 4) 5000 10 "2026-10-25" in
   confidence_level r = "Low" /\ is_fallback r = None).
Proof.
  repeat split; intros; vm_compute; reflexivity.
Qed.

(** C7 (amended).  [calculate_eta] always returns a record, in one of three
    ways: the main computation succeeds and its record is returned; or it
    raises, the submission date parses and the fallback dates stay inside
    the calendar, and the record has
    [days_remaining = max(30, 180 - days since submission)] and
    [is_fallback = True]; or the fallback computation raises as well (the
    submission date does not parse, or a fallback date leaves the calendar)
    and the fixed placeholder, also with [is_fallback = True], is returned. *)
Theorem calculate_eta_three_ways config today position rate sub :
  let r := calculate_eta config today position rate sub in
  (eta_body config today position rate sub = Ok r /\ is_fallback r = None)
  \/
  (exists e sd,
      eta_body config today position rate sub = Raise e /\
      strptime_ymd sub = Ok sd /\
      days_remaining r = Z.max 30 (180 - (today - sd)) /\
      estimated_approval_date r = today + days_remaining r /\
      today + days_remaining r <= MAXORDINAL /\
      is_fallback r = Some true)
  \/
  (exists e,
      eta_body config today position rate sub = Raise e /\
      ((exists e', strptime_ymd sub = Raise e') \/
       (exists sd, strptime_ymd sub = Ok sd /\
          (add_days today (Z.max 30 (180 - (today - sd))) = Raise OverflowError \/
           add_days today 60 = Raise OverflowError))) /\
      r = placeholder_eta config sub /\
      days_remaining r = 120 /\
      is_fallback r = Some true).
Proof.
  cbv zeta. unfold calculate_eta, try_except.
  destruct (eta_body config today position rate sub) as [res | e] eqn:E.
  - left. split; [reflexivity |].
    apply eta_body_inv in E as (? & ? & ? & ? & _ & _ & _ & _ & ->). reflexivity.
  - right. unfold _get_fallback_eta, try_except.
    destruct (fallback_body config today sub) as [f | e'] eqn:F.
    + left. apply fallback_body_inv in F as (sd & S & A & _ & ->).
      exists e, sd. cbn. apply add_days_inv in A as (_ & _ & Hr).
      repeat split; try reflexivity; try assumption; lia.
    + right. exists e. apply fallback_body_raises in F.
      repeat split; try reflexivity. exact F.
Qed.

(** C7 as stated fails: the main computation raises and the submission date
    parses, yet the result is the placeholder (120 days), not
    max(30, 180 - days since submission) = 2912285, because the fallback
    date would lie after 9999-12-31. *)
Lemma fallback_beyond_calendar_gives_placeholder :
  let today := _ymd2ord 2026 11 4 in
  let r := calculate_eta default_config today 4000000 1 "9999-12-01" in
  eta_body default_config today 4000000 1 "9999-12-01" = Raise OverflowError /\
  strptime_ymd "9999-12-01" = Ok 3652029 /\
  Z.max 30 (180 - (today - 3652029)) = 2912285 /\
  days_remaining r = 120 /\
  r = placeholder_eta default_config "9999-12-01".
Proof.
  intros today r. repeat split; vm_compute; reflexivity.
Qed.

End ETAEstimatorFacts.

(** ** The parsers of the PERM resolver *)

Module PERMScraperFacts.
Import Binary64 Text Re PyVal PERMScraper PERMScraperSpec.

Lemma eq_int_val_refl n : eq_int_val (PyInt n) n = true.
Proof. cbn. apply Z.eqb_refl. Qed.

(** The position read by the JSON parser is truthy exactly when one of the
    three keys holds a truthy value. *)
Lemma position_truthy d :
  truthy (py_or (py_or (dict_get d "queue_position") (dict_get d "position"))
                (dict_get d "position_in_queue"))
  = supplies_position d.
Proof.
  unfold supplies_position, py_or.
  set (a := dict_get d "queue_position"). set (b := dict_get d "position").
  set (c := dict_get d "position_in_queue").
  destruct (truthy a) eqn:E1; cbn [orb]; [rewrite E1; exact E1 |].
  destruct (truthy b) eqn:E2; cbn [orb]; rewrite ?E2; reflexivity.
Qed.

Lemma rate_differs config d :
  negb (eq_int_val
          (py_or (py_or (dict_get d "processing_rate") (dict_get d "rate"))
                 (PyInt (DEFAULT_PROCESSING_RATE config)))
          (DEFAULT_PROCESSING_RATE config))
  = supplies_other_rate config d.
Proof.
  unfold supplies_other_rate, supplied_rate, py_or.
  set (a := dict_get d "processing_rate"). set (b := dict_get d "rate").
  destruct (truthy a) eqn:E1; [rewrite E1; reflexivity |].
  destruct (truthy b) eqn:E2; [rewrite ?E2; reflexivity |].
  rewrite ?E2, eq_int_val_refl. reflexivity.
Qed.

Lemma parse_json_dict config py_repr response d cn sd el :
  json response = Some (PyDict d) ->
  _parse_api_response config py_repr response cn sd el =
    try_except (json_body config py_repr (PyDict d) cn sd el) (fun _ => None).
Proof.
  intros H. unfold _parse_api_response. rewrite H.
  unfold json_body. cbn [as_dict rbind].
  destruct (truthy _ || negb _); reflexivity.
Qed.

(** C10.  For a response whose JSON is an object, [_parse_api_response]
    produces a record exactly when the object supplies a truthy queue
    position under one of the keys queue_position / position /
    position_in_queue, or a processing rate different from the configured
    default; when it supplies neither, no record is returned and
    [_try_discovered_api] has nothing to return either. *)
Theorem json_record_needs_position_or_rate config py_repr response d cn sd el :
  json response = Some (PyDict d) ->
  (is_Some (_parse_api_response config py_repr response cn sd el) <->
     supplies_position d = true \/ supplies_other_rate config d = true) /\
  (supplies_position d = false -> supplies_other_rate config d = false ->
     _parse_api_response config py_repr response cn sd el = None /\
     discovered_api_result config py_repr response cn sd el = None).
Proof.
  intros H.
  assert (E : _parse_api_response config py_repr response cn sd el =
              if supplies_position d || supplies_other_rate config d
              then _parse_api_response config py_repr response cn sd el
              else None).
  { rewrite (parse_json_dict _ _ _ _ _ _ _ H).
    unfold json_body. cbn [as_dict rbind].
    rewrite position_truthy, rate_differs.
    destruct (supplies_position d || supplies_other_rate config d); reflexivity. }
  assert (S : supplies_position d || supplies_other_rate config d = true ->
              is_Some (_parse_api_response config py_repr response cn sd el)).
  { intros Hs. rewrite (parse_json_dict _ _ _ _ _ _ _ H).
    unfold json_body. cbn [as_dict rbind].
    rewrite position_truthy, rate_differs, Hs. cbn [try_except]. eauto. }
  split; [split |].
  - intros Hsome. rewrite E in Hsome.
    destruct (supplies_position d) eqn:P; [left; reflexivity |].
    destruct (supplies_other_rate config d) eqn:R; [right; reflexivity |].
    cbn [orb] in Hsome. destruct Hsome as [x Hx]. discriminate.
  - intros [P | R]; apply S; rewrite ?P, ?R; [reflexivity | apply orb_true_r].
  - intros P R. rewrite P, R in E. cbn [orb] in E.
    split; [exact E |].
    unfold discovered_api_result. rewrite E.
    destruct (status_code response =? 200); reflexivity.
Qed.

Lemma json_record_needs_position_or_rate_witness :
  let response := {| status_code := 200;
                     json := Some (PyDict {[ "status" := PyStr "In Queue" ]});
                     text := EmptyString; soup_text := EmptyString |} in
  _parse_api_response default_config (fun _ => EmptyString) response
      "A-1" "2026-10-25" "G" = None /\
  discovered_api_result default_config (fun _ => EmptyString) response
      "A-1" "2026-10-25" "G" = None.
Proof.
  intros response.
  apply (json_record_needs_position_or_rate default_config (fun _ => EmptyString)
           response {[ "status" := PyStr "In Queue" ]} "A-1" "2026-10-25" "G");
    vm_compute; reflexivity.
Defined.

(** A position of 0 is no position. *)
Example json_position_zero :
  _parse_api_response default_config (fun _ => EmptyString)
    {| status_code := 200;
       json := Some (PyDict {[ "position" := PyInt 0 ]});
       text := EmptyString; soup_text := EmptyString |}
    "A-1" "2026-10-25" "G" = None.
Proof. vm_compute. reflexivity. Qed.

(** The page-text parser reads [position] after the branches that never
    assigned it: whenever one of the four words occurs, the [try] block
    raises and no record is returned. *)
Lemma extract_none_on_status_words config page_text cn sd el :
  any_in ["approved"; "certified"; "denied"; "rejected"] (lower page_text) = true ->
  _extract_status_from_results config page_text cn sd el = None.
Proof.
  intros H. unfold _extract_status_from_results, extract_body, classify_page.
  unfold any_in in *. cbn [existsb] in *.
  destruct (contains "approved" (lower page_text)); [reflexivity |].
  destruct (contains "certified" (lower page_text)); [reflexivity |].
  destruct (contains "denied" (lower page_text)); [reflexivity |].
  destruct (contains "rejected" (lower page_text)); [reflexivity |].
  discriminate.
Qed.

(** In the JSON parser, a status string that contains "approved" or
    "certified" in any letter case gives every record that is produced the
    status "Approved", and one that contains "denied" or "rejected" (and
    none of the former) gives it "Denied". *)
Lemma json_status_words config py_repr response d s cn sd el r :
  json response = Some (PyDict d) ->
  dict_get d "status" = PyStr s ->
  _parse_api_response config py_repr response cn sd el = Some r ->
  (any_in ["approved"; "certified"] (lower s) = true ->
     status r = PyStr "Approved") /\
  (any_in ["approved"; "certified"] (lower s) = false ->
   any_in ["denied"; "rejected"] (lower s) = true ->
     status r = PyStr "Denied").
Proof.
  intros Hjson Hstatus Hr.
  split.
  - intros Ha.
    rewrite (parse_json_dict _ _ _ _ _ _ _ Hjson) in Hr.
    unfold json_body in Hr. cbn [as_dict rbind] in Hr. rewrite Hstatus in Hr.
    destruct s as [| c s'].
    { vm_compute in Ha. discriminate. }
    change (py_or (PyStr (String c s')) (PyStr "Pending Review"))
      with (PyStr (String c s')) in Hr.
    cbn [py_str] in Hr. rewrite Ha in Hr.
    destruct (truthy _ || negb _); cbn [try_except] in Hr; [| discriminate].
    injection Hr as <-. reflexivity.
  - intros Ha Hd.
    rewrite (parse_json_dict _ _ _ _ _ _ _ Hjson) in Hr.
    unfold json_body in Hr. cbn [as_dict rbind] in Hr. rewrite Hstatus in Hr.
    destruct s as [| c s'].
    { vm_compute in Hd. discriminate. }
    change (py_or (PyStr (String c s')) (PyStr "Pending Review"))
      with (PyStr (String c s')) in Hr.
    cbn [py_str] in Hr. rewrite Ha, Hd in Hr.
    destruct (truthy _ || negb _); cbn [try_except] in Hr; [| discriminate].
    injection Hr as <-. reflexivity.
Qed.

(** C1.  The page-text parser returns no record for a page that says
    "approved" (or "denied"), even with a queue position on it: the branch
    that sets the status assigns nothing else, the test that follows reads
    the local [position], and the [UnboundLocalError] ends in the handler of
    the method, which returns [None]; the same happens when the page reaches
    the parser through [_parse_api_response].  Without the word the position
    on the page is found, and the JSON parser, given the same status and
    position, returns a record with status "Approved". *)
Theorem approved_page_yields_no_record :
  let page := "Your case was APPROVED. Your Queue Position: 8,585" in
  let denied := "Your case was denied. Your Queue Position: 8,585" in
  let plain := "Your Queue Position: 8,585" in
  let as_json :=
    {| status_code := 200;
       json := Some (PyDict (<[ "position" := PyInt 8585 ]>
                               {[ "status" := PyStr "APPROVED" ]}));
       text := EmptyString; soup_text := EmptyString |} in
  let as_html :=
    {| status_code := 200; json := None; text := page; soup_text := page |} in
  any_in ["approved"; "certified"] (lower page) = true /\
  extract_body default_config page "A-1" "2026-10-25" "G" = Raise UnboundLocalError /\
  _extract_status_from_results default_config page "A-1" "2026-10-25" "G" = None /\
  _extract_status_from_results default_config denied "A-1" "2026-10-25" "G" = None /\
  _parse_api_response default_config (fun _ => EmptyString) as_html
    "A-1" "2026-10-25" "G" = None /\
  (exists r,
     _extract_status_from_results default_config plain "A-1" "2026-10-25" "G" = Some r /\
     position_in_queue r = PyInt 8585 /\ status r = PyStr "Pending Review") /\
  (exists r,
     _parse_api_response default_config (fun _ => EmptyString) as_json
       "A-1" "2026-10-25" "G" = Some r /\
     position_in_queue r = PyInt 8585 /\ status r = PyStr "Approved") /\
  (forall config page_text cn sd el,
     any_in ["approved"; "certified"; "denied"; "rejected"] (lower page_text) = true ->
     _extract_status_from_results config page_text cn sd el = None).
Proof.
  cbv zeta.
  split; [| split; [| split; [| split; [| split; [| split; [| split]]]]]];
    [| | | | | | | exact extract_none_on_status_words].
  - vm_compute. reflexivity.
  - vm_compute. reflexivity.
  - vm_compute. reflexivity.
  - vm_compute. reflexivity.
  - vm_compute. reflexivity.
  - eexists. split; [vm_compute; reflexivity |]. split; reflexivity.
  - eexists. split; [vm_compute; reflexivity |]. split; reflexivity.
Qed.

(** By design, a JSON object that holds nothing but the status "Approved"
    yields no record either: it supplies neither a position nor a rate. *)
Example approved_json_without_position :
  _parse_api_response default_config (fun _ => EmptyString)
    {| status_code := 200;
       json := Some (PyDict {[ "status" := PyStr "Approved" ]});
       text := EmptyString; soup_text := EmptyString |}
    "A-1" "2026-10-25" "G" = None.
Proof. vm_compute. reflexivity. Qed.

End PERMScraperFacts.

(** ** The OAuth2 strategy *)

Module CaseStatusAPIFacts.
Import Binary64 Text PyVal CaseStatusAPI CaseStatusAPISpec.

Section Runs.
Variable config : Config.
Variable server : nat -> result Response.
Variable uniform : nat -> pyfloat.
Variable now : string.

Lemma py_range_retries :
  py_range (retries config) = map Z.of_nat (seq 0 (Z.to_nat (SCRAPER_RETRIES config))).
Proof. reflexivity. Qed.

(** One round against a 503: the last attempt returns the record, any
    earlier one sleeps and goes round again. *)
Lemma attempt_round_503 again cn attempt st response :
  server (requests_made st) = Ok response ->
  status_code response = 503 ->
  attempt_round config server uniform now again cn attempt st =
    if attempt <? retries config - 1
    then (Continue,
          {| requests_made := S (requests_made st);
             draws_made := S (draws_made st);
             access_token := access_token st;
             trace := (trace st ++ [StatusRequest (access_token st)])
                      ++ [Sleep attempt (uniform (draws_made st))
                            (wait_time attempt (uniform (draws_made st)))] |})
    else (Return (Some (_create_service_unavailable_response now cn)),
          {| requests_made := S (requests_made st);
             draws_made := draws_made st;
             access_token := access_token st;
             trace := trace st ++ [StatusRequest (access_token st)] |}).
Proof.
  intros Hs Hc.
  unfold attempt_round, bind, get_token, request. rewrite Hs, Hc.
  change (503 =? 200) with false. change (503 =? 401) with false.
  change (503 =? 404) with false. change (503 =? 503) with true. cbv iota.
  destruct (attempt <? retries config - 1); reflexivity.
Qed.

Lemma attempts_loop_503 again cn :
  (forall i, exists response, server i = Ok response /\ status_code response = 503) ->
  forall k a st,
    (a + S k)%nat = Z.to_nat (SCRAPER_RETRIES config) ->
    attempts_loop config server uniform now again cn (map Z.of_nat (seq a (S k))) st =
      (Ok (Some (_create_service_unavailable_response now cn)),
       {| requests_made := (requests_made st + S k)%nat;
          draws_made := (draws_made st + k)%nat;
          access_token := access_token st;
          trace := trace st
                   ++ rounds_503 (access_token st) uniform a (draws_made st) (S k) |}).
Proof.
  intros Hall. induction k as [| k IH]; intros a st Ha.
  - cbn [seq map attempts_loop]. unfold bind.
    destruct (Hall (requests_made st)) as (response & Hs & Hc).
    rewrite (attempt_round_503 again cn (Z.of_nat a) st response Hs Hc).
    destruct (Z.ltb_spec (Z.of_nat a) (retries config - 1)) as [Hlt | Hge];
      [unfold retries in Hlt; lia |].
    unfold ret. cbn [rounds_503].
    rewrite Nat.add_1_r, Nat.add_0_r. reflexivity.
  - change (seq a (S (S k))) with (a :: seq (S a) (S k)).
    cbn [map attempts_loop]. unfold bind.
    destruct (Hall (requests_made st)) as (response & Hs & Hc).
    rewrite (attempt_round_503 again cn (Z.of_nat a) st response Hs Hc).
    destruct (Z.ltb_spec (Z.of_nat a) (retries config - 1)) as [Hlt | Hge];
      [| unfold retries in Hge; lia].
    rewrite IH by (cbn; lia). cbn [requests_made draws_made access_token trace].
    rewrite <- !app_assoc.
    change (rounds_503 (access_token st) uniform a (draws_made st) (S (S k)))
      with (StatusRequest (access_token st)
              :: Sleep (Z.of_nat a) (uniform (draws_made st))
                   (wait_time (Z.of_nat a) (uniform (draws_made st)))
              :: rounds_503 (access_token st) uniform (S a) (S (draws_made st)) (S k)).
    cbn [app].
    replace (requests_made st + S (S k))%nat with (S (requests_made st) + S k)%nat by lia.
    replace (draws_made st + S k)%nat with (S (draws_made st) + k)%nat by lia.
    reflexivity.
Qed.

Lemma rounds_503_counts token a draw k :
  length (List.filter is_status_request (rounds_503 token uniform a draw k)) = k /\
  List.filter is_token_request (rounds_503 token uniform a draw k) = [] /\
  sleeps (rounds_503 token uniform a draw k)
    = map Z.of_nat (seq a (Nat.pred k)).
Proof.
  revert a draw. induction k as [| k IH]; intros a draw; [repeat split |].
  destruct k as [| k]; [repeat split |].
  destruct (IH (S a) (S draw)) as (I1 & I2 & I3).
  change (rounds_503 token uniform a draw (S (S k)))
    with (StatusRequest token
            :: Sleep (Z.of_nat a) (uniform draw) (wait_time (Z.of_nat a) (uniform draw))
            :: rounds_503 token uniform (S a) (S draw) (S k)).
  cbn [List.filter is_status_request is_token_request sleeps length Nat.pred seq map].
  rewrite I1, I2, I3. repeat split.
Qed.

(** The seconds slept in such a run, when the attempts and the draws are
    counted from the same number: [2 ** attempt + jitter], added as floats. *)
Lemma rounds_503_waits token a k :
  waits (rounds_503 token uniform a a k)
    = map (fun i => fadd (round_b64 (2 ^ Z.of_nat i) 1) (uniform i))
          (seq a (Nat.pred k)).
Proof.
  revert a. induction k as [| k IH]; intros a; [reflexivity |].
  destruct k as [| k]; [reflexivity |].
  change (rounds_503 token uniform a a (S (S k)))
    with (StatusRequest token
            :: Sleep (Z.of_nat a) (uniform a) (wait_time (Z.of_nat a) (uniform a))
            :: rounds_503 token uniform (S a) (S a) (S k)).
  cbn [waits Nat.pred seq map]. rewrite (IH (S a)). reflexivity.
Qed.

(** C6 (amended).  Against a server that answers every request with 503,
    [_get_status_from_api] with a configured retry count of at least one
    sends exactly that many requests, sleeps [2 ** attempt + jitter] seconds
    after each of them but the last (attempts 0, 1, ..., retries - 2), asks
    for no token, and returns the service-unavailable record (status
    "Service Temporarily Unavailable", error "service_unavailable") instead
    of raising.  With a retry count of zero or less it sends nothing and
    returns [None]. *)
Theorem repeated_503_exhausts_retries depth cn token :
  (forall i, exists response, server i = Ok response /\ status_code response = 503) ->
  let n := Z.to_nat (SCRAPER_RETRIES config) in
  let outcome := _get_status_from_api config server uniform now (S depth) cn (initial token) in
  (1 <= SCRAPER_RETRIES config ->
   fst outcome =
     Ok (Some {| case_number := cn;
                 status := PyStr "Service Temporarily Unavailable";
                 last_updated := PyStr now;
                 form_type := PyStr (_extract_form_type cn);
                 case_type := _determine_case_type (_extract_form_type cn);
                 office := PyStr "USCIS Service Center";
                 details :=
                   PyStr "The USCIS API is temporarily unavailable. Please try again later.";
                 data_source := "uscis.gov";
                 method := "official_api_oauth2";
                 error := Some "service_unavailable";
                 api_response := None;
                 raw_response := None |}) /\
   requests_made (snd outcome) = n /\
   trace (snd outcome) = rounds_503 token uniform 0 0 n /\
   length (List.filter is_status_request (trace (snd outcome))) = n /\
   List.filter is_token_request (trace (snd outcome)) = [] /\
   sleeps (trace (snd outcome)) = map Z.of_nat (seq 0 (Nat.pred n)) /\
   waits (trace (snd outcome))
     = map (fun i => fadd (round_b64 (2 ^ Z.of_nat i) 1) (uniform i))
           (seq 0 (Nat.pred n)) /\
   access_token (snd outcome) = token) /\
  (SCRAPER_RETRIES config <= 0 -> outcome = (Ok None, initial token)).
Proof.
  intros Hall n outcome. split.
  - intros Hr.
    assert (E : outcome =
      (Ok (Some (_create_service_unavailable_response now cn)),
       {| requests_made := n; draws_made := Nat.pred n; access_token := token;
          trace := rounds_503 token uniform 0 0 n |})).
    { unfold outcome. cbn [_get_status_from_api]. rewrite py_range_retries. fold n.
      destruct n as [| k] eqn:En; [lia |].
      rewrite (attempts_loop_503 _ cn Hall k 0 (initial token)) by (cbn; lia).
      reflexivity. }
    rewrite E. cbn [fst snd requests_made trace access_token].
    destruct (rounds_503_counts token 0 0 n) as (C1 & C2 & C3).
    pose proof (rounds_503_waits token 0 n) as C4.
    split; [reflexivity |]. repeat split; assumption.
  - intros Hr. unfold outcome. cbn [_get_status_from_api]. rewrite py_range_retries.
    replace (Z.to_nat (SCRAPER_RETRIES config)) with 0%nat by lia. reflexivity.
Qed.

(** One round against a 401. *)
Lemma attempt_round_401 again cn attempt st response :
  server (requests_made st) = Ok response ->
  status_code response = 401 ->
  let fresh := token_of_response (server (S (requests_made st))) in
  let st1 := {| requests_made := S (S (requests_made st));
                draws_made := draws_made st;
                access_token := fresh;
                trace := (trace st ++ [StatusRequest (access_token st)])
                         ++ [TokenRequest] |} in
  attempt_round config server uniform now again cn attempt st =
    if truthy fresh then
      let (inner, st2) := again st1 in
      match inner with
      | Ok v => (Return v, st2)
      | Raise _ => retry_or_give_up config uniform attempt st2
      end
    else (Return (Some (_create_unauthorized_response now cn)), st1).
Proof.
  intros Hs Hc fresh st1.
  unfold attempt_round, bind, get_token, request, _get_access_token, set_token.
  rewrite Hs, Hc.
  change (401 =? 200) with false. change (401 =? 401) with true. cbv iota.
  unfold bind, request, ret. cbn [requests_made draws_made access_token trace].
  fold fresh. destruct (truthy fresh); [| reflexivity].
  fold st1. destruct (again st1) as [[v | e] st2]; reflexivity.
Qed.

(** One round whose request raised or was answered with a status other than
    200, 401 and 404, when it is not the last attempt: a sleep, and the loop
    goes on. *)
Lemma attempt_round_retried again cn attempt st :
  retried (server (requests_made st)) = true ->
  attempt < retries config - 1 ->
  attempt_round config server uniform now again cn attempt st =
    (Continue,
     {| requests_made := S (requests_made st);
        draws_made := S (draws_made st);
        access_token := access_token st;
        trace := (trace st ++ [StatusRequest (access_token st)])
                 ++ [Sleep attempt (uniform (draws_made st))
                       (wait_time attempt (uniform (draws_made st)))] |}).
Proof.
  intros Hr Hlt.
  unfold attempt_round, bind, get_token, request, retry_or_give_up.
  destruct (server (requests_made st)) as [response | e]; cbn [retried] in Hr.
  - apply andb_prop in Hr as [Hr H404]. apply andb_prop in Hr as [H200 H401].
    apply negb_true_iff in H200, H401, H404. rewrite H200, H401, H404.
    destruct (Z.ltb_spec attempt (retries config - 1)); [| lia].
    destruct (status_code response =? 503); reflexivity.
  - destruct (Z.ltb_spec attempt (retries config - 1)); [| lia]. reflexivity.
Qed.

(** [k] such rounds in a row, none of them the last attempt. *)
Lemma attempts_loop_retried again cn rest :
  forall k a st,
    (forall j, (j < k)%nat -> retried (server (requests_made st + j)) = true) ->
    Z.of_nat (a + k) <= retries config - 1 ->
    attempts_loop config server uniform now again cn
                  (map Z.of_nat (seq a k) ++ rest) st =
    attempts_loop config server uniform now again cn rest
      {| requests_made := (requests_made st + k)%nat;
         draws_made := (draws_made st + k)%nat;
         access_token := access_token st;
         trace := trace st
                  ++ retried_rounds (access_token st) uniform a (draws_made st) k |}.
Proof.
  induction k as [| k IH]; intros a st Hall Ha.
  - cbn [seq map app retried_rounds]. rewrite !Nat.add_0_r, app_nil_r.
    destruct st; reflexivity.
  - cbn [seq map app attempts_loop]. unfold bind.
    rewrite (attempt_round_retried again cn (Z.of_nat a) st);
      [| rewrite <- (Nat.add_0_r (requests_made st)); apply Hall; lia | lia].
    rewrite IH; cbn [requests_made draws_made access_token trace].
    + cbn [retried_rounds]. rewrite <- !app_assoc. cbn [app].
      replace (S (requests_made st) + k)%nat with (requests_made st + S k)%nat by lia.
      replace (S (draws_made st) + k)%nat with (draws_made st + S k)%nat by lia.
      reflexivity.
    + intros j Hj.
      replace (S (requests_made st) + j)%nat with (requests_made st + S j)%nat by lia.
      apply Hall. lia.
    + lia.
Qed.

(** C2 (amended).  A 401 answered to a case-status request at any attempt
    of the loop, that is after any number [k] of attempts that were retried,
    triggers one token request.  If it yields no token, the strategy returns
    the "Access Denied" record (error "unauthorized") at once: no exception,
    no further request.  If it yields a token, the whole call is made again
    with the new token and what that call returns is returned: a 401 in it
    is handled the same way, so the number of refreshes is not bounded by
    one. *)
Theorem unauthorized_refreshes_then_calls_again depth cn st k response :
  (k < Z.to_nat (SCRAPER_RETRIES config))%nat ->
  (forall j, (j < k)%nat -> retried (server (requests_made st + j)) = true) ->
  server (requests_made st + k) = Ok response ->
  status_code response = 401 ->
  let fresh := token_of_response (server (S (requests_made st + k))) in
  let st1 := {| requests_made := S (S (requests_made st + k));
                draws_made := (draws_made st + k)%nat;
                access_token := fresh;
                trace := trace st
                         ++ retried_rounds (access_token st) uniform 0 (draws_made st) k
                         ++ [StatusRequest (access_token st); TokenRequest] |} in
  (truthy fresh = false ->
     _get_status_from_api config server uniform now (S depth) cn st =
       (Ok (Some {| case_number := cn;
                    status := PyStr "Access Denied";
                    last_updated := PyStr now;
                    form_type := PyStr (_extract_form_type cn);
                    case_type := _determine_case_type (_extract_form_type cn);
                    office := PyStr "USCIS Service Center";
                    details := PyStr "API access requires authentication.";
                    data_source := "uscis.gov";
                    method := "official_api_oauth2";
                    error := Some "unauthorized";
                    api_response := None;
                    raw_response := None |}), st1)) /\
  (truthy fresh = true ->
     forall v st2,
       _get_status_from_api config server uniform now depth cn st1 = (Ok v, st2) ->
       _get_status_from_api config server uniform now (S depth) cn st = (Ok v, st2)).
Proof.
  intros Hk Hall Hs Hc fresh st1.
  set (n := Z.to_nat (SCRAPER_RETRIES config)) in *.
  assert (Hrange : py_range (retries config)
                   = map Z.of_nat (seq 0 k)
                     ++ Z.of_nat k :: map Z.of_nat (seq (S k) (n - S k))).
  { rewrite py_range_retries. fold n.
    replace n with (k + S (n - S k))%nat at 1 by lia.
    rewrite seq_app, map_app. reflexivity. }
  assert (Hn : Z.of_nat n <= SCRAPER_RETRIES config) by (unfold n; lia).
  cbn [_get_status_from_api]. rewrite Hrange.
  rewrite (attempts_loop_retried _ cn _ k 0 st Hall)
    by (unfold retries; lia).
  cbn [attempts_loop]. unfold bind.
  rewrite (attempt_round_401 _ cn (Z.of_nat k) _ response);
    cbn [requests_made draws_made access_token trace]; [| exact Hs | exact Hc].
  fold fresh. rewrite <- !app_assoc. cbn [app]. fold st1.
  split.
  - intros ->. reflexivity.
  - intros -> v st2 ->. reflexivity.
Qed.

End Runs.

Lemma unauthorized_refreshes_then_calls_again_witness :
  _get_status_from_api default_config
      (scripted [status_only 503; status_only 401; status_only 500])
      (fun _ => literal 5 10) "2026-11-04" 1 "WAC1234567890" (initial (PyStr "t0"))
  = (Ok (Some {| case_number := "WAC1234567890";
                 status := PyStr "Access Denied";
                 last_updated := PyStr "2026-11-04";
                 form_type := PyStr "I-140";
                 case_type := "Immigrant Petition for Alien Worker";
                 office := PyStr "USCIS Service Center";
                 details := PyStr "API access requires authentication.";
                 data_source := "uscis.gov";
                 method := "official_api_oauth2";
                 error := Some "unauthorized";
                 api_response := None;
                 raw_response := None |}),
     {| requests_made := 3; draws_made := 1; access_token := PyNone;
        trace := [StatusRequest (PyStr "t0");
                  Sleep 0 (literal 5 10) (literal 15 10);
                  StatusRequest (PyStr "t0"); TokenRequest] |})
  /\
  _get_status_from_api default_config
      (scripted [status_only 503; status_only 401; token_grant "t1"; status_only 404])
      (fun _ => literal 5 10) "2026-11-04" 2 "WAC1234567890" (initial (PyStr "t0"))
  = (Ok (Some (_create_not_found_response "2026-11-04" "WAC1234567890")),
     {| requests_made := 4; draws_made := 1; access_token := PyStr "t1";
        trace := [StatusRequest (PyStr "t0");
                  Sleep 0 (literal 5 10) (literal 15 10);
                  StatusRequest (PyStr "t0"); TokenRequest;
                  StatusRequest (PyStr "t1")] |}).
Proof.
  split.
  - refine (proj1 (unauthorized_refreshes_then_calls_again default_config
             (scripted [status_only 503; status_only 401; status_only 500])
             (fun _ => literal 5 10) "2026-11-04" 0 "WAC1234567890"
             (initial (PyStr "t0")) 1
             {| status_code := 401; json := None;
                text := EmptyString; soup_text := EmptyString |} _ _ _ _) _).
    + vm_compute. lia.
    + intros [| j] Hj; [reflexivity | lia].
    + reflexivity.
    + reflexivity.
    + reflexivity.
  - refine (proj2 (unauthorized_refreshes_then_calls_again default_config
             (scripted [status_only 503; status_only 401; token_grant "t1";
                        status_only 404])
             (fun _ => literal 5 10) "2026-11-04" 1 "WAC1234567890"
             (initial (PyStr "t0")) 1
             {| status_code := 401; json := None;
                text := EmptyString; soup_text := EmptyString |} _ _ _ _) _ _ _ _).
    + vm_compute. lia.
    + intros [| j] Hj; [reflexivity | lia].
    + reflexivity.
    + reflexivity.
    + reflexivity.
    + vm_compute. reflexivity.
Defined.

Lemma repeated_503_exhausts_retries_witness :
  let outcome := _get_status_from_api default_config (fun _ => status_only 503)
               (fun _ => literal 5 10) "2026-11-04" 1 "WAC1234567890"
               (initial (PyStr "t0")) in
  fst outcome =
    Ok (Some {| case_number := "WAC1234567890";
                status := PyStr "Service Temporarily Unavailable";
                last_updated := PyStr "2026-11-04";
                form_type := PyStr "I-140";
                case_type := "Immigrant Petition for Alien Worker";
                office := PyStr "USCIS Service Center";
                details :=
                  PyStr "The USCIS API is temporarily unavailable. Please try again later.";
                data_source := "uscis.gov";
                method := "official_api_oauth2";
                error := Some "service_unavailable";
                api_response := None;
                raw_response := None |}) /\
  requests_made (snd outcome) = 3%nat /\
  sleeps (trace (snd outcome)) = [0; 1] /\
  waits (trace (snd outcome)) = [literal 15 10; literal 25 10].
Proof.
  intros outcome.
  destruct (repeated_503_exhausts_retries default_config (fun _ => status_only 503)
              (fun _ => literal 5 10) "2026-11-04" 0 "WAC1234567890" (PyStr "t0"))
    as [H _].
  - intros i. eexists. split; reflexivity.
  - destruct H as (H1 & H2 & _ & _ & _ & H6 & H7 & _).
    + vm_compute. discriminate.
    + split; [exact H1 |]. split; [exact H2 |]. split; [exact H6 | exact H7].
Defined.

(** C6 as stated fails for a retry count of zero ([SCRAPER_RETRIES=0] in the
    environment): every answer would be a 503, the request is attempted
    zero times as the claim says, but the strategy returns [None], not a
    service-unavailable record. *)
Lemma zero_retries_return_no_record :
  let config0 := {| DEFAULT_PROCESSING_RATE := 50; MOCK_POSITION := 1500;
                    MOCK_TOTAL_APPLICATIONS := 5000; SCRAPER_RETRIES := 0 |} in
  let server := fun _ : nat => status_only 503 in
  let outcome := _get_status_from_api config0 server (fun _ => literal 5 10)
                   "2026-11-04" 1 "WAC1234567890" (initial (PyStr "t0")) in
  (forall i, exists response, server i = Ok response /\ status_code response = 503) /\
  fst outcome = Ok None /\
  (~ exists record, fst outcome = Ok (Some record)) /\
  requests_made (snd outcome) = 0%nat /\
  trace (snd outcome) = [].
Proof.
  intros config0 server outcome.
  split; [intros i; eexists; split; reflexivity |].
  split; [reflexivity |].
  split; [intros (record & H); discriminate H |].
  split; reflexivity.
Qed.

(** C2 as stated fails: when the retry is answered with 401 again and the
    token endpoint keeps granting tokens, a second refresh and a third
    request follow, and the outcome is whatever the third request gives
    (here the not-found record), not "Access Denied". *)
Lemma second_401_triggers_second_refresh :
  let outcome := _get_status_from_api default_config
               (scripted [status_only 401; token_grant "t1";
                          status_only 401; token_grant "t2";
                          status_only 404])
               (fun _ => Finite 0 0) "2026-11-04" 10 "WAC1234567890"
               (initial (PyStr "t0")) in
  fst outcome = Ok (Some (_create_not_found_response "2026-11-04" "WAC1234567890")) /\
  trace (snd outcome) =
    [StatusRequest (PyStr "t0"); TokenRequest;
     StatusRequest (PyStr "t1"); TokenRequest;
     StatusRequest (PyStr "t2")] /\
  length (List.filter is_token_request (trace (snd outcome))) = 2%nat /\
  length (List.filter is_status_request (trace (snd outcome))) = 3%nat.
Proof. intros outcome. repeat split; vm_compute; reflexivity. Qed.

End CaseStatusAPIFacts.

(** ** The prefix tables and the accent colours *)

Module NotifierFacts.
Import Text CaseStatusAPI NotifierSpec.

(** C8 (amended).  "WAC1234567890" maps to form type "I-140" and to the
    California Service Center.  A case number whose three-character prefix
    is not in the table keeps that prefix as its form type ("Unknown" only
    when it has fewer than three characters) and maps to
    "Unknown Service Center". *)
Theorem prefix_lookups :
  _extract_form_type "WAC1234567890" = "I-140" /\
  UscisNotifier._extract_service_center_from_case_number "WAC1234567890"
    = "California Service Center" /\
  (forall case_number,
     ((3 <= String.length case_number)%nat ->
      form_mapping !! substring 0 3 case_number = None ->
      _extract_form_type case_number = substring 0 3 case_number) /\
     ((String.length case_number < 3)%nat ->
      _extract_form_type case_number = "Unknown") /\
     ((String.length case_number < 3)%nat \/
      UscisNotifier.service_center_mapping !! substring 0 3 case_number = None ->
      UscisNotifier._extract_service_center_from_case_number case_number
        = "Unknown Service Center")).
Proof.
  split; [vm_compute; reflexivity |]. split; [vm_compute; reflexivity |].
  intros case_number.
  unfold _extract_form_type, UscisNotifier._extract_service_center_from_case_number.
  destruct (Nat.leb_spec 3 (String.length case_number)) as [Hlen | Hlen].
  - split; [| split].
    + intros _ ->. reflexivity.
    + intros H. lia.
    + intros [H | ->]; [lia | reflexivity].
  - split; [| split].
    + intros H. lia.
    + reflexivity.
    + reflexivity.
Qed.

Lemma prefix_lookups_witness :
  _extract_form_type "EAC1234567890" = "EAC" /\
  _extract_form_type "AB" = "Unknown" /\
  UscisNotifier._extract_service_center_from_case_number "EAC1234567890"
    = "Unknown Service Center".
Proof.
  destruct prefix_lookups as (_ & _ & H).
  split; [| split].
  - apply (H "EAC1234567890"); [cbn; lia | vm_compute; reflexivity].
  - apply (H "AB"). cbn. lia.
  - apply (H "EAC1234567890"). right. vm_compute. reflexivity.
Defined.

(** C8 as stated fails: the prefix "EAC" is in neither table, yet the form
    type is "EAC" and the service centre "Unknown Service Center", not
    "Unknown". *)
Lemma unknown_prefix_is_not_unknown :
  form_mapping !! "EAC" = None /\
  UscisNotifier.service_center_mapping !! "EAC" = None /\
  _extract_form_type "EAC1234567890" = "EAC" /\
  _extract_form_type "EAC1234567890" <> "Unknown" /\
  UscisNotifier._extract_service_center_from_case_number "EAC1234567890"
    = "Unknown Service Center" /\
  UscisNotifier._extract_service_center_from_case_number "EAC1234567890"
    <> "Unknown".
Proof.
  repeat split; try (vm_compute; reflexivity); vm_compute; discriminate.
Qed.

(** C9 (amended).  The USCIS notifier picks the accent by the six rules
    (approved, denied, rfe / request for evidence, pending, received,
    default) on the lowered status; the PERM notifier knows only approved,
    denied and pending and gives every other status the default blue. *)
Theorem accent_colours status :
  UscisNotifier.status_color status = accent_hex (accent_rule status) /\
  PermNotifier.status_color status = accent_hex (perm_accent_rule status).
Proof.
  unfold UscisNotifier.status_color, PermNotifier.status_color,
    accent_rule, perm_accent_rule.
  cbv zeta.
  destruct (contains "approved" (lower status)); [split; reflexivity |].
  destruct (contains "denied" (lower status)); [split; reflexivity |].
  destruct (contains "rfe" (lower status));
  destruct (contains "request for evidence" (lower status));
  destruct (contains "pending" (lower status));
  destruct (contains "received" (lower status)); split; reflexivity.
Qed.

(** C9 as stated fails for the PERM notifier: "Case Was Received" and
    "RFE issued" are rendered in the default blue, not purple or orange. *)
Lemma perm_notifier_ignores_received_and_rfe :
  accent_rule "Case Was Received" = Purple /\
  PermNotifier.status_color "Case Was Received" = accent_hex Blue /\
  accent_rule "RFE issued" = Orange /\
  PermNotifier.status_color "RFE issued" = accent_hex Blue.
Proof. repeat split; vm_compute; reflexivity. Qed.

End NotifierFacts.

(** ** Strings *)

Module TextFacts.
Import Text TextOps TextSpec.

Lemma length_substring_0 n s :
  String.length (substring 0 n s) = Nat.min n (String.length s).
Proof.
  revert s. induction n as [| n IH]; intros [| c s]; cbn; try reflexivity.
  rewrite IH. reflexivity.
Qed.

Lemma length_append a b :
  String.length (a +:+ b) = (String.length a + String.length b)%nat.
Proof.
  induction a as [| c a IH]; [reflexivity |].
  change (String c a +:+ b) with (String c (a +:+ b)).
  cbn [String.length]. rewrite IH. reflexivity.
Qed.

Lemma prefix_append a b : String.prefix a (a +:+ b) = true.
Proof.
  induction a as [| c a IH]; [destruct b; reflexivity |].
  change (String c a +:+ b) with (String c (a +:+ b)).
  cbn [String.prefix]. destruct (ascii_dec c c); [exact IH | contradiction].
Qed.


Lemma append_nil_r s : s +:+ EmptyString = s.
Proof.
  induction s as [| c s IH]; [reflexivity |].
  change (String c s +:+ EmptyString) with (String c (s +:+ EmptyString)).
  rewrite IH. reflexivity.
Qed.

Lemma append_assoc a b c : (a +:+ b) +:+ c = a +:+ (b +:+ c).
Proof.
  induction a as [| x a IH]; [reflexivity |].
  change ((String x a +:+ b) +:+ c) with (String x ((a +:+ b) +:+ c)).
  rewrite IH. reflexivity.
Qed.

Lemma rev_string_app s acc : rev_string s acc = rev_string s EmptyString +:+ acc.
Proof.
  revert acc. induction s as [| c s IH]; intros acc; [reflexivity |].
  cbn [rev_string]. rewrite (IH (String c acc)), (IH (String c EmptyString)).
  rewrite append_assoc. reflexivity.
Qed.

Lemma rev_string_rev s a b :
  rev_string (rev_string s a) b = rev_string a (s +:+ b).
Proof.
  revert a b. induction s as [| c s IH]; intros a b; [reflexivity |].
  cbn [rev_string]. rewrite IH. reflexivity.
Qed.

Lemma rev_string_involutive s :
  rev_string (rev_string s EmptyString) EmptyString = s.
Proof. rewrite rev_string_rev. cbn [rev_string]. apply append_nil_r. Qed.

Lemma rev_string_snoc y x acc :
  rev_string (y +:+ x) acc = rev_string x (rev_string y acc).
Proof.
  revert acc. induction y as [| c y IH]; intros acc; [reflexivity |].
  change (String c y +:+ x) with (String c (y +:+ x)).
  cbn [rev_string]. apply IH.
Qed.

(** *** [strip] *)

Lemma lstrip_head s :
  lstrip s = EmptyString \/
  exists c t, lstrip s = String c t /\ is_space c = false.
Proof.
  induction s as [| c s IH]; [left; reflexivity |].
  cbn [lstrip]. destruct (is_space c) eqn:E; [exact IH | right; eauto].
Qed.

Lemma lstrip_cons c t : is_space c = false -> lstrip (String c t) = String c t.
Proof. intros E. cbn [lstrip]. rewrite E. reflexivity. Qed.

Lemma lstrip_idem s : lstrip (lstrip s) = lstrip s.
Proof.
  destruct (lstrip_head s) as [-> | (c & t & -> & E)]; [reflexivity |].
  apply lstrip_cons. exact E.
Qed.

Lemma lstrip_snoc x c :
  is_space c = false ->
  lstrip (x +:+ String c EmptyString) = lstrip x +:+ String c EmptyString.
Proof.
  intros E. induction x as [| d x IH].
  { change (EmptyString +:+ String c EmptyString) with (String c EmptyString).
    cbn [lstrip]. rewrite E. reflexivity. }
  change (String d x +:+ String c EmptyString)
    with (String d (x +:+ String c EmptyString)).
  cbn [lstrip]. destruct (is_space d); [exact IH | reflexivity].
Qed.

Lemma rstrip_cons c t :
  is_space c = false -> rstrip (String c t) = String c (rstrip t).
Proof.
  intros E. unfold rstrip. cbn [rev_string].
  rewrite (rev_string_app t (String c EmptyString)).
  rewrite (lstrip_snoc _ c E), rev_string_snoc. reflexivity.
Qed.

Lemma rstrip_idem s : rstrip (rstrip s) = rstrip s.
Proof. unfold rstrip. rewrite rev_string_involutive, lstrip_idem. reflexivity. Qed.

Lemma strip_idem s : strip (strip s) = strip s.
Proof.
  unfold strip.
  destruct (lstrip_head s) as [-> | (c & t & -> & E)]; [reflexivity |].
  rewrite (rstrip_cons c t E), (lstrip_cons c _ E), <- (rstrip_cons c t E).
  apply rstrip_idem.
Qed.

(** *** Occurrences of a character *)

Lemma has_char_rev c s acc :
  has_char c (rev_string s acc) = has_char c s || has_char c acc.
Proof.
  revert acc. induction s as [| x s IH]; intros acc; [reflexivity |].
  cbn [rev_string has_char]. rewrite IH. cbn [has_char].
  destruct (Ascii.eqb x c), (has_char c s), (has_char c acc); reflexivity.
Qed.

Lemma has_char_lstrip c s : has_char c s = false -> has_char c (lstrip s) = false.
Proof.
  induction s as [| x s IH]; [reflexivity |].
  cbn [lstrip]. destruct (is_space x); [| tauto].
  cbn [has_char]. intros H. apply orb_false_elim in H as [_ H]. auto.
Qed.

Lemma has_char_strip c s : has_char c s = false -> has_char c (strip s) = false.
Proof.
  intros H. unfold strip, rstrip.
  rewrite has_char_rev. cbn [has_char]. rewrite orb_false_r.
  apply has_char_lstrip. rewrite has_char_rev. cbn [has_char]. rewrite orb_false_r.
  apply has_char_lstrip. exact H.
Qed.

(** *** [split] and [join] *)

Lemma str_split_aux_nonempty sep s cur :
  exists p ps, str_split_aux sep s cur = p :: ps.
Proof.
  revert cur. induction s as [| c s IH]; intros cur; cbn [str_split_aux]; [eauto |].
  destruct (Ascii.eqb c sep); [eauto | apply IH].
Qed.

Lemma str_join_split_aux sep s cur :
  str_join (String sep EmptyString) (str_split_aux sep s cur)
  = rev_string cur EmptyString +:+ s.
Proof.
  revert cur. induction s as [| c s IH]; intros cur; cbn [str_split_aux].
  - cbn [str_join]. symmetry. apply append_nil_r.
  - destruct (Ascii.eqb_spec c sep) as [-> | Hne].
    + destruct (str_split_aux_nonempty sep s EmptyString) as (p & ps & E).
      pose proof (IH EmptyString) as J. rewrite E in *.
      cbn [str_join]. cbn [str_join] in J. rewrite J. reflexivity.
    + rewrite IH. cbn [rev_string].
      rewrite (rev_string_app cur (String c EmptyString)), append_assoc.
      reflexivity.
Qed.

Lemma str_join_split sep s :
  str_join (String sep EmptyString) (str_split sep s) = s.
Proof. unfold str_split. rewrite str_join_split_aux. reflexivity. Qed.

Lemma str_split_aux_pieces sep s cur :
  has_char sep cur = false ->
  Forall (fun p => has_char sep p = false) (str_split_aux sep s cur).
Proof.
  revert cur. induction s as [| c s IH]; intros cur Hcur; cbn [str_split_aux].
  - constructor; [| constructor]. rewrite has_char_rev, Hcur. reflexivity.
  - destruct (Ascii.eqb c sep) eqn:E.
    + constructor; [rewrite has_char_rev, Hcur; reflexivity |].
      apply IH. reflexivity.
    + apply IH. cbn [has_char]. rewrite E, Hcur. reflexivity.
Qed.

End TextFacts.

Module ETAEstimatorMore.
Import Binary64 Binary64Order Binary64Facts Text PyDate ETAEstimator
       ETAEstimatorSpec ETAEstimatorOrder ETAEstimatorFacts.

Lemma compare_scaled x y x' y' q b :
  0 < q -> 0 < b -> x' * q = x * b -> y' * q = y * b -> (x ?= y) = (x' ?= y').
Proof.
  intros Hq Hb Ex Ey.
  destruct (Z.compare_spec x y); destruct (Z.compare_spec x' y');
    try reflexivity; exfalso; nia.
Qed.

(** The comparison of two finite floats is the comparison of their values,
    cross-multiplied. *)
Lemma fcompare_finite m1 e1 m2 e2 :
  fcompare (Finite m1 e1) (Finite m2 e2)
  = Some (fnum m1 e1 * fden e2 ?= fnum m2 e2 * fden e1).
Proof.
  cbn [fcompare]. f_equal. unfold dyadic_compare, fnum, fden.
  set (e := Z.min e1 e2).
  set (P := 2 ^ (e1 - e)). set (Q := 2 ^ (e2 - e)).
  set (A := 2 ^ Z.max e1 0 * 2 ^ Z.max (- e2) 0).
  set (B := 2 ^ Z.max e2 0 * 2 ^ Z.max (- e1) 0).
  assert (HP : 0 < P) by (apply Z.pow_pos_nonneg; lia).
  assert (HQ : 0 < Q) by (apply Z.pow_pos_nonneg; lia).
  assert (HA : 0 < A) by (apply Z.mul_pos_pos; apply Z.pow_pos_nonneg; lia).
  assert (HB : 0 < B) by (apply Z.mul_pos_pos; apply Z.pow_pos_nonneg; lia).
  assert (HAQ : A * Q = B * P).
  { unfold A, B, P, Q. rewrite <- !Z.pow_add_r by lia. f_equal. lia. }
  replace (m1 * 2 ^ Z.max e1 0 * 2 ^ Z.max (- e2) 0) with (m1 * A) by (unfold A; ring).
  replace (m2 * 2 ^ Z.max e2 0 * 2 ^ Z.max (- e1) 0) with (m2 * B) by (unfold B; ring).
  apply (compare_scaled _ _ _ _ Q B HQ HB).
  - replace (m1 * A * Q) with (m1 * (A * Q)) by ring. rewrite HAQ. ring.
  - ring.
Qed.

Lemma fle_finite m1 e1 m2 e2 :
  fle (Finite m1 e1) (Finite m2 e2) = true <-> value_le m1 e1 m2 e2.
Proof.
  unfold fle, value_le. rewrite fcompare_finite.
  destruct (Z.compare_spec (fnum m1 e1 * fden e2) (fnum m2 e2 * fden e1));
    split; intros; try reflexivity; try discriminate; lia.
Qed.

Lemma flt_finite m1 e1 m2 e2 :
  flt (Finite m1 e1) (Finite m2 e2) = true <->
  fnum m1 e1 * fden e2 < fnum m2 e2 * fden e1.
Proof.
  unfold flt. rewrite fcompare_finite.
  destruct (Z.compare_spec (fnum m1 e1 * fden e2) (fnum m2 e2 * fden e1));
    split; intros; try reflexivity; try discriminate; lia.
Qed.

Lemma literal_100 : literal 100 1 = Finite 7036874417766400 (-46).
Proof. vm_compute. reflexivity. Qed.

Lemma round_b64_1000_10 : round_b64 1000 10 = Finite 7036874417766400 (-46).
Proof. vm_compute. reflexivity. Qed.

(** A finite float between 0 and 100 stays there when rounded to one
    decimal. *)
Lemma round1_bounds m e :
  0 <= m -> value_le m e 7036874417766400 (-46) ->
  exists m' e', round1 (Finite m e) = Finite m' e' /\ 0 <= m' /\
                value_le m' e' 7036874417766400 (-46).
Proof.
  intros Hm Hle. cbn [round1].
  pose proof (fden_pos e) as He.
  assert (Hn : 0 <= fnum m e) by (apply fnum_nonneg; assumption).
  assert (Hu : fnum m e <= 100 * fden e).
  { unfold value_le in Hle.
    change (fden (-46)) with 70368744177664 in Hle.
    change (fnum 7036874417766400 (-46)) with (100 * 70368744177664) in Hle.
    lia. }
  set (k := rne (10 * fnum m e) (fden e)).
  assert (Hk0 : 0 <= k) by (apply rne_ge_int; lia).
  assert (Hk1 : k <= 1000) by (apply rne_le_int; lia).
  apply (round_b64_mono k 10 1000 10 7036874417766400 (-46));
    [lia | lia | lia | lia | exact round_b64_1000_10].
Qed.

(** What [max(0.0, min(100.0, x))] is for a float [x] that is not a NaN. *)
Lemma clamp_bounds x :
  x <> NaN ->
  exists m e, fmax (Finite 0 0) (fmin (literal 100 1) x) = Finite m e /\
              0 <= m /\ value_le m e 7036874417766400 (-46).
Proof.
  intros Hx. rewrite literal_100.
  assert (H100 : value_le 7036874417766400 (-46) 7036874417766400 (-46))
    by (unfold value_le; lia).
  assert (H0 : value_le 0 0 7036874417766400 (-46)) by (vm_compute; discriminate).
  destruct x as [mx ex | [|] |]; [| | | congruence].
  - unfold fmin.
    destruct (flt (Finite mx ex) (Finite 7036874417766400 (-46))) eqn:E1.
    + unfold fmax, fgt.
      destruct (flt (Finite 0 0) (Finite mx ex)) eqn:E2.
      * exists mx, ex. split; [reflexivity |].
        apply flt_finite in E1. apply flt_finite in E2.
        split.
        -- unfold fnum, fden in E2. cbn in E2.
           pose proof (pw_pos ex) as Hp. unfold pw in Hp. nia.
        -- unfold value_le. lia.
      * exists 0, 0. split; [reflexivity | split; [lia | exact H0]].
    + unfold fmax, fgt.
      change (flt (Finite 0 0) (Finite 7036874417766400 (-46))) with true.
      exists 7036874417766400, (-46). split; [reflexivity | split; [lia | exact H100]].
  - exists 0, 0. split; [reflexivity | split; [lia | exact H0]].
  - exists 7036874417766400, (-46). split; [reflexivity | split; [lia | exact H100]].
Qed.

Lemma round_dyadic_not_nan m e : round_dyadic m e <> NaN.
Proof. apply round_b64_not_nan. Qed.

Lemma progress_inv config position v :
  0 < MOCK_TOTAL_APPLICATIONS config ->
  _calculate_progress_percentage config position = Ok v ->
  exists mq eq,
    round_b64 (MOCK_TOTAL_APPLICATIONS config - position)
              (MOCK_TOTAL_APPLICATIONS config) = Finite mq eq /\
    v = round1 (fmax (Finite 0 0)
                  (fmin (literal 100 1)
                     (round_dyadic (mq * 7036874417766400) (eq + -46)))).
Proof.
  intros HT. unfold _calculate_progress_percentage.
  set (T := MOCK_TOTAL_APPLICATIONS config) in *.
  destruct (Z.leb_spec T 0); [lia |].
  rewrite int_truediv_pos by assumption. rewrite float_of_int_100.
  destruct (round_b64 (T - position) T) as [mq eq | |] eqn:E; cbn [rbind];
    [| discriminate | exfalso; eapply round_b64_not_nan; eassumption].
  intros [= <-]. exists mq, eq. split; reflexivity.
Qed.

(** X1.  Whenever [_calculate_progress_percentage] returns, the percentage
    is a finite float between 0.0 and 100.0, whatever the position and the
    configured total are; it is exactly 0.0 from the configured total on. *)
Theorem progress_percentage_bounds config position v :
  _calculate_progress_percentage config position = Ok v ->
  fle (Finite 0 0) v = true /\ fle v (literal 100 1) = true /\
  (MOCK_TOTAL_APPLICATIONS config <= position -> v = Finite 0 0).
Proof.
  intros H.
  destruct (Z_lt_le_dec 0 (MOCK_TOTAL_APPLICATIONS config)) as [HT | HT].
  - destruct (progress_inv config position v HT H) as (mq & eq & Eq & ->).
    destruct (clamp_bounds (round_dyadic (mq * 7036874417766400) (eq + -46))
                (round_dyadic_not_nan _ _)) as (m & e & Ec & Hm & Hle).
    rewrite Ec.
    destruct (round1_bounds m e Hm Hle) as (m' & e' & Er & Hm' & Hle').
    rewrite Er, literal_100.
    split; [| split].
    + apply fle_finite. unfold value_le, fnum, fden. cbn.
      pose proof (pw_pos e') as Hp. unfold pw in Hp. nia.
    + apply fle_finite. exact Hle'.
    + intros Hp. rewrite <- Er, <- Ec. clear Ec Er Hle Hle' Hm Hm' m e m' e'.
      set (T := MOCK_TOTAL_APPLICATIONS config) in *.
      assert (Hq : mq <= 0).
      { apply round_b64_inv in Eq as [(_ & -> & _) | (_ & _ & -> & _)]; [lia |].
        unfold scaled_rne. apply rne_le_int.
        - rewrite fnum_pw. pose proof (pw_pos eq). nia.
        - pose proof (fden_pos eq). nia. }
      set (x := round_dyadic (mq * 7036874417766400) (eq + -46)).
      assert (Hx : (exists mx ex, x = Finite mx ex /\ mx <= 0) \/ x = Infinity true).
      { unfold x, round_dyadic.
        set (n := fnum (mq * 7036874417766400) (eq + -46)).
        set (d := fden (eq + -46)).
        assert (Hn : n <= 0).
        { unfold n. rewrite fnum_pw. pose proof (pw_pos (eq + -46)). nia. }
        assert (Hd : 0 < d) by apply fden_pos.
        destruct (round_b64 n d) as [mx ex | s |] eqn:Ex.
        - left. exists mx, ex. split; [reflexivity |].
          apply round_b64_inv in Ex as [(_ & -> & _) | (_ & _ & -> & _)]; [lia |].
          unfold scaled_rne. apply rne_le_int.
          + rewrite fnum_pw. pose proof (pw_pos ex). nia.
          + pose proof (fden_pos ex). nia.
        - right. unfold round_b64 in Ex.
          destruct (Z.eqb_spec n 0) as [| Hn0]; [discriminate |].
          destruct ((0 <=? round_exponent n d) && _); [| discriminate].
          injection Ex as <-. destruct (Z.ltb_spec n 0); [reflexivity | lia].
        - exfalso. eapply round_b64_not_nan; eassumption. }
      rewrite literal_100.
      destruct Hx as [(mx & ex & -> & Hmx) | ->]; [| vm_compute; reflexivity].
      assert (E1 : flt (Finite mx ex) (Finite 7036874417766400 (-46)) = true).
      { apply flt_finite. rewrite fnum_pw.
        change (fnum 7036874417766400 (-46)) with 7036874417766400.
        change (fden (-46)) with 70368744177664.
        pose proof (pw_pos ex). pose proof (fden_pos ex).
        assert (mx * pw ex <= 0) by (apply Z.mul_nonpos_nonneg; lia). nia. }
      assert (E2 : flt (Finite 0 0) (Finite mx ex) = false).
      { destruct (flt (Finite 0 0) (Finite mx ex)) eqn:E; [| reflexivity].
        apply flt_finite in E. change (fnum 0 0) with 0 in E.
        change (fden 0) with 1 in E. rewrite fnum_pw in E.
        pose proof (pw_pos ex). assert (mx * pw ex <= 0) by (apply Z.mul_nonpos_nonneg; lia). lia. }
      unfold fmin. rewrite E1. unfold fmax, fgt. rewrite E2.
      vm_compute. reflexivity.
  - unfold _calculate_progress_percentage in H.
    destruct (Z.leb_spec (MOCK_TOTAL_APPLICATIONS config) 0); [| lia].
    injection H as <-. repeat split; vm_compute; congruence.
Qed.


Lemma progress_percentage_bounds_witness :
  fle (Finite 0 0) (Finite 4925812092436480 (-46)) = true /\
  fle (Finite 4925812092436480 (-46)) (literal 100 1) = true /\
  (MOCK_TOTAL_APPLICATIONS default_config <= 1500 ->
   Finite 4925812092436480 (-46) = Finite 0 0).
Proof.
  apply (progress_percentage_bounds default_config 1500).
  vm_compute. reflexivity.
Defined.

(** ** The dates of the main computation *)

(** The weekend loop moves a Saturday by two days, a Sunday by one, and
    leaves a weekday alone. *)
Lemma skip_weekend_shift d d' :
  skip_weekend 2 d = Ok d' ->
  d' = d + (if weekday d =? 5 then 2 else if weekday d =? 6 then 1 else 0).
Proof.
  cbn [skip_weekend].
  destruct (Z.leb_spec 5 (weekday d)) as [Hw | Hw].
  - destruct (add_days d 1) as [d1 |] eqn:E1; [| intros [=]]. cbn [rbind].
    apply add_days_inv in E1 as (-> & _ & _).
    destruct (Z.leb_spec 5 (weekday (d + 1))) as [Hw1 | Hw1].
    + destruct (add_days (d + 1) 1) as [d2 |] eqn:E2; [| intros [=]]. cbn [rbind].
      apply add_days_inv in E2 as (-> & _ & _).
      assert (weekday (d + 1 + 1) < 5) by (weekday_lia).
      destruct (Z.leb_spec 5 (weekday (d + 1 + 1))); [lia |].
      intros [= <-].
      assert (weekday d = 5) by (weekday_lia).
      destruct (Z.eqb_spec (weekday d) 5); lia.
    + intros [= <-].
      assert (weekday d = 6) by (weekday_lia).
      destruct (Z.eqb_spec (weekday d) 5); [lia |].
      destruct (Z.eqb_spec (weekday d) 6); lia.
  - intros [= <-].
    destruct (Z.eqb_spec (weekday d) 5); [lia |].
    destruct (Z.eqb_spec (weekday d) 6); lia.
Qed.

Lemma skip_weekend_mono d1 d2 a b :
  d1 <= d2 -> skip_weekend 2 d1 = Ok a -> skip_weekend 2 d2 = Ok b -> a <= b.
Proof.
  intros Hd Ha Hb.
  apply skip_weekend_shift in Ha. apply skip_weekend_shift in Hb.
  subst a b.
  destruct (Z.eqb_spec (weekday d1) 5); destruct (Z.eqb_spec (weekday d1) 6);
  destruct (Z.eqb_spec (weekday d2) 5); destruct (Z.eqb_spec (weekday d2) 6);
    weekday_lia.
Qed.

(** X2.  On the main path (no fallback), for a position >= 0 and a rate > 0:
    the approval date is the day [days_remaining] days from today, moved by at
    most two days (over a weekend); the processing date is a weekday, not
    before today and not after the approval date. *)
Theorem main_path_dates config today position rate sub :
  0 <= position -> 0 < rate ->
  is_fallback (calculate_eta config today position rate sub) = None ->
  let r := calculate_eta config today position rate sub in
  today + days_remaining r <= estimated_approval_date r
    <= today + days_remaining r + 2 /\
  weekday (estimated_processing_date r) < 5 /\
  today <= estimated_processing_date r <= estimated_approval_date r.
Proof.
  intros Hp Hr H r. subst r.
  apply calculate_eta_main in H.
  destruct (eta_body_inv _ _ _ _ _ _ H)
    as (days & approval & progress & processing & D & A & _ & P & R).
  rewrite R. cbn. clear R H.
  apply calculate_days_inv in D as (b & f & t & B & ->).
  apply days_breakdown_iff in B; [| assumption].
  destruct (days_spec_mono rate position position b f t Hr ltac:(lia) B)
    as (b1 & f1 & t1 & S1 & Hb & Hf).
  assert (Heq : (b1, f1, t1) = (b, f, t)).
  { apply (days_breakdown_iff config) in S1; [| assumption].
    apply (days_breakdown_iff config) in B; [| assumption]. congruence. }
  injection Heq as -> -> ->.
  assert (Ht : t = b + f) by (destruct B as (? & ? & ? & ? & ? & ? & _ & _ & _ & _ & _ & ->); reflexivity).
  rewrite (processing_date_spec config today position rate b f t Hr B) in P.
  unfold _calculate_approval_date in A.
  destruct (add_days today (Z.max 1 t)) as [da |] eqn:Ea; cbn [rbind] in A; [| discriminate].
  destruct (add_days today b) as [dp |] eqn:Ep; cbn [rbind] in P; [| discriminate].
  apply add_days_inv in Ea as (-> & _ & _).
  apply add_days_inv in Ep as (-> & _ & _).
  pose proof (skip_weekend_shift _ _ A) as Sa.
  pose proof (skip_weekend_shift _ _ P) as Sp.
  pose proof (skip_weekend_weekday _ _ P) as Wp.
  pose proof (skip_weekend_mono (today + b) (today + Z.max 1 t) processing approval
                ltac:(lia) P A) as Hm.
  repeat split; try assumption.
  - rewrite Sa. repeat destruct (_ =? _); lia.
  - rewrite Sa. repeat destruct (_ =? _); lia.
  - rewrite Sp. repeat destruct (_ =? _); lia.
Qed.

Lemma main_path_dates_witness :
  let r := calculate_eta default_config 739924 500 50 "2026-10-25" in
  739924 + days_remaining r <= estimated_approval_date r
    <= 739924 + days_remaining r + 2 /\
  weekday (estimated_processing_date r) < 5 /\
  739924 <= estimated_processing_date r <= estimated_approval_date r.
Proof.
  apply (main_path_dates default_config 739924 500 50 "2026-10-25");
    [lia | lia | vm_compute; reflexivity].
Defined.

(** ** The confidence level *)

Lemma confidence_position_mono p1 p2 r d :
  p1 <= p2 ->
  level_rank (_determine_confidence_level p2 r d)
    <= level_rank (_determine_confidence_level p1 r d).
Proof. intros H. tiers; try lia; vm_compute; discriminate. Qed.

Lemma confidence_rate_mono p r1 r2 d :
  r2 <= r1 ->
  level_rank (_determine_confidence_level p r2 d)
    <= level_rank (_determine_confidence_level p r1 d).
Proof. intros H. tiers; try lia; vm_compute; discriminate. Qed.

Lemma confidence_days_mono p r d1 d2 :
  d1 <= d2 ->
  level_rank (_determine_confidence_level p r d2)
    <= level_rank (_determine_confidence_level p r d1).
Proof. intros H. tiers; try lia; vm_compute; discriminate. Qed.

(** X3.  The confidence level is monotone, float rounding included: a
    position further ahead in the queue, a higher processing rate or fewer
    days remaining never lower it (Low < Medium < High). *)
Theorem confidence_level_monotone p1 p2 r1 r2 d1 d2 :
  p1 <= p2 -> r2 <= r1 -> d1 <= d2 ->
  level_rank (_determine_confidence_level p2 r2 d2)
    <= level_rank (_determine_confidence_level p1 r1 d1).
Proof.
  intros Hp Hr Hd.
  pose proof (confidence_position_mono p1 p2 r2 d2 Hp).
  pose proof (confidence_rate_mono p1 r1 r2 d2 Hr).
  pose proof (confidence_days_mono p1 r1 d1 d2 Hd).
  lia.
Qed.

Lemma confidence_level_monotone_witness :
  level_rank (_determine_confidence_level 5000 10 600)
    <= level_rank (_determine_confidence_level 500 50 12).
Proof. apply confidence_level_monotone; lia. Defined.

Lemma confidence_not_high p r d :
  1000 < p \/ r < 25 -> _determine_confidence_level p r d <> "High".
Proof. intros H. tiers; try lia; vm_compute; discriminate. Qed.

(** X4.  The level is one of the three labels; a position beyond 1000 or a
    rate below 25 never gives "High", a position within the first 100 or a
    rate of at least 100 never gives "Low". *)
Theorem confidence_level_extremes p r d :
  let level := _determine_confidence_level p r d in
  (level = "High" \/ level = "Medium" \/ level = "Low") /\
  (1000 < p \/ r < 25 -> level <> "High") /\
  (p <= 100 \/ 100 <= r -> level <> "Low").
Proof.
  intros level. subst level. split; [| split].
  - tiers; vm_compute; auto.
  - apply confidence_not_high.
  - intros H. tiers; try lia; vm_compute; discriminate.
Qed.


(** ** Fallback reports and non-positive rates *)

Lemma calculate_eta_fallback config today p r sub :
  is_fallback (calculate_eta config today p r sub) = Some true ->
  calculate_eta config today p r sub = _get_fallback_eta config today sub.
Proof.
  unfold calculate_eta, try_except.
  destruct (eta_body config today p r sub) as [res |] eqn:E; [| reflexivity].
  apply eta_body_inv in E as (? & ? & ? & ? & _ & _ & _ & _ & ->). discriminate.
Qed.

Lemma fallback_fields config today sub :
  let f := _get_fallback_eta config today sub in
  position_in_queue f = MOCK_POSITION config /\
  processing_rate f = DEFAULT_PROCESSING_RATE config /\
  confidence_level f = "Low" /\
  progress_percentage f = literal 50 1 /\
  submission_date f = sub.
Proof.
  unfold _get_fallback_eta, try_except.
  destruct (fallback_body config today sub) as [f |] eqn:E.
  - apply fallback_body_inv in E as (sd & _ & _ & _ & ->). cbn. repeat split.
  - cbn. repeat split.
Qed.

(** X5.  A fallback report does not depend on the position and the rate the
    caller passed: two fallback reports for the same day and submission date
    are equal, and they show the configured mock position and default rate
    with confidence "Low" and progress 50.0. *)
Theorem fallback_report_ignores_position_and_rate config today p1 r1 p2 r2 sub :
  is_fallback (calculate_eta config today p1 r1 sub) = Some true ->
  is_fallback (calculate_eta config today p2 r2 sub) = Some true ->
  let f := calculate_eta config today p1 r1 sub in
  f = calculate_eta config today p2 r2 sub /\
  position_in_queue f = MOCK_POSITION config /\
  processing_rate f = DEFAULT_PROCESSING_RATE config /\
  confidence_level f = "Low" /\
  progress_percentage f = literal 50 1.
Proof.
  intros H1 H2 f. subst f.
  rewrite (calculate_eta_fallback _ _ _ _ _ H1), (calculate_eta_fallback _ _ _ _ _ H2).
  destruct (fallback_fields config today sub) as (A & B & C & D & _).
  repeat split; assumption.
Qed.

Lemma fallback_report_ignores_position_and_rate_witness :
  let f := calculate_eta default_config 739924 4000000 1 "2026-10-26" in
  f = calculate_eta default_config 739924 8000000 2 "2026-10-26" /\
  position_in_queue f = MOCK_POSITION default_config /\
  processing_rate f = DEFAULT_PROCESSING_RATE default_config /\
  confidence_level f = "Low" /\
  progress_percentage f = literal 50 1.
Proof.
  apply (fallback_report_ignores_position_and_rate
           default_config 739924 4000000 1 8000000 2 "2026-10-26");
    vm_compute; reflexivity.
Defined.

Lemma effective_rate_nonpos config r :
  r <= 0 -> effective_rate config r = DEFAULT_PROCESSING_RATE config.
Proof. intros H. unfold effective_rate. destruct (Z.leb_spec r 0); [reflexivity | lia]. Qed.

(** X6.  A rate <= 0 whose decimal rendering the interpreter accepts
    (more than -10^4300) is replaced by the configured default, when that is
    positive and can be rendered as well (less than 10^4300), for the days
    and the dates, so the estimate is the one for the default rate; the
    report still shows the rate as passed, and the confidence level, computed
    from the rate as passed, is never "High". *)
Theorem nonpositive_rate_counts_as_default config today p r sub :
  - 10 ^ MAX_STR_DIGITS < r <= 0 ->
  0 < DEFAULT_PROCESSING_RATE config < 10 ^ MAX_STR_DIGITS ->
  let res := calculate_eta config today p r sub in
  let ref := calculate_eta config today p (DEFAULT_PROCESSING_RATE config) sub in
  is_fallback res = is_fallback ref /\
  days_remaining res = days_remaining ref /\
  estimated_approval_date res = estimated_approval_date ref /\
  estimated_processing_date res = estimated_processing_date ref /\
  progress_percentage res = progress_percentage ref /\
  (is_fallback res = None ->
   processing_rate res = r /\ confidence_level res <> "High").
Proof.
  intros Hr HD res ref. subst res ref.
  set (D := DEFAULT_PROCESSING_RATE config) in *.
  assert (Pr : format_int r = Ok tt) by (apply format_int_ok; lia).
  assert (PD : format_int D = Ok tt) by (apply format_int_ok; lia).
  assert (Edays : _calculate_days_remaining config p r
                  = _calculate_days_remaining config p D).
  { unfold _calculate_days_remaining, days_breakdown.
    destruct (Z.leb_spec r 0); [| lia]. destruct (Z.leb_spec D 0); [lia |].
    rewrite Pr. cbn [rbind].
    rewrite (effective_rate_nonpos config r ltac:(lia)),
            (effective_rate_pos config D ltac:(lia)).
    reflexivity. }
  assert (Eproc : _calculate_processing_date config today p r
                  = _calculate_processing_date config today p D).
  { unfold _calculate_processing_date.
    rewrite (effective_rate_nonpos config r ltac:(lia)),
            (effective_rate_pos config D ltac:(lia)).
    reflexivity. }
  assert (Fb : forall f : ETAResult,
             f = _get_fallback_eta config today sub ->
             is_fallback f = is_fallback f /\
             days_remaining f = days_remaining f /\
             estimated_approval_date f = estimated_approval_date f /\
             estimated_processing_date f = estimated_processing_date f /\
             progress_percentage f = progress_percentage f /\
             (is_fallback f = None ->
              processing_rate f = r /\ confidence_level f <> "High")).
  { intros f ->. repeat split; try reflexivity;
      destruct (fallback_is_fallback config today sub) as [F _]; congruence. }
  unfold calculate_eta, try_except, eta_body. rewrite Pr, PD, Edays, Eproc.
  destruct (format_int_cases p) as [[_ ->] | [_ ->]]; cbn [rbind];
    [| apply Fb; reflexivity].
  destruct (_calculate_days_remaining config p D) as [days |]; cbn [rbind];
    [| apply Fb; reflexivity].
  destruct (_calculate_approval_date today days) as [approval |]; cbn [rbind];
    [| apply Fb; reflexivity].
  destruct (_calculate_progress_percentage config p) as [progress |]; cbn [rbind];
    [| apply Fb; reflexivity].
  destruct (_calculate_processing_date config today p D) as [processing |]; cbn [rbind];
    [| apply Fb; reflexivity].
  cbn. repeat split.
  apply confidence_not_high. right. lia.
Qed.

Lemma nonpositive_rate_counts_as_default_witness :
  let res := calculate_eta default_config 739924 500 0 "2026-10-25" in
  let ref := calculate_eta default_config 739924 500 50 "2026-10-25" in
  is_fallback res = is_fallback ref /\
  days_remaining res = days_remaining ref /\
  estimated_approval_date res = estimated_approval_date ref /\
  estimated_processing_date res = estimated_processing_date ref /\
  progress_percentage res = progress_percentage ref /\
  (is_fallback res = None ->
   processing_rate res = 0 /\ confidence_level res <> "High").
Proof.
  apply (nonpositive_rate_counts_as_default default_config 739924 500 0 "2026-10-25").
  - pose proof max_str_digits_pos. lia.
  - change (DEFAULT_PROCESSING_RATE default_config) with 50.
    split; [lia |].
    apply Z.lt_le_trans with (10 ^ 2); [reflexivity |].
    apply Z.pow_le_mono_r; [reflexivity | discriminate].
Defined.

(** A rate the interpreter cannot render sends [calculate_eta] to the
    fallback, whatever the default rate. *)
Lemma unprintable_rate_falls_back config today p r sub :
  10 ^ MAX_STR_DIGITS <= Z.abs r ->
  is_fallback (calculate_eta config today p r sub) = Some true.
Proof.
  intros Hr. unfold calculate_eta, try_except, eta_body.
  rewrite (format_int_raises r Hr).
  destruct (format_int_cases p) as [[_ ->] | [_ ->]]; cbn [rbind];
    apply fallback_is_fallback.
Qed.

End ETAEstimatorMore.

Module PERMScraperMore.
Import Binary64 Text Re PyVal PERMScraper PERMScraperSpec PERMScraperFacts.

Lemma extract_body_inv config page cn sd el r :
  extract_body config page cn sd el = Ok (Some r) ->
  any_in ["approved"; "certified"] (lower page) = false /\
  any_in ["denied"; "rejected"] (lower page) = false /\
  exists x,
    search_patterns config page = Ok (derived_status (x_remaining_days x), x) /\
    r = {| position_in_queue :=
             PyInt (match x_position x with
                    | Some p => if p =? 0 then MOCK_POSITION config else p
                    | None => MOCK_POSITION config
                    end);
           total_applications := PyInt (x_total_applications x);
           last_processed_date := PyStr (default EmptyString (x_completion_date x));
           processing_rate := PyInt (x_processing_rate x);
           status := PyStr (derived_status (x_remaining_days x));
           completion_date := opt_str (x_completion_date x);
           remaining_days := opt_int (x_remaining_days x);
           confidence_level := Some (opt_int (x_confidence x));
           estimated_weeks := Some (opt_int (x_estimated_weeks x));
           case_number := cn;
           submission_date := sd;
           employer_letter := el |}.
Proof.
  unfold extract_body, classify_page.
  destruct (any_in ["approved"; "certified"] (lower page)); [discriminate |].
  destruct (any_in ["denied"; "rejected"] (lower page)); [discriminate |].
  destruct (search_patterns config page) as [[st x] |] eqn:E; cbn [rbind fst snd];
    [| discriminate].
  intros H. split; [reflexivity |]. split; [reflexivity |].
  assert (Hst : st = derived_status (x_remaining_days x)).
  { unfold search_patterns in E.
    repeat match type of E with
           | rbind ?m _ = _ => destruct m; cbn [rbind] in E; [| discriminate]
           end.
    injection E as <- <-. reflexivity. }
  subst st. exists x. split; [reflexivity |].
  destruct (_ || _); [| discriminate]. injection H as <-. reflexivity.
Qed.

Lemma derived_status_cases days :
  In (derived_status days)
     ["Pending Review"; "Completed"; "Final Review"; "In Processing"; "In Queue"].
Proof.
  unfold derived_status. destruct days as [d |]; [| cbn; auto].
  repeat destruct (_ <=? _); cbn; auto 6.
Qed.

(** X7.  A record extracted from the page text never reports an approval or
    a denial: it exists only for pages without the four status words, and
    its status is one of the five labels derived from the remaining days. *)
Theorem page_record_status_is_derived config page cn sd el r :
  _extract_status_from_results config page cn sd el = Some r ->
  any_in ["approved"; "certified"; "denied"; "rejected"] (lower page) = false /\
  (exists label,
     status r = PyStr label /\
     In label ["Pending Review"; "Completed"; "Final Review";
               "In Processing"; "In Queue"]) /\
  status r <> PyStr "Approved" /\ status r <> PyStr "Denied".
Proof.
  unfold _extract_status_from_results, try_except.
  destruct (extract_body config page cn sd el) as [[r' |] |] eqn:E;
    [| discriminate | discriminate].
  intros [= ->].
  apply extract_body_inv in E as (Ha & Hd & x & _ & ->). cbn [status].
  pose proof (derived_status_cases (x_remaining_days x)) as Hin.
  split; [| split; [| split]].
  - unfold any_in in *. cbn [existsb] in *.
    repeat match goal with
           | H : _ || _ = false |- _ => apply orb_false_elim in H as [? ?]
           end.
    repeat (apply orb_false_intro; [assumption |]). reflexivity.
  - eauto.
  - intros [= H]. rewrite H in Hin. cbn in Hin.
    repeat destruct Hin as [Hin | Hin]; try discriminate; contradiction.
  - intros [= H]. rewrite H in Hin. cbn in Hin.
    repeat destruct Hin as [Hin | Hin]; try discriminate; contradiction.
Qed.

Lemma page_record_status_is_derived_witness :
  exists r,
    _extract_status_from_results default_config
      "Your Queue Position: 8,585  Remaining: 19 days" "A-1" "2026-10-25" "G"
      = Some r /\
    status r = PyStr "Final Review" /\
    status r <> PyStr "Approved".
Proof.
  eexists. split; [vm_compute; reflexivity |].
  split; [reflexivity |].
  eapply (page_record_status_is_derived default_config
            "Your Queue Position: 8,585  Remaining: 19 days" "A-1" "2026-10-25" "G").
  vm_compute. reflexivity.
Defined.

Lemma json_body_inv config py_repr v cn sd el r :
  json_body config py_repr v cn sd el = Ok (Some r) ->
  exists d position,
    v = PyDict d /\
    position_in_queue r = py_or position (PyInt (MOCK_POSITION config)) /\
    case_number r = cn /\ submission_date r = sd /\ employer_letter r = el.
Proof.
  unfold json_body. destruct v; cbn [as_dict rbind]; try discriminate.
  cbv zeta. destruct (_ || _); [| discriminate].
  intros [= <-]. cbn. eauto 10.
Qed.

Lemma py_or_truthy a n : n <> 0 -> truthy (py_or a (PyInt n)) = true.
Proof.
  intros Hn. unfold py_or. destruct (truthy a) eqn:E; [exact E |].
  cbn. destruct (Z.eqb_spec n 0); [contradiction | reflexivity].
Qed.

(** X8.  Whatever the response, a record returned by [_parse_api_response]
    (from the JSON or from the page text) carries the caller's case number,
    submission date and employer letter, and its queue position is never
    falsy as long as the configured mock position is not 0. *)
Theorem parsed_record_has_position config py_repr response cn sd el r :
  MOCK_POSITION config <> 0 ->
  _parse_api_response config py_repr response cn sd el = Some r ->
  truthy (position_in_queue r) = true /\
  case_number r = cn /\ submission_date r = sd /\ employer_letter r = el.
Proof.
  intros HM.
  assert (Page : _extract_status_from_results config (soup_text response) cn sd el
                 = Some r ->
                 truthy (position_in_queue r) = true /\
                 case_number r = cn /\ submission_date r = sd /\ employer_letter r = el).
  { unfold _extract_status_from_results, try_except.
    destruct (extract_body config (soup_text response) cn sd el) as [[r' |] |] eqn:E;
      [| discriminate | discriminate].
    intros [= ->]. apply extract_body_inv in E as (_ & _ & x & _ & ->). cbn.
    split; [| auto].
    destruct (x_position x) as [p |].
    - destruct (Z.eqb_spec p 0) as [-> | Hp].
      + destruct (Z.eqb_spec (MOCK_POSITION config) 0); [contradiction | reflexivity].
      + destruct (Z.eqb_spec p 0); [contradiction | reflexivity].
    - destruct (Z.eqb_spec (MOCK_POSITION config) 0); [contradiction | reflexivity]. }
  unfold _parse_api_response.
  destruct (json response) as [v |]; [| exact Page].
  destruct (json_body config py_repr v cn sd el) as [[r' |] | e] eqn:E.
  - intros [= ->]. apply json_body_inv in E as (d & position & _ & -> & Hc & Hs & He).
    split; [apply py_or_truthy; assumption | auto].
  - discriminate.
  - destruct e; try discriminate. exact Page.
Qed.

Lemma parsed_record_has_position_witness :
  let response := {| status_code := 200;
                     json := Some (PyDict {[ "rate" := PyInt 443 ]});
                     text := EmptyString; soup_text := EmptyString |} in
  exists r,
    _parse_api_response default_config (fun _ => EmptyString) response
      "A-1" "2026-10-25" "G" = Some r /\
    truthy (position_in_queue r) = true /\
    case_number r = "A-1" /\ submission_date r = "2026-10-25" /\
    employer_letter r = "G".
Proof.
  intros response. eexists. split; [vm_compute; reflexivity |].
  eapply (parsed_record_has_position default_config (fun _ => EmptyString) response
            "A-1" "2026-10-25" "G").
  - vm_compute. discriminate.
  - vm_compute. reflexivity.
Defined.

End PERMScraperMore.

Module CaseStatusAPIMore.
Import Binary64 Text PyVal CaseStatusAPI CaseStatusAPISpec CaseStatusAPIOutcomes
       CaseStatusAPIFacts TextFacts.

Section MoreRuns.
Variable config : Config.
Variable server : nat -> result Response.
Variable uniform : nat -> pyfloat.
Variable now : string.

(** One round whose request is not answered with 401: it never calls
    [again] and never asks for a token. *)
Lemma attempt_round_shape again cn attempt st :
  (forall response,
     server (requests_made st) = Ok response -> status_code response <> 401) ->
  (exists v,
     attempt_round config server uniform now again cn attempt st =
       (Return v,
        {| requests_made := S (requests_made st);
           draws_made := draws_made st;
           access_token := access_token st;
           trace := trace st ++ [StatusRequest (access_token st)] |}))
  \/
  (attempt < retries config - 1 /\
   attempt_round config server uniform now again cn attempt st =
     (Continue,
      {| requests_made := S (requests_made st);
         draws_made := S (draws_made st);
         access_token := access_token st;
         trace := (trace st ++ [StatusRequest (access_token st)])
                  ++ [Sleep attempt (uniform (draws_made st))
                        (wait_time attempt (uniform (draws_made st)))] |})).
Proof.
  intros H401.
  unfold attempt_round, bind, get_token, request, retry_or_give_up, backoff, ret.
  destruct (server (requests_made st)) as [response | e] eqn:Hs.
  - specialize (H401 response eq_refl).
    destruct (Z.eqb_spec (status_code response) 200).
    { destruct (json response); left; eauto. }
    destruct (Z.eqb_spec (status_code response) 401); [contradiction |].
    destruct (Z.eqb_spec (status_code response) 404); [left; eauto |].
    destruct (Z.eqb_spec (status_code response) 503).
    + destruct (Z.ltb_spec attempt (retries config - 1)); [right | left]; eauto.
    + destruct (Z.ltb_spec attempt (retries config - 1)); [right | left]; eauto.
  - destruct (Z.ltb_spec attempt (retries config - 1)); [right | left]; eauto.
Qed.

Lemma state_eta (st : State) :
  st = {| requests_made := requests_made st + 0;
          draws_made := draws_made st + Nat.pred 0;
          access_token := access_token st;
          trace := trace st ++ [] |}.
Proof. destruct st. cbn. rewrite !Nat.add_0_r, app_nil_r. reflexivity. Qed.

Lemma attempts_loop_shape again cn :
  (forall i response, server i = Ok response -> status_code response <> 401) ->
  forall k a st,
    (a + k)%nat = Z.to_nat (SCRAPER_RETRIES config) ->
    exists v j,
      (j <= k)%nat /\ ((1 <= k)%nat -> (1 <= j)%nat) /\
      attempts_loop config server uniform now again cn (map Z.of_nat (seq a k)) st =
        (Ok v,
         {| requests_made := (requests_made st + j)%nat;
            draws_made := (draws_made st + Nat.pred j)%nat;
            access_token := access_token st;
            trace := trace st
                     ++ rounds_503 (access_token st) uniform a (draws_made st) j |}).
Proof.
  intros H401. induction k as [| k IH]; intros a st Ha.
  - exists None, 0%nat. split; [lia |]. split; [lia |].
    cbn [seq map attempts_loop rounds_503]. unfold ret. f_equal. apply state_eta.
  - cbn [seq map attempts_loop]. unfold bind.
    destruct (attempt_round_shape again cn (Z.of_nat a) st
                (fun response => H401 (requests_made st) response))
      as [(v & ->) | (Hlt & ->)].
    + exists v, 1%nat. split; [lia |]. split; [lia |].
      unfold ret. cbn [rounds_503 Nat.pred]. rewrite Nat.add_1_r, Nat.add_0_r.
      reflexivity.
    + unfold retries in Hlt.
      destruct (IH (S a)
                  {| requests_made := S (requests_made st);
                     draws_made := S (draws_made st);
                     access_token := access_token st;
                     trace := (trace st ++ [StatusRequest (access_token st)])
                              ++ [Sleep (Z.of_nat a) (uniform (draws_made st))
                     (wait_time (Z.of_nat a) (uniform (draws_made st)))] |}
                  ltac:(lia))
        as (v & j & Hj & Hj1 & ->).
      cbn [requests_made draws_made access_token trace].
      destruct j as [| j]; [lia |].
      exists v, (S (S j)). split; [lia |]. split; [lia |].
      rewrite <- !app_assoc.
      change (rounds_503 (access_token st) uniform a (draws_made st) (S (S j)))
        with (StatusRequest (access_token st)
                :: Sleep (Z.of_nat a) (uniform (draws_made st))
                     (wait_time (Z.of_nat a) (uniform (draws_made st)))
                :: rounds_503 (access_token st) uniform (S a) (S (draws_made st)) (S j)).
      cbn [app Nat.pred].
      replace (S (requests_made st) + S j)%nat
        with (requests_made st + S (S j))%nat by lia.
      replace (S (draws_made st) + j)%nat with (draws_made st + S j)%nat by lia.
      reflexivity.
Qed.

(** X9.  Against a server that never answers 401, [_get_status_from_api]
    returns without raising after at most [SCRAPER_RETRIES] requests (at
    least one when the retry count is positive), all with the token it
    started with; it sleeps between two consecutive requests and nowhere
    else, requests no token and leaves the stored token alone. *)
Theorem without_401_at_most_retries_requests depth cn token :
  (forall i response, server i = Ok response -> status_code response <> 401) ->
  let n := Z.to_nat (SCRAPER_RETRIES config) in
  let outcome :=
    _get_status_from_api config server uniform now (S depth) cn (initial token) in
  exists v j,
    fst outcome = Ok v /\
    (j <= n)%nat /\ ((1 <= n)%nat -> (1 <= j)%nat) /\
    requests_made (snd outcome) = j /\
    trace (snd outcome) = rounds_503 token uniform 0 0 j /\
    length (List.filter is_status_request (trace (snd outcome))) = j /\
    List.filter is_token_request (trace (snd outcome)) = [] /\
    sleeps (trace (snd outcome)) = map Z.of_nat (seq 0 (Nat.pred j)) /\
    access_token (snd outcome) = token.
Proof.
  intros H401 n outcome. subst outcome.
  cbn [_get_status_from_api]. rewrite py_range_retries. fold n.
  destruct (attempts_loop_shape
              (_get_status_from_api config server uniform now depth cn) cn H401
              n 0%nat (initial token) ltac:(reflexivity))
    as (v & j & Hj & Hj1 & ->).
  cbn [fst snd initial requests_made draws_made access_token trace app].
  exists v, j.
  destruct (rounds_503_counts uniform token 0 0 j) as (C1 & C2 & C3).
  repeat split; assumption.
Qed.

(** One round whose request fails in a way the strategy retries. *)
Lemma attempt_round_transient again cn attempt st :
  transient_failure (server (requests_made st)) = true ->
  attempt_round config server uniform now again cn attempt st =
    if attempt <? retries config - 1
    then (Continue,
          {| requests_made := S (requests_made st);
             draws_made := S (draws_made st);
             access_token := access_token st;
             trace := (trace st ++ [StatusRequest (access_token st)])
                      ++ [Sleep attempt (uniform (draws_made st))
                        (wait_time attempt (uniform (draws_made st)))] |})
    else (Return None,
          {| requests_made := S (requests_made st);
             draws_made := draws_made st;
             access_token := access_token st;
             trace := trace st ++ [StatusRequest (access_token st)] |}).
Proof.
  unfold transient_failure.
  unfold attempt_round, bind, get_token, request, retry_or_give_up, backoff, ret.
  destruct (server (requests_made st)) as [response | e].
  - destruct (status_code response =? 200); [discriminate |].
    destruct (status_code response =? 401); [discriminate |].
    destruct (status_code response =? 404); [discriminate |].
    destruct (status_code response =? 503); [discriminate |].
    intros _. destruct (attempt <? retries config - 1); reflexivity.
  - intros _. destruct (attempt <? retries config - 1); reflexivity.
Qed.

Lemma attempts_loop_transient again cn :
  (forall i, transient_failure (server i) = true) ->
  forall k a st,
    (a + S k)%nat = Z.to_nat (SCRAPER_RETRIES config) ->
    attempts_loop config server uniform now again cn (map Z.of_nat (seq a (S k))) st =
      (Ok None,
       {| requests_made := (requests_made st + S k)%nat;
          draws_made := (draws_made st + k)%nat;
          access_token := access_token st;
          trace := trace st
                   ++ rounds_503 (access_token st) uniform a (draws_made st) (S k) |}).
Proof.
  intros Hall. induction k as [| k IH]; intros a st Ha.
  - cbn [seq map attempts_loop]. unfold bind.
    rewrite (attempt_round_transient again cn (Z.of_nat a) st (Hall _)).
    destruct (Z.ltb_spec (Z.of_nat a) (retries config - 1)) as [Hlt | Hge];
      [unfold retries in Hlt; lia |].
    unfold ret. cbn [rounds_503].
    rewrite Nat.add_1_r, Nat.add_0_r. reflexivity.
  - change (seq a (S (S k))) with (a :: seq (S a) (S k)).
    cbn [map attempts_loop]. unfold bind.
    rewrite (attempt_round_transient again cn (Z.of_nat a) st (Hall _)).
    destruct (Z.ltb_spec (Z.of_nat a) (retries config - 1)) as [Hlt | Hge];
      [| unfold retries in Hge; lia].
    rewrite IH by (cbn; lia). cbn [requests_made draws_made access_token trace].
    rewrite <- !app_assoc.
    change (rounds_503 (access_token st) uniform a (draws_made st) (S (S k)))
      with (StatusRequest (access_token st)
              :: Sleep (Z.of_nat a) (uniform (draws_made st))
                     (wait_time (Z.of_nat a) (uniform (draws_made st)))
              :: rounds_503 (access_token st) uniform (S a) (S (draws_made st)) (S k)).
    cbn [app].
    replace (requests_made st + S (S k))%nat with (S (requests_made st) + S k)%nat by lia.
    replace (draws_made st + S k)%nat with (S (draws_made st) + k)%nat by lia.
    reflexivity.
Qed.

(** X10.  When every request raises (the network is down) or is answered
    with a status other than 200, 401, 404 and 503, and the retry count is at
    least one, [_get_status_from_api] sends exactly [SCRAPER_RETRIES]
    requests, backs off after each but the last, and returns [None]: unlike
    a run of 503s, it produces no record. *)
Theorem failing_requests_exhaust_retries_without_record depth cn token :
  1 <= SCRAPER_RETRIES config ->
  (forall i, transient_failure (server i) = true) ->
  let n := Z.to_nat (SCRAPER_RETRIES config) in
  let outcome :=
    _get_status_from_api config server uniform now (S depth) cn (initial token) in
  fst outcome = Ok None /\
  requests_made (snd outcome) = n /\
  trace (snd outcome) = rounds_503 token uniform 0 0 n /\
  sleeps (trace (snd outcome)) = map Z.of_nat (seq 0 (Nat.pred n)) /\
  List.filter is_token_request (trace (snd outcome)) = [] /\
  access_token (snd outcome) = token.
Proof.
  intros Hr Hall n outcome. subst outcome.
  cbn [_get_status_from_api]. rewrite py_range_retries. fold n.
  destruct n as [| k] eqn:En; [lia |].
  rewrite (attempts_loop_transient _ cn Hall k 0 (initial token)) by (cbn; lia).
  cbn [fst snd initial requests_made draws_made access_token trace app].
  destruct (rounds_503_counts uniform token 0 0 (S k)) as (C1 & C2 & C3).
  repeat split; assumption.
Qed.

(** X11.  With a retry count of at least one, a first answer of 200 or 404
    settles the call after that one request, without any sleep: 404 gives the
    not-found record; 200 gives what the JSON parser makes of the body (no
    record at all when it rejects it, the remaining attempts are not used)
    or, when the body is not JSON, the record of the text parser. *)
Theorem first_answer_200_or_404_is_final depth cn st response :
  1 <= SCRAPER_RETRIES config ->
  server (requests_made st) = Ok response ->
  status_code response = 200 \/ status_code response = 404 ->
  _get_status_from_api config server uniform now (S depth) cn st =
    (Ok (if status_code response =? 404
         then Some (_create_not_found_response now cn)
         else match json response with
              | Some data => _parse_api_response data cn
              | None => _parse_text_response now (text response) cn
              end),
     {| requests_made := S (requests_made st);
        draws_made := draws_made st;
        access_token := access_token st;
        trace := trace st ++ [StatusRequest (access_token st)] |}).
Proof.
  intros Hr Hs Hc.
  assert (Hrange : exists rest, py_range (retries config) = 0 :: rest).
  { rewrite py_range_retries.
    destruct (Z.to_nat (SCRAPER_RETRIES config)) as [| k] eqn:E; [lia |].
    cbn [seq map]. eauto. }
  destruct Hrange as (rest & Hrange).
  cbn [_get_status_from_api]. rewrite Hrange. cbn [attempts_loop].
  unfold bind, attempt_round, bind, get_token, request, ret. rewrite Hs.
  destruct Hc as [Hc | Hc]; rewrite Hc.
  - change (200 =? 200) with true. change (200 =? 404) with false. cbv iota.
    destruct (json response); reflexivity.
  - reflexivity.
Qed.

End MoreRuns.

Lemma without_401_at_most_retries_requests_witness :
  let outcome :=
    _get_status_from_api default_config
      (scripted [status_only 503; status_only 404]) (fun _ => Finite 0 0)
      "2026-11-04" 1 "WAC1234567890" (initial (PyStr "t0")) in
  exists v j,
    fst outcome = Ok v /\
    (j <= 3)%nat /\ ((1 <= 3)%nat -> (1 <= j)%nat) /\
    requests_made (snd outcome) = j /\
    trace (snd outcome) = rounds_503 (PyStr "t0") (fun _ => Finite 0 0) 0 0 j /\
    length (List.filter is_status_request (trace (snd outcome))) = j /\
    List.filter is_token_request (trace (snd outcome)) = [] /\
    sleeps (trace (snd outcome)) = map Z.of_nat (seq 0 (Nat.pred j)) /\
    access_token (snd outcome) = PyStr "t0".
Proof.
  apply (without_401_at_most_retries_requests default_config
           (scripted [status_only 503; status_only 404]) (fun _ => Finite 0 0)
           "2026-11-04" 0 "WAC1234567890" (PyStr "t0")).
  intros [| [| i]] response H; cbn in H.
  - injection H as <-. cbn. discriminate.
  - injection H as <-. cbn. discriminate.
  - destruct i; discriminate H.
Defined.


Lemma failing_requests_exhaust_retries_without_record_witness :
  let outcome :=
    _get_status_from_api default_config (fun _ => Raise ConnectionError)
      (fun _ => Finite 0 0) "2026-11-04" 1 "WAC1234567890" (initial (PyStr "t0")) in
  fst outcome = Ok None /\
  requests_made (snd outcome) = 3%nat /\
  trace (snd outcome) = rounds_503 (PyStr "t0") (fun _ => Finite 0 0) 0 0 3 /\
  sleeps (trace (snd outcome)) = map Z.of_nat (seq 0 (Nat.pred 3)) /\
  List.filter is_token_request (trace (snd outcome)) = [] /\
  access_token (snd outcome) = PyStr "t0".
Proof.
  apply (failing_requests_exhaust_retries_without_record default_config
           (fun _ => Raise ConnectionError) (fun _ => Finite 0 0)
           "2026-11-04" 0 "WAC1234567890" (PyStr "t0")).
  - vm_compute. discriminate.
  - intros i. reflexivity.
Defined.

Lemma first_answer_200_or_404_is_final_witness :
  _get_status_from_api default_config (scripted [status_only 404])
      (fun _ => Finite 0 0) "2026-11-04" 1 "WAC1234567890" (initial (PyStr "t0"))
  = (Ok (Some (_create_not_found_response "2026-11-04" "WAC1234567890")),
     {| requests_made := 1; draws_made := 0; access_token := PyStr "t0";
        trace := [StatusRequest (PyStr "t0")] |}).
Proof.
  apply (first_answer_200_or_404_is_final default_config
           (scripted [status_only 404]) (fun _ => Finite 0 0)
           "2026-11-04" 0 "WAC1234567890" (initial (PyStr "t0"))
           {| status_code := 404; json := None;
              text := EmptyString; soup_text := EmptyString |}).
  - vm_compute. discriminate.
  - reflexivity.
  - right. reflexivity.
Defined.

(** ** The two parsers of the strategy *)

Lemma form_mapping_values prefix v :
  form_mapping !! prefix = Some v -> v = "I-140".
Proof.
  intros H. apply elem_of_list_to_map_2 in H.
  repeat (apply elem_of_cons in H as [[= _ <-] | H]; [reflexivity |]).
  apply elem_of_nil in H. contradiction.
Qed.

Lemma extract_form_type_cases cn :
  _extract_form_type cn = "Unknown" \/ _extract_form_type cn = "I-140" \/
  (_extract_form_type cn = substring 0 3 cn /\
   String.length (substring 0 3 cn) = 3%nat).
Proof.
  unfold _extract_form_type.
  destruct (Nat.leb_spec 3 (String.length cn)) as [Hlen | Hlen]; [| auto].
  destruct (form_mapping !! substring 0 3 cn) as [v |] eqn:E; cbn [default].
  - right. left. eapply form_mapping_values. eassumption.
  - right. right. split; [reflexivity |]. rewrite length_substring_0. lia.
Qed.

Lemma extract_form_type_nonempty cn : _extract_form_type cn <> EmptyString.
Proof.
  destruct (extract_form_type_cases cn) as [-> | [-> | [-> H]]]; try discriminate.
  intros E. rewrite E in H. discriminate.
Qed.

(** X12.  The JSON parser of the strategy rejects a body only for its
    shape: it returns no record exactly when the JSON is not an object, or
    when the form type it supplies is a list or an object (which the case-type
    table cannot look up).  A record it returns keeps the parsed JSON, and
    its form type and office are never empty. *)
Theorem api_record_iff_well_shaped data cn :
  (_parse_api_response data cn = None <->
   match data with
   | PyDict d =>
       hashable (py_or (py_or (dict_get d "formType") (dict_get d "form"))
                       (PyStr (_extract_form_type cn))) = false
   | _ => True
   end) /\
  (forall r,
     _parse_api_response data cn = Some r ->
     api_response r = Some data /\ case_number r = cn /\
     truthy (form_type r) = true /\ truthy (office r) = true).
Proof.
  unfold _parse_api_response, try_except, parse_body.
  destruct data as [| b | n | f | s | l | d]; cbn [as_dict rbind];
    try (split; [split; auto | intros r; discriminate]).
  cbv zeta.
  set (ft := py_or (py_or (dict_get d "formType") (dict_get d "form"))
                   (PyStr (_extract_form_type cn))).
  assert (Hft : truthy ft = true).
  { unfold ft, py_or.
    destruct (truthy (dict_get d "formType")) eqn:E1; [rewrite E1; exact E1 |].
    destruct (truthy (dict_get d "form")) eqn:E2; [exact E2 |].
    cbn. destruct (String.eqb_spec (_extract_form_type cn) EmptyString) as [E | E];
      [exfalso; eapply extract_form_type_nonempty; eassumption | reflexivity]. }
  assert (Hoff : truthy (py_or (py_or (dict_get d "office") (dict_get d "serviceCenter"))
                               (PyStr "USCIS Service Center")) = true).
  { unfold py_or.
    destruct (truthy (dict_get d "office")) eqn:E1; [rewrite E1; exact E1 |].
    destruct (truthy (dict_get d "serviceCenter")) eqn:E2; [exact E2 | reflexivity]. }
  unfold determine_case_type_of_value.
  destruct ft as [| b | n | f | s | l | d']; cbn [hashable rbind] in *;
    try (split; [split; [discriminate | discriminate]
                | intros r [= <-]; cbn; auto]);
    try (split; [split; [reflexivity | reflexivity] | intros r; discriminate]).
Qed.

Section TextParser.
Variable now : string.

Lemma first_status_line_cases lines :
  first_status_line lines = "Status not found" \/
  (In (first_status_line lines) (map strip lines) /\
   any_in ["received"; "approved"; "denied"; "pending"; "processing"]
          (lower (first_status_line lines)) = true).
Proof.
  induction lines as [| line rest IH]; [left; reflexivity |].
  cbn [first_status_line map].
  destruct (any_in _ (lower (strip line))) eqn:E.
  - right. split; [left; reflexivity | exact E].
  - destruct IH as [IH | [IH1 IH2]]; [left; exact IH | right].
    split; [right; exact IH1 | exact IH2].
Qed.

(** X13.  The text parser always returns a record.  Its status is
    "Status not found" or a line of the body, stripped, that mentions one of
    the five keywords in some letter case; its details are the body itself
    when that has at most 200 characters and otherwise 203 characters (the
    first 200 and an ellipsis); the body is kept whole as [raw_response]. *)
Theorem text_record_shape text_content cn :
  exists r s det,
    _parse_text_response now text_content cn = Some r /\
    status r = PyStr s /\
    (s = "Status not found" \/
     (In s (map strip (split_lines text_content)) /\
      any_in ["received"; "approved"; "denied"; "pending"; "processing"]
             (lower s) = true)) /\
    details r = PyStr det /\
    ((String.length text_content <= 200)%nat -> det = text_content) /\
    ((200 < String.length text_content)%nat ->
     String.length det = 203%nat /\ String.prefix (substring 0 200 text_content) det = true) /\
    raw_response r = Some text_content.
Proof.
  unfold _parse_text_response.
  eexists. eexists. eexists.
  split; [reflexivity |]. cbn [status details raw_response].
  split; [reflexivity |].
  split; [apply first_status_line_cases |].
  split; [reflexivity |].
  destruct (Nat.ltb_spec 200 (String.length text_content)) as [Hl | Hl].
  - split; [lia |]. split; [| reflexivity]. intros _. split.
    + rewrite length_append, length_substring_0. cbn [String.length]. lia.
    + apply prefix_append.
  - split; [reflexivity |]. split; [lia | reflexivity].
Qed.

End TextParser.

End CaseStatusAPIMore.

(** ** The prefix tables of the client and of the notifier *)

Module CaseNumberTables.
Import Text CaseStatusAPI CaseStatusAPIMore CaseNumberSpec TextFacts.

Lemma lookup_none_of_keys (l : list (string * string)) (key : string) :
  Forall (fun kv => fst kv <> key) l ->
  (list_to_map l : gmap string string) !! key = None.
Proof.
  intros H. apply not_elem_of_list_to_map_1.
  intros Hin. apply list_elem_of_fmap in Hin as ((k & v) & -> & Hin).
  rewrite Forall_forall in H. apply (H (k, v) Hin). reflexivity.
Qed.

(** A three-character prefix is no key of the case-type table. *)
Lemma case_mapping_prefix prefix :
  String.length prefix = 3%nat -> case_mapping !! prefix = None.
Proof.
  intros H. apply lookup_none_of_keys.
  repeat constructor; cbn [fst]; intros E; rewrite <- E in H; discriminate.
Qed.

Lemma known_prefix_dec prefix :
  String.length prefix = 3%nat ->
  (In prefix known_prefixes /\
   form_mapping !! prefix = Some "I-140" /\
   exists centre, UscisNotifier.service_center_mapping !! prefix = Some centre /\
                  centre <> "Unknown Service Center")
  \/
  (~ In prefix known_prefixes /\
   form_mapping !! prefix = None /\
   UscisNotifier.service_center_mapping !! prefix = None).
Proof.
  intros Hlen. unfold known_prefixes.
  destruct (string_dec prefix "YSC") as [-> | N1];
    [left; split; [cbn; auto | split; [reflexivity | eexists; split; [reflexivity | discriminate]]] |].
  destruct (string_dec prefix "WAC") as [-> | N2];
    [left; split; [cbn; auto | split; [reflexivity | eexists; split; [reflexivity | discriminate]]] |].
  destruct (string_dec prefix "LIN") as [-> | N3];
    [left; split; [cbn; auto | split; [reflexivity | eexists; split; [reflexivity | discriminate]]] |].
  destruct (string_dec prefix "SRC") as [-> | N4];
    [left; split; [cbn; auto | split; [reflexivity | eexists; split; [reflexivity | discriminate]]] |].
  destruct (string_dec prefix "MSC") as [-> | N5];
    [left; split; [cbn; auto 6 | split; [reflexivity | eexists; split; [reflexivity | discriminate]]] |].
  destruct (string_dec prefix "IOE") as [-> | N6];
    [left; split; [cbn; auto 7 | split; [reflexivity | eexists; split; [reflexivity | discriminate]]] |].
  right. split; [| split].
  - cbn. intros H. repeat destruct H as [H | H]; congruence.
  - apply lookup_none_of_keys.
    repeat constructor; cbn [fst]; try congruence.
    intros E. rewrite <- E in Hlen. discriminate.
  - apply lookup_none_of_keys. repeat constructor; cbn [fst]; congruence.
Qed.

(** X14.  The two prefix tables agree.  The form type read off a case
    number is "I-140" exactly when its first three characters are one of the
    six receipt prefixes, which is exactly when the notifier knows the
    service centre; then the case type is "Immigrant Petition for Alien
    Worker", and in every other case it is "Unknown Case Type".  The form
    type is never empty, and the two-character key "G-" of the form table
    is never looked up. *)
Theorem prefix_tables_agree case_number :
  let form_type := _extract_form_type case_number in
  let is_known :=
    (3 <= String.length case_number)%nat /\
    In (substring 0 3 case_number) known_prefixes in
  (form_type = "I-140" <-> is_known) /\
  (UscisNotifier._extract_service_center_from_case_number case_number
     <> "Unknown Service Center" <-> is_known) /\
  (is_known ->
   _determine_case_type form_type = "Immigrant Petition for Alien Worker") /\
  (~ is_known -> _determine_case_type form_type = "Unknown Case Type") /\
  form_type <> EmptyString /\
  ((3 <= String.length case_number)%nat -> substring 0 3 case_number <> "G-").
Proof.
  intros form_type is_known. subst form_type is_known.
  unfold _extract_form_type, UscisNotifier._extract_service_center_from_case_number.
  destruct (Nat.leb_spec 3 (String.length case_number)) as [Hlen | Hlen].
  - assert (H3 : String.length (substring 0 3 case_number) = 3%nat)
      by (rewrite length_substring_0; lia).
    assert (HG : substring 0 3 case_number <> "G-")
      by (intros E; rewrite E in H3; discriminate).
    destruct (known_prefix_dec _ H3)
      as [(Hin & -> & centre & -> & Hc) | (Hin & -> & ->)]; cbn [default].
    + repeat split; auto; try discriminate.
      intros H. exfalso. apply H. auto.
    + assert (Hne : substring 0 3 case_number <> "I-140")
        by (intros E; rewrite E in H3; discriminate).
      repeat split; try tauto; try congruence.
      * intros _. unfold _determine_case_type.
        rewrite case_mapping_prefix by assumption. reflexivity.
      * intros E. rewrite E in H3. discriminate.
  - repeat split; try discriminate; try lia; try tauto; try congruence.
Qed.

End CaseNumberTables.

(** ** The notification services *)

Module NotificationFacts.
Import Text TextOps TextSpec PyVal NotificationServices UscisSettings TextFacts.

Lemma clean_recipients_spec emails :
  Forall (fun p => has_char ","%char p = false) emails ->
  Forall (fun r => r <> EmptyString /\ strip r = r /\ has_char ","%char r = false)
         (clean_recipients emails).
Proof.
  unfold clean_recipients.
  induction 1 as [| email rest Hp _ IH]; [constructor |].
  cbn [List.filter].
  destruct (String.eqb_spec (strip email) EmptyString) as [E | E]; cbn [negb map];
    [exact IH |].
  constructor; [| exact IH].
  split; [exact E |]. split; [apply strip_idem | apply has_char_strip; exact Hp].
Qed.

(** X15.  A constructed e-mail service is complete: the sender address and
    password are truthy, there is at least one recipient, and every
    recipient is a non-empty piece of the configured string, free of commas
    and of surrounding white space (stripping it again changes nothing). *)
Theorem email_service_is_complete config service :
  EmailNotificationService config = Ok service ->
  truthy (sender_email service) = true /\
  truthy (sender_password service) = true /\
  recipient_emails service <> [] /\
  Forall (fun r => r <> EmptyString /\ strip r = r /\ has_char ","%char r = false)
         (recipient_emails service).
Proof.
  unfold EmailNotificationService.
  destruct (dict_get_default config "recipient_email" (PyStr EmptyString))
    as [| | | | s | |]; cbn [split_commas rbind]; try discriminate.
  cbv zeta.
  destruct (truthy (dict_get_default config "sender_email" (PyStr EmptyString)))
    eqn:E1; cbn [andb negb orb]; [| discriminate].
  destruct (truthy (dict_get_default config "sender_password" (PyStr EmptyString)))
    eqn:E2; cbn [andb negb orb]; [| discriminate].
  destruct (clean_recipients (str_split ","%char s)) as [| r rs] eqn:E3;
    [discriminate |].
  intros [= <-]. cbn [sender_email sender_password recipient_emails].
  split; [exact E1 |]. split; [exact E2 |]. split; [discriminate |].
  rewrite <- E3. apply clean_recipients_spec.
  apply str_split_aux_pieces. reflexivity.
Qed.

Lemma email_service_is_complete_witness :
  let config : gmap string pyval :=
    list_to_map [ ("sender_email", PyStr "bot@example.org");
                  ("sender_password", PyStr "secret");
                  ("recipient_email", PyStr " a@example.org, ,b@example.org ") ] in
  exists service,
    EmailNotificationService config = Ok service /\
    recipient_emails service = ["a@example.org"; "b@example.org"] /\
    Forall (fun r => r <> EmptyString /\ strip r = r /\ has_char ","%char r = false)
           (recipient_emails service).
Proof.
  intros config. eexists. split; [vm_compute; reflexivity |].
  split; [reflexivity |].
  eapply (email_service_is_complete config). vm_compute. reflexivity.
Defined.

Lemma truthy_str s : truthy (PyStr s) = true <-> s <> EmptyString.
Proof.
  cbn [truthy]. destruct (String.eqb_spec s EmptyString); cbn [negb]; split; intros; congruence.
Qed.

(** X16.  The detour of the USCIS tracker through [split] in its config and
    [join] in its main loses nothing: the dict handed to the factory holds
    the recipient string of the environment unchanged.  The factory then
    returns an e-mail service exactly when the sender and the password are
    non-empty and at least one recipient is non-blank, and its recipients
    are the cleaned pieces of that string. *)
Theorem uscis_email_service env :
  email_config env !! "recipient_email" = Some (PyStr (RECIPIENT_EMAIL env)) /\
  (forall service,
     get_notification_service "email" (email_config env) = Ok service <->
     EMAIL_USER env <> EmptyString /\ EMAIL_PASSWORD env <> EmptyString /\
     clean_recipients (str_split ","%char (RECIPIENT_EMAIL env)) <> [] /\
     service =
       Email {| smtp_server := PyStr (EMAIL_HOST env);
                smtp_port := PyInt (EMAIL_PORT env);
                sender_email := PyStr (EMAIL_USER env);
                sender_password := PyStr (EMAIL_PASSWORD env);
                recipient_emails :=
                  clean_recipients (str_split ","%char (RECIPIENT_EMAIL env)) |}).
Proof.
  assert (J : str_join "," (EMAIL_RECIPIENTS env) = RECIPIENT_EMAIL env).
  { unfold EMAIL_RECIPIENTS.
    destruct (String.eqb_spec (RECIPIENT_EMAIL env) EmptyString) as [-> | _];
      [reflexivity | apply (str_join_split ","%char)]. }
  assert (L : email_config env !! "recipient_email"
              = Some (PyStr (RECIPIENT_EMAIL env))).
  { unfold email_config. rewrite J. reflexivity. }
  split; [exact L |].
  intros service.
  unfold get_notification_service. change (String.eqb (lower "email") "email") with true.
  cbv iota. unfold EmailNotificationService, dict_get_default.
  rewrite L. cbv zeta.
  assert (L1 : email_config env !! "smtp_server" = Some (PyStr (EMAIL_HOST env)))
    by reflexivity.
  assert (L2 : email_config env !! "smtp_port" = Some (PyInt (EMAIL_PORT env)))
    by reflexivity.
  assert (L3 : email_config env !! "sender_email" = Some (PyStr (EMAIL_USER env)))
    by reflexivity.
  assert (L4 : email_config env !! "sender_password" = Some (PyStr (EMAIL_PASSWORD env)))
    by reflexivity.
  rewrite L1, L2, L3, L4. cbn [default from_option]. unfold id.
  cbn [split_commas rbind].
  destruct (truthy (PyStr (EMAIL_USER env))) eqn:E1; cbn [andb negb orb rbind].
  2:{ split; [discriminate |]. intros (H & _). apply truthy_str in H. congruence. }
  destruct (truthy (PyStr (EMAIL_PASSWORD env))) eqn:E2; cbn [andb negb orb rbind].
  2:{ split; [discriminate |]. intros (_ & H & _). apply truthy_str in H. congruence. }
  apply truthy_str in E1. apply truthy_str in E2.
  destruct (clean_recipients (str_split ","%char (RECIPIENT_EMAIL env))) as [| r rs].
  - cbn [rbind]. split; [discriminate |]. intros (_ & _ & H & _). contradiction.
  - cbn [rbind]. split.
    + intros [= <-]. repeat split; try assumption. discriminate.
    + intros (_ & _ & _ & ->). reflexivity.
Qed.

End NotificationFacts.

(** ** The calls of the PERM resolver *)

Module PERMScraperSessionFacts.
Import Text TextOps PyVal PERMScraper PERMScraperSession PERMScraperSessionSpec
       TextFacts.

Section CallFacts.
Variable config : Config.
Variable py_repr : pyval -> string.
Variable server : nat -> result Response.
Variable base_url : string.

Lemma discovered_some response cn sd el r :
  discovered_api_result config py_repr response cn sd el = Some r ->
  status_code response = 200 /\
  _parse_api_response config py_repr response cn sd el = Some r.
Proof.
  unfold discovered_api_result.
  destruct (Z.eqb_spec (status_code response) 200); [auto | discriminate].
Qed.

Lemma pred_length_snoc (sent : Sent) (c : Call) :
  Nat.pred (length (sent ++ [c])) = length sent.
Proof. rewrite length_app. cbn. lia. Qed.

Lemma attempt_spec method url data cn sd el ct sent :
  exists new,
    snd (attempt config py_repr server method url data cn sd el ct sent)
      = sent ++ new /\
    (1 <= length new <= round_cost (method, data))%nat /\
    Forall (fun c => call_url c = url) new /\
    (forall r,
       fst (fst (attempt config py_repr server method url data cn sd el ct sent))
         = Some r ->
       answered config py_repr server (sent ++ new) r cn sd el).
Proof.
  unfold attempt, call, round_cost. cbn [fst]. destruct method.
  - destruct (server (length sent)) as [response1 | e1] eqn:S1.
    2:{ exists [ApiCall POST url AsJson data ct]. cbn [fst snd]. shape. discriminate. }
    destruct (discovered_api_result config py_repr response1 cn sd el)
      as [r1 |] eqn:D1.
    { exists [ApiCall POST url AsJson data ct]. cbn [fst snd]. shape.
      intros r [= <-]. apply discovered_some in D1 as [H1 H2].
      exists response1. rewrite pred_length_snoc. auto. }
    destruct (server (length (sent ++ [ApiCall POST url AsJson data ct])))
      as [response2 | e2] eqn:S2.
    2:{ exists [ApiCall POST url AsJson data ct;
                ApiCall POST url AsForm data "application/x-www-form-urlencoded"].
        cbn [fst snd]. rewrite <- app_assoc. shape. discriminate. }
    destruct (discovered_api_result config py_repr response2 cn sd el)
      as [r2 |] eqn:D2.
    + exists [ApiCall POST url AsJson data ct;
              ApiCall POST url AsForm data "application/x-www-form-urlencoded"].
      cbn [fst snd]. rewrite <- app_assoc. shape.
      intros r [= <-]. apply discovered_some in D2 as [H1 H2].
      exists response2.
      change (sent ++ [ApiCall POST url AsJson data ct;
                       ApiCall POST url AsForm data
                         "application/x-www-form-urlencoded"])
        with (sent ++ [ApiCall POST url AsJson data ct]
                   ++ [ApiCall POST url AsForm data
                         "application/x-www-form-urlencoded"]).
      rewrite app_assoc, pred_length_snoc. auto.
    + exists [ApiCall POST url AsJson data ct;
              ApiCall POST url AsForm data "application/x-www-form-urlencoded"].
      cbn [fst snd]. rewrite <- app_assoc. shape. discriminate.
  - destruct (server (length sent)) as [response | e] eqn:S1.
    2:{ exists [ApiCall GET url AsParams data ct]. cbn [fst snd]. shape. discriminate. }
    exists [ApiCall GET url AsParams data ct]. cbn [fst snd]. shape.
    intros r D. apply discovered_some in D as [H1 H2].
    exists response. rewrite pred_length_snoc. auto.
Qed.

Lemma attempts_spec rounds url cn sd el :
  forall ct sent,
  exists new,
    snd (attempts config py_repr server rounds url cn sd el ct sent) = sent ++ new /\
    (length new <= list_sum (map round_cost rounds))%nat /\
    (rounds <> [] -> (1 <= length new)%nat) /\
    Forall (fun c => call_url c = url) new /\
    (forall r,
       fst (attempts config py_repr server rounds url cn sd el ct sent) = Some r ->
       answered config py_repr server (sent ++ new) r cn sd el).
Proof.
  induction rounds as [| [method data] rest IH]; intros ct sent.
  - exists []. cbn [attempts fst snd map list_sum length]. rewrite app_nil_r.
    split; [reflexivity |]. split; [lia |]. split; [congruence |].
    split; [constructor | discriminate].
  - cbn [attempts].
    destruct (attempt_spec method url data cn sd el ct sent)
      as (new1 & E1 & L1 & U1 & A1).
    destruct (attempt config py_repr server method url data cn sd el ct sent)
      as [[result ct'] sent'] eqn:EA.
    cbn [fst snd] in E1, A1. subst sent'.
    destruct result as [r |].
    + exists new1. cbn [fst snd].
      change (list_sum (map round_cost ((method, data) :: rest)))
        with (round_cost (method, data) + list_sum (map round_cost rest))%nat.
      split; [reflexivity |]. split; [lia |]. split; [lia |].
      split; [assumption |].
      intros r' [= <-]. apply A1. reflexivity.
    + destruct (IH ct' (sent ++ new1)) as (new2 & E2 & L2 & _ & U2 & A2).
      exists (new1 ++ new2). rewrite E2, <- app_assoc.
      change (list_sum (map round_cost ((method, data) :: rest)))
        with (round_cost (method, data) + list_sum (map round_cost rest))%nat.
      rewrite length_app.
      split; [reflexivity |]. split; [lia |]. split; [lia |].
      split; [apply Forall_app; split; assumption |].
      intros r Hr. rewrite app_assoc. apply A2. exact Hr.
Qed.

Lemma try_api_call_spec api_url cn sd el sent :
  exists new,
    snd (_try_api_call config py_repr server api_url cn sd el sent) = sent ++ new /\
    (1 <= length new <= 12)%nat /\
    Forall (fun c => call_url c = api_url) new /\
    (forall r,
       fst (_try_api_call config py_repr server api_url cn sd el sent) = Some r ->
       answered config py_repr server (sent ++ new) r cn sd el).
Proof.
  unfold _try_api_call.
  destruct (attempts_spec
              (flat_map (fun method => map (fun data => (method, data))
                                           (data_formats cn sd el)) [POST; GET])
              api_url cn sd el "application/json" sent)
    as (new & E & L & L1 & U & A).
  exists new. cbn in L.
  split; [exact E |]. split; [split; [apply L1; discriminate | exact L] |].
  split; assumption.
Qed.

(** X17.  One run of [_try_api_call] makes at least one and at most twelve
    calls, all of them to the given URL, whatever the server does; a record
    it returns was parsed from the answer to its last call, and that answer
    had status 200. *)
Theorem try_api_call_makes_at_most_twelve_calls api_url cn sd el sent :
  exists new,
    snd (_try_api_call config py_repr server api_url cn sd el sent) = sent ++ new /\
    (1 <= length new <= 12)%nat /\
    Forall (fun c => call_url c = api_url) new /\
    (forall r,
       fst (_try_api_call config py_repr server api_url cn sd el sent) = Some r ->
       answered config py_repr server (sent ++ new) r cn sd el).
Proof. apply try_api_call_spec. Qed.

Lemma attempt_unparsed method url data cn sd el ct sent :
  (forall i, exists response,
      server i = Ok response /\
      discovered_api_result config py_repr response cn sd el = None) ->
  attempt config py_repr server method url data cn sd el ct sent =
    match method with
    | POST => (None, json_content_type,
               sent ++ [ApiCall POST url AsJson data ct;
                        ApiCall POST url AsForm data form_content_type])
    | GET => (None, ct, sent ++ [ApiCall GET url AsParams data ct])
    end.
Proof.
  intros H. unfold attempt, call. destruct method.
  - destruct (H (length sent)) as (r1 & -> & ->).
    destruct (H (length (sent ++ [ApiCall POST url AsJson data ct])))
      as (r2 & -> & ->).
    rewrite <- app_assoc. reflexivity.
  - destruct (H (length sent)) as (r1 & -> & ->). reflexivity.
Qed.

Lemma attempt_down method url data cn sd el ct sent :
  (forall i, exists e, server i = Raise e) ->
  attempt config py_repr server method url data cn sd el ct sent =
    match method with
    | POST => (None, ct, sent ++ [ApiCall POST url AsJson data ct])
    | GET => (None, ct, sent ++ [ApiCall GET url AsParams data ct])
    end.
Proof.
  intros H. unfold attempt, call. destruct method;
    destruct (H (length sent)) as (e & ->); reflexivity.
Qed.

(** X18.  When every call is answered but no answer yields a record,
    [_try_api_call] returns [None] after exactly twelve calls: for each of
    the four data formats a JSON POST and a form-encoded POST, then one GET
    per format.  When every call raises it returns [None] after eight calls:
    the form-encoded POSTs are never reached. *)
Theorem try_api_call_without_record api_url cn sd el sent :
  ((forall i, exists response,
       server i = Ok response /\
       discovered_api_result config py_repr response cn sd el = None) ->
   _try_api_call config py_repr server api_url cn sd el sent =
     (None, sent ++ calls_without_record api_url (data_formats cn sd el))) /\
  ((forall i, exists e, server i = Raise e) ->
   _try_api_call config py_repr server api_url cn sd el sent =
     (None, sent ++ calls_when_down api_url (data_formats cn sd el))).
Proof.
  split; intros H; unfold _try_api_call; cbn [flat_map map data_formats app attempts].
  - rewrite !(attempt_unparsed _ _ _ _ _ _ _ _ H). cbv iota.
    repeat (rewrite !(attempt_unparsed _ _ _ _ _ _ _ _ H); cbv iota).
    rewrite <- !app_assoc. reflexivity.
  - repeat (rewrite !(attempt_down _ _ _ _ _ _ _ _ H); cbv iota).
    rewrite <- !app_assoc. reflexivity.
Qed.

Lemma attempt_consistent method url data cn sd el sent :
  (forall i, exists response, server i = Ok response) ->
  exists new,
    snd (attempt config py_repr server method url data cn sd el
           json_content_type sent) = sent ++ new /\
    Forall (fun c => consistent_call c = true) new /\
    (fst (fst (attempt config py_repr server method url data cn sd el
                 json_content_type sent)) = None ->
     snd (fst (attempt config py_repr server method url data cn sd el
                 json_content_type sent)) = json_content_type).
Proof.
  intros H. unfold attempt, call. destruct method.
  - destruct (H (length sent)) as (r1 & ->).
    destruct (discovered_api_result config py_repr r1 cn sd el).
    { eexists [_]. cbn [fst snd]. split; [reflexivity |].
      split; [repeat constructor | discriminate]. }
    destruct (H (length (sent ++ [ApiCall POST url AsJson data json_content_type])))
      as (r2 & ->).
    destruct (discovered_api_result config py_repr r2 cn sd el);
      (eexists [_; _]; cbn [fst snd]; rewrite <- app_assoc; split; [reflexivity |];
       split; [repeat constructor | try discriminate; reflexivity]).
  - destruct (H (length sent)) as (r1 & ->).
    eexists [_]. cbn [fst snd]. split; [reflexivity |].
    split; [repeat constructor | reflexivity].
Qed.

Lemma attempts_consistent rounds url cn sd el :
  (forall i, exists response, server i = Ok response) ->
  forall sent,
  exists new,
    snd (attempts config py_repr server rounds url cn sd el json_content_type sent)
      = sent ++ new /\
    Forall (fun c => consistent_call c = true) new.
Proof.
  intros H. induction rounds as [| [method data] rest IH]; intros sent.
  - exists []. cbn [attempts snd]. rewrite app_nil_r. split; [reflexivity | constructor].
  - cbn [attempts].
    destruct (attempt_consistent method url data cn sd el sent H)
      as (new1 & E1 & C1 & T1).
    destruct (attempt config py_repr server method url data cn sd el
                json_content_type sent) as [[result ct'] sent'] eqn:EA.
    cbn [fst snd] in E1, T1. subst sent'.
    destruct result as [r |].
    + exists new1. split; [reflexivity | assumption].
    + rewrite (T1 eq_refl).
      destruct (IH (sent ++ new1)) as (new2 & E2 & C2).
      exists (new1 ++ new2). rewrite E2, <- app_assoc.
      split; [reflexivity | apply Forall_app; split; assumption].
Qed.

Lemma attempts_step method data rest url cn sd el ct sent :
  attempts config py_repr server ((method, data) :: rest) url cn sd el ct sent =
    let '(result, ct', sent') :=
      attempt config py_repr server method url data cn sd el ct sent in
    match result with
    | Some r => (Some r, sent')
    | None => attempts config py_repr server rest url cn sd el ct' sent'
    end.
Proof. reflexivity. Qed.

Lemma attempt_first_call url data cn sd el ct sent :
  exists more,
    snd (attempt config py_repr server POST url data cn sd el ct sent)
      = sent ++ ApiCall POST url AsJson data ct :: more.
Proof.
  destruct (attempt_spec POST url data cn sd el ct sent) as (new & E & _ & _ & _).
  revert E. unfold attempt, call.
  destruct (server (length sent)) as [r1 | e1]; [| exists []; reflexivity].
  destruct (discovered_api_result config py_repr r1 cn sd el);
    [exists []; reflexivity |].
  destruct (server _) as [r2 | e2];
    [destruct (discovered_api_result config py_repr r2 cn sd el) |];
    intros _; eexists [_]; cbn [snd]; rewrite <- app_assoc; reflexivity.
Qed.

(** X19.  [_try_api_call] resets the [Content-Type] header only at the end
    of a round that raised nothing.  As long as no call raises, every call
    carries the header that matches its payload (form-encoded for [data=],
    JSON otherwise).  But if the form-encoded POST of the first round
    raises, the JSON POST of the next round is sent with the header
    [application/x-www-form-urlencoded]. *)
Theorem content_type_is_reset_only_without_exception api_url cn sd el sent :
  ((forall i, exists response, server i = Ok response) ->
   exists new,
     snd (_try_api_call config py_repr server api_url cn sd el sent) = sent ++ new /\
     Forall (fun c => consistent_call c = true) new) /\
  (forall response e,
     server (length sent) = Ok response ->
     discovered_api_result config py_repr response cn sd el = None ->
     server (S (length sent)) = Raise e ->
     exists rest,
       snd (_try_api_call config py_repr server api_url cn sd el sent) =
         sent ++ [ ApiCall POST api_url AsJson
                     [("case_number", cn); ("employer_letter", el)]
                     json_content_type;
                   ApiCall POST api_url AsForm
                     [("case_number", cn); ("employer_letter", el)]
                     form_content_type;
                   ApiCall POST api_url AsJson
                     [("caseNumber", cn); ("employerLetter", el)]
                     form_content_type ] ++ rest /\
       consistent_call (ApiCall POST api_url AsJson
                          [("caseNumber", cn); ("employerLetter", el)]
                          form_content_type) = false).
Proof.
  split.
  - intros H. unfold _try_api_call. apply attempts_consistent. exact H.
  - intros response e S0 D0 S1.
    unfold _try_api_call. cbn [flat_map map data_formats app].
    rewrite attempts_step.
    unfold attempt at 1. unfold call. rewrite S0, D0.
    rewrite length_app. cbn [length]. rewrite Nat.add_1_r, S1.
    cbv beta iota zeta.
    set (sent2 := (sent ++ _) ++ _).
    rewrite attempts_step.
    destruct (attempt_first_call api_url [("caseNumber", cn); ("employerLetter", el)]
                cn sd el "application/x-www-form-urlencoded" sent2)
      as (more & E1).
    destruct (attempt config py_repr server POST api_url
                [("caseNumber", cn); ("employerLetter", el)] cn sd el
                "application/x-www-form-urlencoded" sent2)
      as [[result ct'] sent3] eqn:EA.
    cbn [snd] in E1. subst sent3.
    destruct result as [r |].
    + exists more. cbn [snd]. unfold sent2. rewrite <- !app_assoc.
      split; reflexivity.
    + match goal with
      | |- context [attempts _ _ _ ?rs ?u _ _ _ ?ct ?st] =>
          destruct (attempts_spec rs u cn sd el ct st) as (new & E & _)
      end.
      exists (more ++ new). rewrite E.
      unfold sent2. rewrite <- !app_assoc. split; reflexivity.
Qed.

Lemma try_urls_spec urls cn sd el :
  forall sent,
  exists new,
    snd (try_urls config py_repr server urls cn sd el sent) = sent ++ new /\
    (length new <= 12 * length urls)%nat /\
    Forall (fun c => In (call_url c) urls) new /\
    (forall r,
       fst (try_urls config py_repr server urls cn sd el sent) = Some r ->
       answered config py_repr server (sent ++ new) r cn sd el).
Proof.
  induction urls as [| url rest IH]; intros sent.
  - exists []. cbn [try_urls fst snd length]. rewrite app_nil_r.
    split; [reflexivity |]. split; [lia |]. split; [constructor | discriminate].
  - cbn [try_urls].
    destruct (try_api_call_spec url cn sd el sent) as (new1 & E1 & L1 & U1 & A1).
    destruct (_try_api_call config py_repr server url cn sd el sent)
      as [result sent'] eqn:ET.
    cbn [fst snd] in E1, A1. subst sent'.
    assert (U1' : Forall (fun c => In (call_url c) (url :: rest)) new1).
    { eapply Forall_impl; [exact U1 |]. intros c ->. left. reflexivity. }
    destruct result as [r |].
    + exists new1. cbn [fst snd length].
      split; [reflexivity |]. split; [lia |]. split; [exact U1' |].
      intros r' [= <-]. apply A1. reflexivity.
    + destruct (IH (sent ++ new1)) as (new2 & E2 & L2 & U2 & A2).
      exists (new1 ++ new2). rewrite E2, <- app_assoc, length_app.
      cbn [length].
      split; [reflexivity |]. split; [lia |].
      split.
      * apply Forall_app. split; [exact U1' |].
        eapply Forall_impl; [exact U2 |]. intros c Hc. right. exact Hc.
      * intros r Hr. rewrite app_assoc. apply A2. exact Hr.
Qed.

(** X20.  Guessing endpoints is bounded.  [_analyze_network_requests] makes
    at most 132 calls, each to the base URL, stripped of trailing slashes,
    followed by one of the eleven patterns; [_call_api_endpoints] makes at
    most twelve calls per endpoint, each to the normalised URL of one of
    them.  Either returns a record only from an answer with status 200 to
    its last call. *)
Theorem guessed_endpoints_are_bounded endpoints cn sd el sent :
  (exists new,
     snd (_analyze_network_requests config py_repr server base_url cn sd el sent)
       = sent ++ new /\
     (length new <= 132)%nat /\
     Forall (fun c => exists pattern,
                 In pattern common_patterns /\
                 call_url c = rstrip_char "/"%char base_url +:+ pattern) new /\
     (forall r,
        fst (_analyze_network_requests config py_repr server base_url cn sd el sent)
          = Some r ->
        answered config py_repr server (sent ++ new) r cn sd el)) /\
  (exists new,
     snd (_call_api_endpoints config py_repr server base_url endpoints cn sd el sent)
       = sent ++ new /\
     (length new <= 12 * length endpoints)%nat /\
     Forall (fun c => exists endpoint,
                 In endpoint endpoints /\
                 call_url c = endpoint_url base_url endpoint) new /\
     (forall r,
        fst (_call_api_endpoints config py_repr server base_url endpoints cn sd el sent)
          = Some r ->
        answered config py_repr server (sent ++ new) r cn sd el)).
Proof.
  split.
  - unfold _analyze_network_requests.
    destruct (try_urls_spec
                (map (fun pattern => rstrip_char "/"%char base_url +:+ pattern)
                     common_patterns) cn sd el sent)
      as (new & E & L & U & A).
    exists new. split; [exact E |].
    split; [rewrite length_map in L; cbn in L; lia |].
    split; [| exact A].
    eapply Forall_impl; [exact U |]. intros c Hc.
    apply in_map_iff in Hc as (pattern & Hp & Hin). eauto.
  - unfold _call_api_endpoints.
    destruct (try_urls_spec (map (endpoint_url base_url) endpoints) cn sd el sent)
      as (new & E & L & U & A).
    exists new. split; [exact E |].
    split; [rewrite length_map in L; exact L |].
    split; [| exact A].
    eapply Forall_impl; [exact U |]. intros c Hc.
    apply in_map_iff in Hc as (endpoint & Hp & Hin). eauto.
Qed.

(** X22.  [_try_discovered_api] makes at most one call, to the URL of the
    discovered request, with POST exactly when its method upper-cases to
    "POST"; it makes none when the method is not a string or the recorded
    headers cannot be merged.  A record it returns was parsed from the
    answer to that call, which had status 200. *)
Theorem discovered_api_makes_at_most_one_call api_request cn sd el sent :
  let out := _try_discovered_api config py_repr server api_request cn sd el sent in
  (snd out = sent \/
   exists method s,
     snd out = sent ++ [DiscoveredCall method (req_url api_request)] /\
     req_method api_request = PyStr s /\
     (method = POST <-> upper s = "POST")) /\
  (forall r,
     fst out = Some r ->
     snd out <> sent /\ answered config py_repr server (snd out) r cn sd el) /\
  ((forall s, req_method api_request <> PyStr s) \/
   (truthy (req_headers api_request) = true /\
    update_accepts (req_headers api_request) = false) ->
   out = (None, sent)).
Proof.
  intros out. subst out. unfold _try_discovered_api, call.
  destruct (truthy (req_headers api_request)
            && negb (update_accepts (req_headers api_request))) eqn:EH.
  { cbn [fst snd]. split; [left; reflexivity |]. split; [discriminate | reflexivity]. }
  assert (NH : ~ (truthy (req_headers api_request) = true /\
                  update_accepts (req_headers api_request) = false)).
  { intros [H1 H2]. rewrite H1, H2 in EH. discriminate. }
  destruct (req_method api_request) as [| | | | s | |] eqn:EM;
    try (cbn [fst snd]; split; [left; reflexivity |];
         split; [discriminate | reflexivity]).
  assert (Hsnoc : forall c : Call, sent ++ [c] <> sent).
  { intros c E. apply (f_equal (@length Call)) in E.
    rewrite length_app in E. cbn in E. lia. }
  set (method := if String.eqb (upper s) "POST" then POST else GET).
  assert (Hm : method = POST <-> upper s = "POST").
  { unfold method. destruct (String.eqb_spec (upper s) "POST"); split;
      intros; congruence. }
  destruct (server (length sent)) as [response | e] eqn:ES; cbn [fst snd].
  - split; [right; exists method, s; auto |].
    split.
    + intros r D. apply discovered_some in D as [H1 H2].
      split; [apply Hsnoc |]. exists response. rewrite pred_length_snoc. auto.
    + intros [H | H]; [exfalso; apply (H s); reflexivity | contradiction].
  - split; [right; exists method, s; auto |].
    split; [discriminate |].
    intros [H | H]; [exfalso; apply (H s); reflexivity | contradiction].
Qed.

End CallFacts.

(** *** The performance logs *)

Lemma api_request_of_some message r :
  api_request_of message = Some (Some r) ->
  any_in api_keywords (lower (req_url r)) = true.
Proof.
  unfold api_request_of.
  repeat match goal with
         | |- context [match ?x with _ => _ end] =>
             destruct x eqn:?; try discriminate
         end.
  intros [= <-]. cbn [req_url].
  match goal with
  | H : lowered (PyStr ?u) = Some ?l |- _ => cbn in H; injection H as <-
  end.
  assumption.
Qed.

(** X21.  [_analyze_network_logs] keeps at most one request per log entry,
    and only requests whose URL, lowered, mentions "api", "predict",
    "search", "status" or "case"; entries that do not decode, or whose shape
    makes a lookup raise, are skipped without ending the scan. *)
Theorem network_logs_keep_api_urls_only json_loads logs :
  Forall (fun r => any_in api_keywords (lower (req_url r)) = true)
         (_analyze_network_logs json_loads logs) /\
  (length (_analyze_network_logs json_loads logs) <= length logs)%nat /\
  (forall entry,
     json_loads entry = None \/
     (exists message, json_loads entry = Some message /\
                      api_request_of message = None) ->
     _analyze_network_logs json_loads (entry :: logs)
     = _analyze_network_logs json_loads logs).
Proof.
  split; [| split].
  - induction logs as [| entry rest IH]; [constructor |].
    cbn [_analyze_network_logs].
    destruct (json_loads entry) as [message |]; [| exact IH].
    destruct (api_request_of message) as [[r |] |] eqn:E; try exact IH.
    constructor; [eapply api_request_of_some; eassumption | exact IH].
  - induction logs as [| entry rest IH]; [reflexivity |].
    cbn [_analyze_network_logs length].
    destruct (json_loads entry) as [message |]; [| lia].
    destruct (api_request_of message) as [[r |] |]; cbn [length]; lia.
  - intros entry [E | (message & E & A)]; cbn [_analyze_network_logs]; rewrite E;
      [reflexivity | rewrite A; reflexivity].
Qed.

End PERMScraperSessionFacts.

(** ** The mock status of the PERM resolver *)

Module PERMScraperMockFacts.
Import PyDate PERMScraperMock ETAEstimatorFacts.

(** X23.  The mock status is always flagged as mock data and dated one day
    before today.  For a submission date that parses, its queue position is
    at least 1, and at most 2200 when the date is not in the future and the
    mock rate is not negative (the random offset being within its bounds);
    for any other submission date it is the configured mock position. *)
Theorem mock_status_position config rate letter today env randint cn sd m :
  -200 <= randint <= 200 ->
  _get_mock_status config rate letter today env randint cn sd = Ok m ->
  is_mock_data m = true /\
  last_processed_date m = today - 1 /\
  case_number m = cn /\ submission_date m = sd /\
  (forall d,
     strptime_ymd sd = Ok d ->
     1 <= position_in_queue m /\
     (d <= today -> 0 <= rate -> position_in_queue m <= 2200)) /\
  (forall e, strptime_ymd sd = Raise e ->
             position_in_queue m = MOCK_POSITION config).
Proof.
  intros Hr. unfold _get_mock_status.
  destruct (add_days today (-1)) as [y |] eqn:Ey; cbn [rbind]; [| discriminate].
  apply add_days_inv in Ey as (-> & _ & _).
  intros [= <-]. cbn.
  split; [reflexivity |]. split; [lia |]. split; [reflexivity |].
  split; [reflexivity |].
  unfold mock_position, try_except.
  split.
  - intros d ->. cbn [rbind]. split; [lia |]. intros Hd Hrate.
    assert (0 <= (today - d) * rate) by (apply Z.mul_nonneg_nonneg; lia). lia.
  - intros e ->. reflexivity.
Qed.

Lemma mock_status_position_witness :
  exists m,
    _get_mock_status default_config 50 "G" 739924 None 137 "A-1" "2026-10-25" = Ok m /\
    1 <= position_in_queue m <= 2200 /\ is_mock_data m = true.
Proof.
  eexists. split; [vm_compute; reflexivity |].
  destruct (mock_status_position default_config 50 "G" 739924 None 137
              "A-1" "2026-10-25" _ ltac:(lia) eq_refl)
    as (Hm & _ & _ & _ & Hp & _).
  destruct (Hp 739914 ltac:(vm_compute; reflexivity)) as [H1 H2].
  split; [split; [exact H1 | apply H2; lia] | exact Hm].
Defined.

End PERMScraperMockFacts.

(** ** The entry point of the USCIS client *)

Module CaseStatusAPIClientFacts.
Import Binary64 Text PyVal CaseStatusAPI CaseStatusAPISpec CaseStatusAPILabels
       CaseStatusAPIClient CaseStatusAPIFacts.

Section ClientFacts.
Variable config : Config.
Variable server : nat -> result Response.
Variable uniform : nat -> pyfloat.
Variable now : string.

Lemma parse_api_labelled data cn r :
  _parse_api_response data cn = Some r -> api_labelled cn r.
Proof.
  unfold _parse_api_response, try_except, parse_body.
  destruct data; cbn [as_dict rbind]; try discriminate.
  cbv zeta. destruct (determine_case_type_of_value _); cbn [rbind]; [| discriminate].
  intros [= <-]. unfold api_labelled. cbn. auto.
Qed.

Lemma parse_text_labelled text_content cn r :
  _parse_text_response now text_content cn = Some r -> api_labelled cn r.
Proof. intros [= <-]. unfold api_labelled. cbn. auto. Qed.

Lemma attempt_round_labelled again cn attempt st v st' :
  (forall st0 v0 st1,
     again st0 = (Ok v0, st1) -> forall r, v0 = Some r -> api_labelled cn r) ->
  attempt_round config server uniform now again cn attempt st = (Return v, st') ->
  forall r, v = Some r -> api_labelled cn r.
Proof.
  intros Hagain.
  unfold attempt_round, bind, get_token, request, retry_or_give_up, backoff, ret,
    _get_access_token, set_token.
  destruct (server (requests_made st)) as [response | e].
  2:{ destruct (attempt <? retries config - 1); intros [= <- <-]; discriminate. }
  destruct (status_code response =? 200).
  { destruct (json response) as [data |]; intros [= <- <-] r Hr.
    - eapply parse_api_labelled; eassumption.
    - eapply parse_text_labelled; eassumption. }
  destruct (status_code response =? 401).
  { unfold bind, request, ret. cbn [requests_made draws_made access_token trace].
    destruct (truthy _).
    - match goal with
      | |- context [again ?s] => destruct (again s) as [[v0 | e0] st1] eqn:EA
      end.
      + intros [= <- <-]. eapply Hagain; eassumption.
      + destruct (attempt <? retries config - 1); intros [= <- <-]; discriminate.
    - intros [= <- <-] r [= <-]. unfold api_labelled. cbn. auto. }
  destruct (status_code response =? 404).
  { intros [= <- <-] r [= <-]. unfold api_labelled. cbn. auto. }
  destruct (status_code response =? 503).
  { destruct (attempt <? retries config - 1); intros H;
      [discriminate H | injection H as <- <-].
    intros r [= <-]. unfold api_labelled. cbn. auto. }
  destruct (attempt <? retries config - 1); intros [= <- <-]; discriminate.
Qed.

Lemma attempts_loop_labelled again cn attempts :
  (forall st0 v0 st1,
     again st0 = (Ok v0, st1) -> forall r, v0 = Some r -> api_labelled cn r) ->
  forall st v st',
    attempts_loop config server uniform now again cn attempts st = (Ok v, st') ->
    forall r, v = Some r -> api_labelled cn r.
Proof.
  intros Hagain. induction attempts as [| attempt rest IH]; intros st v st'.
  - cbn [attempts_loop]. unfold ret. intros [= <- <-]. discriminate.
  - cbn [attempts_loop]. unfold bind.
    destruct (attempt_round config server uniform now again cn attempt st)
      as [[| v1] st1] eqn:ER.
    + apply IH.
    + unfold ret. intros [= <- <-].
      exact (attempt_round_labelled again cn attempt st _ _ Hagain ER).
Qed.

Lemma get_status_labelled depth cn :
  forall st v st',
    _get_status_from_api config server uniform now depth cn st = (Ok v, st') ->
    forall r, v = Some r -> api_labelled cn r.
Proof.
  induction depth as [| depth IH]; intros st v st'.
  - cbn [_get_status_from_api]. unfold ret. discriminate.
  - cbn [_get_status_from_api]. apply attempts_loop_labelled. exact IH.
Qed.

(** X24.  Every record [_get_status_from_api] returns, through any number
    of token refreshes and retries, is for the case number asked for, names
    "uscis.gov" as its source, and is labelled with the method
    "official_api_oauth2" or "api_text". *)
Theorem api_records_are_labelled depth cn st r st' :
  _get_status_from_api config server uniform now depth cn st = (Ok (Some r), st') ->
  CaseStatusAPI.case_number r = cn /\
  data_source r = "uscis.gov" /\
  (method r = "official_api_oauth2" \/ method r = "api_text").
Proof.
  intros H. eapply (get_status_labelled depth cn st (Some r) st' H). reflexivity.
Qed.

Variable MOCK_USCIS_STATUS : option string.
Variable web : result Response.
Variable status_div : string -> option string.

Lemma web_record_inv cn r :
  _get_status_from_web_scraping now web status_div cn = Some r ->
  CaseStatusAPI.case_number r = cn /\
  data_source r = "uscis.gov" /\
  method r = "web_scraping_fallback" /\
  exists response status_text,
    web = Ok response /\ status_code response = 200 /\
    status r = PyStr status_text /\ status_text <> EmptyString /\
    contains "not found" (lower status_text) = false.
Proof.
  unfold _get_status_from_web_scraping.
  destruct web as [response |]; [| discriminate].
  destruct (Z.eqb_spec (status_code response) 200) as [Hc |]; [| discriminate].
  destruct (status_div (text response)) as [status_text |]; [| discriminate].
  destruct (String.eqb_spec status_text EmptyString) as [| Hne]; cbn [negb andb];
    [discriminate |].
  destruct (contains "not found" (lower status_text)) eqn:Hnf; cbn [negb];
    [discriminate |].
  intros [= <-]. cbn. repeat split. eauto 10.
Qed.

(** X25.  With mock data switched off, [get_case_status] posts to the public
    page at most once, and only after the API path has returned no record.
    A record it returns is for the case number asked for and carries its
    origin: either the API labels, with no POST to the page, or the label
    "web_scraping_fallback", after exactly one POST that was answered with
    status 200 and a status text that is neither empty nor "not found". *)
Theorem case_status_record_origin depth cn client r client' :
  get_case_status config server uniform now false MOCK_USCIS_STATUS web status_div
    depth cn client = (Some (FromService r), client') ->
  CaseStatusAPI.case_number r = cn /\
  data_source r = "uscis.gov" /\
  ((web_requests client' = web_requests client /\
    (method r = "official_api_oauth2" \/ method r = "api_text"))
   \/
   (web_requests client' = S (web_requests client) /\
    method r = "web_scraping_fallback" /\
    fst (_get_status_from_api config server uniform now depth cn
           (snd (ensure_token server (api client)))) = Ok None /\
    exists response status_text,
      web = Ok response /\ status_code response = 200 /\
      status r = PyStr status_text /\ status_text <> EmptyString /\
      contains "not found" (lower status_text) = false)).
Proof.
  unfold get_case_status.
  destruct (ensure_token server (api client)) as [[|] st1]; [| discriminate].
  cbn [snd].
  destruct (_get_status_from_api config server uniform now depth cn st1)
    as [[[r0 |] | e] st2] eqn:EA.
  - intros [= <- <-]. cbn [web_requests].
    destruct (get_status_labelled depth cn st1 (Some r0) st2 EA r0 eq_refl)
      as (H1 & H2 & H3).
    split; [exact H1 |]. split; [exact H2 |]. left. split; [reflexivity | exact H3].
  - destruct (_get_status_from_web_scraping now web status_div cn) as [rw |] eqn:EW;
      cbn [option_map]; [| discriminate].
    intros [= <- <-]. cbn [web_requests].
    apply web_record_inv in EW as (H1 & H2 & H3 & H4).
    split; [exact H1 |]. split; [exact H2 |]. right. cbn [fst]. auto.
  - discriminate.
Qed.

(** X26.  With mock data switched on, [get_case_status] returns the mock
    record and sends nothing.  With it switched off, when no token is stored
    and the token request yields none, it returns [None] after that single
    request: no status request and no POST to the public page follow. *)
Theorem case_status_needs_token depth cn client :
  get_case_status config server uniform now true MOCK_USCIS_STATUS web status_div
    depth cn client
  = (Some (FromMock (_get_mock_status now MOCK_USCIS_STATUS cn)), client) /\
  (truthy (access_token (api client)) = false ->
   truthy (token_of_response (server (requests_made (api client)))) = false ->
   get_case_status config server uniform now false MOCK_USCIS_STATUS web status_div
     depth cn client
   = (None,
      {| api := {| requests_made := S (requests_made (api client));
                   draws_made := draws_made (api client);
                   access_token :=
                     token_of_response (server (requests_made (api client)));
                   trace := trace (api client) ++ [TokenRequest] |};
         web_requests := web_requests client |})).
Proof.
  split; [reflexivity |].
  intros Ht Hf.
  cbv [get_case_status ensure_token bind get_token _get_access_token request
       set_token ret].
  rewrite Ht. cbv beta iota zeta.
  cbn [requests_made draws_made access_token trace].
  rewrite Hf. reflexivity.
Qed.

End ClientFacts.

Lemma api_records_are_labelled_witness :
  let r := _create_not_found_response "2026-11-04" "WAC1234567890" in
  CaseStatusAPI.case_number r = "WAC1234567890" /\
  data_source r = "uscis.gov" /\
  (method r = "official_api_oauth2" \/ method r = "api_text").
Proof.
  apply (api_records_are_labelled default_config
           (scripted [status_only 401; token_grant "t1"; status_only 404])
           (fun _ => Finite 0 0) "2026-11-04" 5 "WAC1234567890"
           (initial (PyStr "t0")) _
           {| requests_made := 3; draws_made := 0; access_token := PyStr "t1";
              trace := [StatusRequest (PyStr "t0"); TokenRequest;
                        StatusRequest (PyStr "t1")] |}).
  vm_compute. reflexivity.
Defined.

Lemma case_status_record_origin_witness :
  let page := {| status_code := 200; json := None;
                 text := "Case Was Approved"; soup_text := EmptyString |} in
  let outcome :=
    get_case_status default_config (fun _ => Raise ConnectionError)
      (fun _ => Finite 0 0) "2026-11-04" false None (Ok page)
      (fun page_text => Some page_text) 5 "WAC1234567890"
      {| api := initial (PyStr "t0"); web_requests := 0 |} in
  exists r,
    fst outcome = Some (FromService r) /\
    method r = "web_scraping_fallback" /\
    web_requests (snd outcome) = 1%nat.
Proof.
  intros page outcome.
  destruct outcome as [result client'] eqn:E.
  assert (E' : outcome = (result, client')) by exact E.
  vm_compute in E. injection E as <- <-.
  eexists. split; [reflexivity |].
  destruct (case_status_record_origin default_config (fun _ => Raise ConnectionError)
              (fun _ => Finite 0 0) "2026-11-04" None (Ok page)
              (fun page_text => Some page_text) 5 "WAC1234567890"
              {| api := initial (PyStr "t0"); web_requests := 0 |} _ _
              ltac:(vm_compute; reflexivity))
    as (_ & _ & [[_ [H | H]] | (H1 & H2 & _ & _)]); try discriminate H.
  split; [exact H2 | reflexivity].
Defined.

End CaseStatusAPIClientFacts.
